(** * multilspy: configuration, provisioning and the Eclipse JDTLS handshake

    A shallow embedding of
      - [multilspy/language_servers/__init__.py]   ([LanguageServers]),
      - [multilspy/multilspy_config.py]            ([Config]),
      - [multilspy/language_servers/eclipse_jdtls/eclipse_jdtls.py]
        ([Provision] for [setupRuntimeDependencies], [Handshake] for
        [start_server]),
    together with the statements proved about them. *)

From Stdlib Require Import ZArith List String Ascii Bool Lia.
From stdpp Require Import base option list strings gmap.
Import ListNotations.

#[local] Set Warnings "-register-all".
Local Open Scope string_scope.
Local Open Scope Z_scope.

(** ** Python values, exceptions and dictionaries *)

Module Py.

(** The exceptions the modelled code can raise. *)
Inductive exn : Type :=
| AssertionError (msg : string)
| KeyError (key : string)
| TypeError (msg : string)
| AttributeError (msg : string)
| ValueError (msg : string)
| FileNotFoundError (path : string)
| MultilspyException (msg : string)
| RuntimeError (msg : string)
| OtherError (msg : string).

(** A computation either returns or raises. *)
Inductive result (A : Type) : Type :=
| Ok (a : A)
| Raise (e : exn).
Arguments Ok {A} a.
Arguments Raise {A} e.

Definition bind {A B} (m : result A) (k : A -> result B) : result B :=
  match m with
  | Ok a => k a
  | Raise e => Raise e
  end.

Definition is_ok {A} (m : result A) : bool :=
  match m with Ok _ => true | Raise _ => false end.

(** [x if x is given else d] *)
Definition default_of {A} (o : option A) (d : A) : A :=
  match o with Some a => a | None => d end.

Declare Scope py_scope.
Delimit Scope py_scope with py.
Notation "x <- m ;; k" := (bind m (fun x => k))
  (at level 100, m at next level, right associativity) : py_scope.
Notation "m ;;; k" := (bind m (fun _ => k))
  (at level 100, right associativity) : py_scope.
Local Open Scope py_scope.

(** Stateful code that may raise: the state is threaded through, and an
    exception leaves the state as it was when it was raised. *)
Definition stm (S A : Type) : Type := S -> result A * S.

Definition ret {S A} (a : A) : stm S A := fun s => (Ok a, s).

Definition sbind {S A B} (m : stm S A) (k : A -> stm S B) : stm S B :=
  fun s =>
    match m s with
    | (Ok a, s') => k a s'
    | (Raise e, s') => (Raise e, s')
    end.

Definition lift {S A} (r : result A) : stm S A := fun s => (r, s).

Declare Scope stm_scope.
Delimit Scope stm_scope with stm.
Notation "x <- m ;; k" := (sbind m (fun x => k))
  (at level 100, m at next level, right associativity) : stm_scope.
Notation "m ;;; k" := (sbind m (fun _ => k))
  (at level 100, right associativity) : stm_scope.

(** [assert c, msg] *)
Definition assert (c : bool) (msg : string) : result unit :=
  if c then Ok tt else Raise (AssertionError msg).

(** JSON documents as Python sees them after [json.load]: a [dict] keeps
    its keys in insertion order.  Numbers are the integers; JSON reals do
    not occur in the documents the code inspects. *)
Inductive val : Type :=
| VNone
| VBool (b : bool)
| VInt (z : Z)
| VStr (s : string)
| VList (l : list val)
| VDict (d : list (string * val)).

Definition dict := list (string * val).

Section Dict.
Context {V : Type}.

(** [d.get(k)] *)
Fixpoint dict_get (k : string) (d : list (string * V)) : option V :=
  match d with
  | [] => None
  | (k', v) :: d' => if String.eqb k k' then Some v else dict_get k d'
  end.

(** [k in d] *)
Definition dict_contains (k : string) (d : list (string * V)) : bool :=
  match dict_get k d with Some _ => true | None => false end.

(** [d[k] = v]: an existing key keeps its position, a new key is
    appended. *)
Fixpoint dict_set (k : string) (v : V) (d : list (string * V))
  : list (string * V) :=
  match d with
  | [] => [(k, v)]
  | (k', v') :: d' =>
      if String.eqb k k' then (k', v) :: d'
      else (k', v') :: dict_set k v d'
  end.

(** [{**a, **b}] *)
Definition dict_update (a b : list (string * V)) : list (string * V) :=
  fold_left (fun acc kv => dict_set (fst kv) (snd kv) acc) b a.
End Dict.

(** [a == b] on JSON values; [bool] is a subclass of [int], so
    [True == 1]; dictionaries compare regardless of key order. *)
Fixpoint eq (a b : val) {struct a} : bool :=
  match a, b with
  | VNone, VNone => true
  | VBool x, VBool y => Bool.eqb x y
  | VBool x, VInt y => Z.eqb (Z.b2z x) y
  | VInt x, VBool y => Z.eqb x (Z.b2z y)
  | VInt x, VInt y => Z.eqb x y
  | VStr x, VStr y => String.eqb x y
  | VList xs, VList ys =>
      (fix go (xs ys : list val) {struct xs} : bool :=
         match xs, ys with
         | [], [] => true
         | x :: xs', y :: ys' => eq x y && go xs' ys'
         | _, _ => false
         end) xs ys
  | VDict xs, VDict ys =>
      Nat.eqb (length xs) (length ys)
      && (fix go (xs : list (string * val)) {struct xs} : bool :=
            match xs with
            | [] => true
            | (k, v) :: xs' =>
                match dict_get k ys with
                | Some w => eq v w
                | None => false
                end && go xs'
            end) xs
  | _, _ => false
  end.

(** Truth value of an object: [None], [False], [0], [""], [[]] and [{}]
    are false. *)
Definition truthy (v : val) : bool :=
  match v with
  | VNone => false
  | VBool b => b
  | VInt z => negb (Z.eqb z 0)
  | VStr s => negb (String.eqb s "")
  | VList l => match l with [] => false | _ => true end
  | VDict d => match d with [] => false | _ => true end
  end.

(** [needle in hay] for two strings: substring test. *)
Fixpoint str_contains (needle hay : string) : bool :=
  String.prefix needle hay
  || match hay with
     | EmptyString => false
     | String _ hay' => str_contains needle hay'
     end.

(** [x in c]: key test on a dict, element test on a list, substring test
    on a string; other JSON values are not containers. *)
Definition contains (x : val) (c : val) : result bool :=
  match c with
  | VDict d =>
      match x with
      | VStr k => Ok (dict_contains k d)
      | VList _ | VDict _ => Raise (TypeError "unhashable type")
      | _ => Ok false
      end
  | VList l => Ok (existsb (eq x) l)
  | VStr s =>
      match x with
      | VStr k => Ok (str_contains k s)
      | _ => Raise (TypeError "'in <string>' requires string as left operand")
      end
  | _ => Raise (TypeError "argument is not iterable")
  end.

(** [c[k]] with a string subscript. *)
Definition getitem (c : val) (k : string) : result val :=
  match c with
  | VDict d =>
      match dict_get k d with
      | Some v => Ok v
      | None => Raise (KeyError k)
      end
  | VList _ => Raise (TypeError "list indices must be integers or slices, not str")
  | VStr _ => Raise (TypeError "string indices must be integers, not 'str'")
  | _ => Raise (TypeError "object is not subscriptable")
  end.

(** [c[k] = x] with a string subscript. *)
Definition setitem (k : string) (x : val) (c : val) : result val :=
  match c with
  | VDict d => Ok (VDict (dict_set k x d))
  | VList _ => Raise (TypeError "list indices must be integers or slices, not str")
  | _ => Raise (TypeError "object does not support item assignment")
  end.

(** [for x in c]: the elements the loop visits. *)
Definition iter (c : val) : result (list val) :=
  match c with
  | VList l => Ok l
  | VDict d => Ok (map (fun kv => VStr (fst kv)) d)
  | VStr s => Ok (map (fun a => VStr (String a EmptyString)) (list_ascii_of_string s))
  | _ => Raise (TypeError "object is not iterable")
  end.

End Py.

Import Py.
Local Open Scope py_scope.

(** ** [multilspy/language_servers/__init__.py] and [multilspy_config.py] *)

Module Config.

Inductive LanguageServers : Type :=
| JEDI | ECLIPSEJDTLS | RUSTANALYZER | OMNISHARP.

Inductive Language : Type :=
| CSHARP | PYTHON | RUST | JAVA.

#[global] Instance LanguageServers_eq_dec : EqDecision LanguageServers.
Proof. solve_decision. Defined.
#[global] Instance Language_eq_dec : EqDecision Language.
Proof. solve_decision. Defined.

Definition LanguageServers_value (s : LanguageServers) : string :=
  match s with
  | JEDI => "JediServer"
  | ECLIPSEJDTLS => "EclipseJDTLS"
  | RUSTANALYZER => "RustAnalyzer"
  | OMNISHARP => "OmniSharp"
  end.

Definition Language_value (l : Language) : string :=
  match l with
  | CSHARP => "csharp"
  | PYTHON => "python"
  | RUST => "rust"
  | JAVA => "java"
  end.

(** [posixpath.join(a, b)] *)
Definition os_path_join (a b : string) : string :=
  if String.prefix "/" b then b
  else if String.eqb a "" then b
  else if String.eqb (String.substring (String.length a - 1) 1 a) "/" then a +:+ b
  else a +:+ "/" +:+ b.

(** [posixpath.isabs(s)] *)
Definition os_path_isabs (s : string) : bool := String.prefix "/" s.

(** [posixpath.basename(s)]: what follows the last slash. *)
Fixpoint basename_from (s acc : string) : string :=
  match s with
  | EmptyString => acc
  | String c s' =>
      if Ascii.eqb c "/"%char then basename_from s' ""
      else basename_from s' (acc +:+ String c EmptyString)
  end.
Definition os_path_basename (s : string) : string := basename_from s "".

(** What [open(path)] followed by [json.load] gives. *)
Inductive file_outcome : Type :=
| NoSuchFile
| BadJSON (detail : string)
| Loaded (v : val).

(** The process environment the configuration code reads: the files on
    disk, the process identifier, the directory of the package
    ([os.path.dirname(__file__)]), and the library functions
    [os.path.abspath], [os.path.exists] and [pathlib.Path(p).as_uri()]
    (on an absolute path). *)
Record OsEnv : Type := {
  files : string -> file_outcome;
  getpid : Z;
  module_dir : string;
  abspath : string -> string;
  path_exists : string -> bool;
  uri_of_abs : string -> string
}.

(** [pathlib.Path(p).as_uri()] *)
Definition Path_as_uri (env : OsEnv) (p : string) : result string :=
  if os_path_isabs p then Ok (uri_of_abs env p)
  else Raise (ValueError "relative path can't be expressed as a file URI").

Definition default_language_server_init_params_file
    (env : OsEnv) (language : Language) : string :=
  let default_init_params_relative_path :=
    match language with
    | PYTHON => "language_servers/jedi_language_server/initialize_params.json"
    | JAVA => "language_servers/eclipse_jdtls/initialize_params.json"
    | RUST => "language_servers/rust_analyzer/initialize_params.json"
    | CSHARP => "language_servers/omnisharp/initialize_params.json"
    end in
  os_path_join (module_dir env) default_init_params_relative_path.

Definition invalid_language_server_msg
    (language_server : LanguageServers) (code_language : Language) : string :=
  "Invalid language server '" +:+ LanguageServers_value language_server
    +:+ "' for code language '" +:+ Language_value code_language +:+ "'".

Definition ls_in (s : LanguageServers) (l : list LanguageServers) : bool :=
  bool_decide (s ∈ l).

Definition validate_language_server
    (code_language : Language) (language_server : option LanguageServers)
  : result (option LanguageServers) :=
  let python_language_servers := [JEDI] in
  let java_language_servers := [ECLIPSEJDTLS] in
  let rust_language_servers := [RUSTANALYZER] in
  let csharp_language_servers := [OMNISHARP] in
  match language_server with
  | Some ls =>
      if bool_decide (code_language = PYTHON) && negb (ls_in ls python_language_servers)
      then Raise (ValueError (invalid_language_server_msg ls code_language))
      else if bool_decide (code_language = JAVA) && negb (ls_in ls java_language_servers)
      then Raise (ValueError (invalid_language_server_msg ls code_language))
      else if bool_decide (code_language = RUST) && negb (ls_in ls rust_language_servers)
      then Raise (ValueError (invalid_language_server_msg ls code_language))
      else if bool_decide (code_language = CSHARP) && negb (ls_in ls csharp_language_servers)
      then Raise (ValueError (invalid_language_server_msg ls code_language))
      else Ok language_server
  | None => Ok language_server
  end.

(** The servers registered for a language (the four lists of
    [validate_language_server]). *)
Definition registered_servers (code_language : Language) : list LanguageServers :=
  match code_language with
  | PYTHON => [JEDI]
  | JAVA => [ECLIPSEJDTLS]
  | RUST => [RUSTANALYZER]
  | CSHARP => [OMNISHARP]
  end.

(** A dataclass field declaration: its default and its [metadata]
    mapping.  [dataclasses] stores [metadata] on the field object and
    never reads it. *)
Record Field (A : Type) : Type := {
  default : A;
  metadata : list (string * (Language -> A -> result A))
}.
Arguments default {A} _.
Arguments metadata {A} _.

(** [field(default=None, metadata={"validator": validate_language_server})] *)
Definition language_server_field : Field (option LanguageServers) :=
  {| default := None;
     metadata := [("validator", validate_language_server)] |}.

Record MultilspyConfig : Type := {
  code_language : Language;
  trace_lsp_communication : bool;
  language_server : option LanguageServers;
  custom_init_params_file : option string;
  init_params_overrides : option dict;
  repository_absolute_path : option string
}.

(** The [__init__] that [@dataclass] generates for [MultilspyConfig]: an
    argument that is not passed ([None] here) takes its field's default,
    and every field is assigned as given.  The class defines no
    [__post_init__]. *)
Definition MultilspyConfig_init
    (a_code_language : Language)
    (a_trace_lsp_communication : option bool)
    (a_language_server : option (option LanguageServers))
    (a_custom_init_params_file : option (option string))
    (a_init_params_overrides : option (option dict))
    (a_repository_absolute_path : option (option string))
  : result MultilspyConfig :=
  Ok {| code_language := a_code_language;
        trace_lsp_communication := default_of a_trace_lsp_communication false;
        language_server :=
          default_of a_language_server (default language_server_field);
        custom_init_params_file := default_of a_custom_init_params_file None;
        init_params_overrides := default_of a_init_params_overrides None;
        repository_absolute_path := default_of a_repository_absolute_path None |}.

(** [if self.custom_init_params_file:] and [if self.repository_absolute_path:]
    on an optional string: [None] and the empty string are false. *)
Definition truthy_str (o : option string) : bool :=
  match o with
  | Some s => negb (String.eqb s "")
  | None => false
  end.

(** [if self.init_params_overrides:] *)
Definition truthy_dict (o : option dict) : bool :=
  match o with
  | Some (_ :: _) => true
  | _ => false
  end.

(** [InitializeParams] applied to the unpacked [params]: unpacking wants a mapping, and the typed
    dict is a plain [dict] with the same items. *)
Definition InitializeParams_of (params : val) : result dict :=
  match params with
  | VDict d => Ok d
  | _ => Raise (TypeError "argument after ** must be a mapping")
  end.

Definition default_read_error (detail : string) : exn :=
  MultilspyException
    ("Error reading default initialization parameters file: " +:+ detail).

Definition custom_read_error (detail : string) : exn :=
  MultilspyException
    ("Error reading custom initialization parameters file: " +:+ detail).

Definition no_such_file_detail (path : string) : string :=
  "[Errno 2] No such file or directory: '" +:+ path +:+ "'".

Definition rootPath_error : exn :=
  MultilspyException
    "rootPath is set to `$rootPath` in initialization parameters and `repository_absolute_path` not provided in the configuration".

Section WithEnv.
Variable env : OsEnv.

Definition _read_default_init_params (self : MultilspyConfig) : result dict :=
  let default_init_params_file :=
    default_language_server_init_params_file env (code_language self) in
  match files env default_init_params_file with
  | Loaded default_params => InitializeParams_of default_params
  | NoSuchFile =>
      Raise (default_read_error (no_such_file_detail default_init_params_file))
  | BadJSON detail => Raise (default_read_error detail)
  end.

Definition _read_custom_init_params (self : MultilspyConfig) : result dict :=
  if truthy_str (custom_init_params_file self) then
    let path := default_of (custom_init_params_file self) "" in
    match files env path with
    | Loaded custom_params => InitializeParams_of custom_params
    | BadJSON detail => Raise (custom_read_error detail)
    | NoSuchFile => Raise (FileNotFoundError path)
    end
  else Ok [].

(** The first statement of [get_initialization_params]: which file the
    document is read from. *)
Definition read_init_params (self : MultilspyConfig) : result dict :=
  if truthy_str (custom_init_params_file self)
  then _read_custom_init_params self
  else _read_default_init_params self.

(** The second statement: the shallow merge with the overrides. *)
Definition apply_overrides (self : MultilspyConfig) (init_params : dict) : dict :=
  if truthy_dict (init_params_overrides self)
  then dict_update init_params (default_of (init_params_overrides self) [])
  else init_params.

Definition workspace_folder (uri name : string) : val :=
  VDict [("uri", VStr uri); ("name", VStr name)].

(** The third statement: the repository path, or the placeholder check. *)
Definition apply_repository_path (self : MultilspyConfig) (init_params : dict)
  : result dict :=
  if truthy_str (repository_absolute_path self) then
    let repo := default_of (repository_absolute_path self) "" in
    let init_params := dict_set "rootPath" (VStr repo) init_params in
    uri <- Path_as_uri env repo ;;
    let init_params := dict_set "rootUri" (VStr uri) init_params in
    if dict_contains "workspaceFolders" init_params then
      uri <- Path_as_uri env repo ;;
      Ok (dict_set "workspaceFolders"
            (VList [workspace_folder uri (os_path_basename repo)]) init_params)
    else Ok init_params
  else
    rootPath <- getitem (VDict init_params) "rootPath" ;;
    if eq rootPath (VStr "$rootPath") then Raise rootPath_error
    else Ok init_params.

Definition get_initialization_params (self : MultilspyConfig) : result dict :=
  init_params <- read_init_params self ;;
  let init_params := apply_overrides self init_params in
  init_params <- apply_repository_path self init_params ;;
  let init_params := dict_set "processId" (VInt (getpid env)) init_params in
  Ok init_params.

End WithEnv.

(** [multilspy_types.RuntimeDependencyPaths], with the fields
    [setupRuntimeDependencies] fills in. *)
Record RuntimeDependencyPaths : Type := {
  gradle_path : string;
  lombok_jar_path : string;
  jre_path : string;
  jre_home_path : string;
  jdtls_launcher_jar_path : string;
  jdtls_readonly_config_path : string;
  intellicode_jar_path : string;
  intellisense_members_path : string
}.

(** [EclipseJDTLSConfig(MultilspyConfig)]: the inherited fields and
    [runtime_dependency_paths]. *)
Record EclipseJDTLSConfig : Type := {
  base : MultilspyConfig;
  runtime_dependency_paths : option RuntimeDependencyPaths
}.

(** [code_language] and [language_server] are [init=False] fields with
    the defaults [Language.JAVA] and [LanguageServers.ECLIPSEJDTLS]. *)
Definition EclipseJDTLSConfig_init
    (a_trace_lsp_communication : option bool)
    (a_custom_init_params_file : option (option string))
    (a_init_params_overrides : option (option dict))
    (a_repository_absolute_path : option (option string))
    (a_runtime_dependency_paths : option (option RuntimeDependencyPaths))
  : result EclipseJDTLSConfig :=
  Ok {| base :=
          {| code_language := JAVA;
             trace_lsp_communication := default_of a_trace_lsp_communication false;
             language_server := Some ECLIPSEJDTLS;
             custom_init_params_file := default_of a_custom_init_params_file None;
             init_params_overrides := default_of a_init_params_overrides None;
             repository_absolute_path := default_of a_repository_absolute_path None |};
        runtime_dependency_paths := default_of a_runtime_dependency_paths None |}.

Definition set_repository_absolute_path
    (self : EclipseJDTLSConfig) (p : string) : EclipseJDTLSConfig :=
  {| base :=
       {| code_language := code_language (base self);
          trace_lsp_communication := trace_lsp_communication (base self);
          language_server := language_server (base self);
          custom_init_params_file := custom_init_params_file (base self);
          init_params_overrides := init_params_overrides (base self);
          repository_absolute_path := Some p |};
     runtime_dependency_paths := runtime_dependency_paths self |}.

(** [c[k]] is fetched, [f] works on that object in place, and the
    container then holds the changed object. *)
Definition in_item (k : string) (f : val -> result val) (c : val) : result val :=
  sub <- getitem c k ;;
  sub' <- f sub ;;
  setitem k sub' c.

(** [c.setdefault(k, {})] is fetched (added when absent) and [f] works
    on that object in place. *)
Definition in_setdefault (k : string) (f : val -> result val) (c : val)
  : result val :=
  match c with
  | VDict d =>
      let sub := default_of (dict_get k d) (VDict []) in
      sub' <- f sub ;;
      Ok (VDict (dict_set k sub' d))
  | _ => Raise (AttributeError "object has no attribute 'setdefault'")
  end.

Definition isabs_type_error : exn :=
  TypeError "expected str, bytes or os.PathLike object, not NoneType".

(** [os.path.isabs(p)] on an attribute that may be [None]. *)
Definition os_path_isabs_opt (p : option string) : result bool :=
  match p with
  | Some s => Ok (os_path_isabs s)
  | None => Raise isabs_type_error
  end.

Section EclipseWithEnv.
Variable env : OsEnv.

(** [os.path.exists(x)] on a document value; the only values that
    reach it are the strings stored just before. *)
Definition os_path_exists_val (x : val) : result bool :=
  match x with
  | VStr s => Ok (path_exists env s)
  | _ => Raise (TypeError "stat: path should be string, bytes, os.PathLike or integer")
  end.

Fixpoint check_runtimes (runtimes : list val) : result unit :=
  match runtimes with
  | [] => Ok tt
  | runtime :: rest =>
      has_name <- contains (VStr "name") runtime ;;
      assert has_name "" ;;;
      has_path <- contains (VStr "path") runtime ;;
      assert has_path "" ;;;
      path <- getitem runtime "path" ;;
      there <- os_path_exists_val path ;;
      assert there "Runtime required for eclipse_jdtls does not exist" ;;;
      check_runtimes rest
  end.

Definition apply_runtime_dependency_paths
    (rdp : RuntimeDependencyPaths) (init_params : val) : result val :=
  init_params <-
    in_item "initializationOptions"
      (setitem "bundles" (VList [VStr (intellicode_jar_path rdp)])) init_params ;;
  init_params <-
    in_item "initializationOptions"
      (in_setdefault "settings" (in_setdefault "java" (in_setdefault "configuration"
         (setitem "runtimes"
            (VList [VDict [("name", VStr "JavaSE-17");
                           ("path", VStr (jre_home_path rdp));
                           ("default", VBool true)]])))))
      init_params ;;
  opts <- getitem init_params "initializationOptions" ;;
  settings <- getitem opts "settings" ;;
  java <- getitem settings "java" ;;
  configuration <- getitem java "configuration" ;;
  runtimes <- getitem configuration "runtimes" ;;
  runtimes <- iter runtimes ;;
  check_runtimes runtimes ;;;
  init_params <-
    in_item "initializationOptions"
      (in_setdefault "settings" (in_setdefault "java" (in_setdefault "import"
         (in_setdefault "gradle" (setitem "home" (VStr (gradle_path rdp)))))))
      init_params ;;
  in_item "initializationOptions"
    (in_item "settings" (in_item "java" (in_item "import" (in_item "gradle"
       (in_setdefault "java" (setitem "home" (VStr (jre_path rdp))))))))
    init_params.

(** [EclipseJDTLSConfig.get_initialization_params]; it also assigns
    [self.repository_absolute_path], so the configuration is returned
    with the document.  (Nested objects that came from the overrides
    stay shared with them in Python; that sharing is not tracked.) *)
Definition EclipseJDTLSConfig_get_initialization_params
    (self : EclipseJDTLSConfig) : result (dict * EclipseJDTLSConfig) :=
  init_params <- get_initialization_params env (base self) ;;
  isabs <- os_path_isabs_opt (repository_absolute_path (base self)) ;;
  let repo := default_of (repository_absolute_path (base self)) "" in
  let self :=
    if negb isabs then set_repository_absolute_path self (abspath env repo)
    else self in
  let repo := default_of (repository_absolute_path (base self)) "" in
  let init_params :=
    if negb (dict_contains "initializationOptions" init_params)
    then dict_set "initializationOptions" (VDict []) init_params
    else init_params in
  uri <- Path_as_uri env repo ;;
  init_params <-
    in_item "initializationOptions"
      (setitem "workspaceFolders" (VList [VStr uri])) (VDict init_params) ;;
  uri <- Path_as_uri env repo ;;
  init_params <-
    setitem "workspaceFolders"
      (VList [workspace_folder uri (os_path_basename repo)]) init_params ;;
  init_params <-
    match runtime_dependency_paths self with
    | Some rdp => apply_runtime_dependency_paths rdp init_params
    | None => Ok init_params
    end ;;
  d <- InitializeParams_of init_params ;;
  Ok (d, self).

End EclipseWithEnv.

(** *** Sample environments and configurations *)

Definition sample_default_params : val :=
  VDict [("processId", VNone);
         ("rootPath", VStr "$rootPath");
         ("rootUri", VStr "$rootUri");
         ("capabilities", VDict [("workspace", VDict [("applyEdit", VBool true)])]);
         ("trace", VStr "verbose");
         ("workspaceFolders", VList [VDict [("uri", VStr "$uri"); ("name", VStr "$name")]])].

Definition sample_custom_params : val :=
  VDict [("rootPath", VStr "/srv/project");
         ("trace", VStr "off")].

Definition sample_env : OsEnv :=
  {| files := fun path =>
       if String.eqb path "/pkg/multilspy/language_servers/eclipse_jdtls/initialize_params.json"
       then Loaded sample_default_params
       else if String.eqb path "/pkg/multilspy/language_servers/jedi_language_server/initialize_params.json"
       then Loaded sample_default_params
       else if String.eqb path "/home/me/custom.json"
       then Loaded sample_custom_params
       else NoSuchFile;
     getpid := 4242;
     module_dir := "/pkg/multilspy";
     abspath := fun p => if os_path_isabs p then p else "/cwd/" +:+ p;
     path_exists := fun _ => true;
     uri_of_abs := fun p => "file://" +:+ p |}.

Definition plain_config (lang : Language) : MultilspyConfig :=
  {| code_language := lang;
     trace_lsp_communication := false;
     language_server := None;
     custom_init_params_file := None;
     init_params_overrides := None;
     repository_absolute_path := None |}.

Definition custom_file_config : MultilspyConfig :=
  {| code_language := JAVA;
     trace_lsp_communication := false;
     language_server := None;
     custom_init_params_file := Some "/home/me/custom.json";
     init_params_overrides := None;
     repository_absolute_path := None |}.

Definition repo_config : MultilspyConfig :=
  {| code_language := JAVA;
     trace_lsp_communication := false;
     language_server := None;
     custom_init_params_file := None;
     init_params_overrides := Some [("trace", VStr "messages")];
     repository_absolute_path := Some "/srv/project" |}.

Definition eclipse_no_repo : EclipseJDTLSConfig :=
  {| base := plain_config JAVA; runtime_dependency_paths := None |}.

Definition eclipse_no_repo_custom : EclipseJDTLSConfig :=
  {| base := custom_file_config; runtime_dependency_paths := None |}.

End Config.

(** ** [EclipseJDTLS.setupRuntimeDependencies] *)

Module Provision.
Import Config.

(** The file system: the paths that exist, each with its permission
    bits.  Failures of the operating system itself (permissions, a full
    disk) are outside the model. *)
Abbreviation fsmap := (gmap string Z).

(** What a provisioning run does to the outside world, in order. *)
Inductive event : Type :=
| EMakedirs (path : string)
| EDownload (url : val) (target : string) (archiveType : val)
| EChmod (path : string) (mode : Z).

Record world : Type := {
  fs : fsmap;
  log : list event
}.

Definition io (A : Type) : Type := stm world A.

Local Open Scope stm_scope.

Definition emit (e : event) : io unit :=
  fun w => (Ok tt, {| fs := fs w; log := log w ++ [e] |}).

Definition exists_in (m : fsmap) (p : string) : bool :=
  bool_decide (is_Some (m !! p)).

(** [os.path.exists(p)] *)
Definition os_path_exists (p : string) : io bool :=
  fun w => (Ok (exists_in (fs w) p), w).

(** The path itself and each of its ancestors, shortest first. *)
Fixpoint path_prefixes (s acc : string) : list string :=
  match s with
  | EmptyString => if String.eqb acc "" then [] else [acc]
  | String c s' =>
      if Ascii.eqb c "/"%char
      then (if String.eqb acc "" then [] else [acc])
             ++ path_prefixes s' (acc +:+ "/")
      else path_prefixes s' (acc +:+ String c EmptyString)
  end.

Definition S_IRWXU_G_O : Z := 511.

Definition mkdir_if_missing (m : fsmap) (p : string) : fsmap :=
  if exists_in m p then m else <[p := S_IRWXU_G_O]> m.

Definition makedirs_fs (p : string) (m : fsmap) : fsmap :=
  fold_left mkdir_if_missing (path_prefixes p "") m.

(** [os.makedirs(p, exist_ok=True)]: missing directories are created,
    what exists is left alone. *)
Definition os_makedirs (p : string) : io unit :=
  fun w =>
    (Ok tt, {| fs := makedirs_fs p (fs w); log := log w ++ [EMakedirs p] |}).

(** Every path of [m] is still there in [m']. *)
Definition fs_le (m m' : fsmap) : Prop :=
  forall p, exists_in m p = true -> exists_in m' p = true.

(** An action that removes no path. *)
Definition monotone {A} (act : io A) : Prop :=
  forall w, fs_le (fs w) (fs (snd (act w))).

(** Unpacking an archive removes no path. *)
Definition keeps_paths (fetch : val -> string -> val -> fsmap -> result unit * fsmap)
  : Prop :=
  forall url target archiveType m,
    fs_le m (snd (fetch url target archiveType m)).

(** [stat.S_IEXEC] *)
Definition S_IEXEC : Z := 64.

(** [os.chmod(p, mode)] *)
Definition os_chmod (p : string) (mode : Z) : io unit :=
  fun w =>
    if exists_in (fs w) p
    then (Ok tt, {| fs := <[p := mode]> (fs w); log := log w ++ [EChmod p mode] |})
    else (Raise (FileNotFoundError p), w).

(** [str(PurePath(a, b, ...))] for string segments (redundant separators
    are not normalised). *)
Definition PurePath (parts : list string) : string :=
  fold_left os_path_join parts "".

(** [str(PurePath(p).parent)] *)
Definition PurePath_parent (p : string) : string :=
  let keep := (String.length p - String.length (os_path_basename p))%nat in
  let dir := String.substring 0 (keep - 1) p in
  if (keep =? 0)%nat then "."
  else if String.eqb dir "" then "/"
  else dir.

(** A path segment read from the manifest must be a string. *)
Definition as_segment (v : val) : result string :=
  match v with
  | VStr s => Ok s
  | _ => Raise (TypeError "expected str, bytes or os.PathLike object")
  end.

(** [del d[k]] *)
Fixpoint dict_remove (k : string) (d : dict) : dict :=
  match d with
  | [] => []
  | (k', v) :: d' => if String.eqb k k' then d' else (k', v) :: dict_remove k d'
  end.

Definition delitem (k : string) (c : val) : result val :=
  match c with
  | VDict d =>
      if dict_contains k d then Ok (VDict (dict_remove k d))
      else Raise (KeyError k)
  | _ => Raise (TypeError "object does not support item deletion")
  end.

Definition platform_allow_list : list string := ["linux-x64"; "win-x64"].

Definition platform_error : exn :=
  AssertionError "Only linux-x64 platform is supported for in multilspy at the moment".

Section Setup.
(** [os.path.abspath(os.path.dirname(__file__))] *)
Variable module_dir : string.
(** What [json.load] gives for [runtime_dependencies.json]. *)
Variable manifest : val.
(** What [FileUtils.download_and_extract_archive(logger, url,
    target_path, archive_type)] does to the file system. *)
Variable fetch : val -> string -> val -> fsmap -> result unit * fsmap.

Definition download_and_extract_archive
    (url : val) (target_path : string) (archive_type : val) : io unit :=
  emit (EDownload url target_path archive_type) ;;;
  (fun w =>
     let '(r, m) := fetch url target_path archive_type (fs w) in
     (r, {| fs := m; log := log w |})).

(** [all([os.path.exists(p) for p in paths])] *)
Fixpoint all_exist (paths : list string) : io bool :=
  match paths with
  | [] => ret true
  | p :: rest =>
      here <- os_path_exists p ;;
      others <- all_exist rest ;;
      ret (here && others)
  end.

(** [assert os.path.exists(p)] for each path in turn. *)
Fixpoint assert_exist (paths : list string) : io unit :=
  match paths with
  | [] => ret tt
  | p :: rest =>
      here <- os_path_exists p ;;
      lift (assert here "") ;;;
      assert_exist rest
  end.

(** Lines 136-147: the manifest is loaded, [static] is created, and the
    platform is checked against the allow-list. *)
Definition load_and_check_platform (platformId : string) : io val :=
  runtimeDependencies <- lift (delitem "_description" manifest) ;;
  os_makedirs (PurePath [module_dir; "static"]) ;;;
  lift (assert (bool_decide (platformId ∈ platform_allow_list))
          "Only linux-x64 platform is supported for in multilspy at the moment") ;;;
  ret runtimeDependencies.

(** The world once [static] has been created. *)
Definition world_after_load (w : world) : world :=
  {| fs := makedirs_fs (PurePath [module_dir; "static"]) (fs w);
     log := log w ++ [EMakedirs (PurePath [module_dir; "static"])] |}.

(** Lines 149-164: Gradle. *)
Definition provision_gradle (runtimeDependencies : val) : io string :=
  let gradle_path := PurePath [module_dir; "static/gradle-7.3.3"] in
  here <- os_path_exists gradle_path ;;
  (if negb here then
     url <- lift (gradle <- getitem runtimeDependencies "gradle" ;;
                  entry <- getitem gradle "platform-agnostic" ;;
                  getitem entry "url")%py ;;
     archiveType <- lift (gradle <- getitem runtimeDependencies "gradle" ;;
                          entry <- getitem gradle "platform-agnostic" ;;
                          getitem entry "archiveType")%py ;;
     download_and_extract_archive url (PurePath_parent gradle_path) archiveType
   else ret tt) ;;;
  assert_exist [gradle_path] ;;;
  ret gradle_path.

(** [str(PurePath(dir, dependency[key]))] *)
Definition entry_path (dir : string) (dependency : val) (key : string)
  : result string :=
  (seg <- getitem dependency key ;;
   seg <- as_segment seg ;;
   Ok (PurePath [dir; seg]))%py.

(** [str(PurePath(module_dir, "static", dependency["relative_extraction_path"]))] *)
Definition extraction_path (dependency : val) : result string :=
  (seg <- getitem dependency "relative_extraction_path" ;;
   seg <- as_segment seg ;;
   Ok (PurePath [module_dir; "static"; seg]))%py.

Definition vscode_java_entry (runtimeDependencies : val) (platformId : string)
  : result val :=
  (bundle <- getitem runtimeDependencies "vscode-java" ;;
   getitem bundle platformId)%py.

Definition intellicode_entry (runtimeDependencies : val) : result val :=
  (bundle <- getitem runtimeDependencies "intellicode" ;;
   getitem bundle "platform-agnostic")%py.

(** Lines 166-197: the vscode-java bundle with its JRE. *)
Definition provision_vscode_java (runtimeDependencies : val) (platformId : string)
  : io (string * string * string * string * string) :=
  dependency <- lift (vscode_java_entry runtimeDependencies platformId) ;;
  vscode_java_path <- lift (extraction_path dependency) ;;
  os_makedirs vscode_java_path ;;;
  jre_home_path <- lift (entry_path vscode_java_path dependency "jre_home_path") ;;
  jre_path <- lift (entry_path vscode_java_path dependency "jre_path") ;;
  lombok_jar_path <-
    lift (entry_path vscode_java_path dependency "lombok_jar_path") ;;
  jdtls_launcher_jar_path <-
    lift (entry_path vscode_java_path dependency "jdtls_launcher_jar_path") ;;
  jdtls_readonly_config_path <-
    lift (entry_path vscode_java_path dependency "jdtls_readonly_config_path") ;;
  let required :=
    [vscode_java_path; jre_home_path; jre_path; lombok_jar_path;
     jdtls_launcher_jar_path; jdtls_readonly_config_path] in
  present <- all_exist required ;;
  (if negb present then
     url <- lift (getitem dependency "url") ;;
     archiveType <- lift (getitem dependency "archiveType") ;;
     download_and_extract_archive url vscode_java_path archiveType
   else ret tt) ;;;
  os_chmod jre_path S_IEXEC ;;;
  assert_exist required ;;;
  ret (jre_home_path, jre_path, lombok_jar_path,
       jdtls_launcher_jar_path, jdtls_readonly_config_path).

(** Lines 199-219: IntelliCode. *)
Definition provision_intellicode (runtimeDependencies : val)
  : io (string * string) :=
  dependency <- lift (intellicode_entry runtimeDependencies) ;;
  intellicode_directory_path <- lift (extraction_path dependency) ;;
  os_makedirs intellicode_directory_path ;;;
  intellicode_jar_path <-
    lift (entry_path intellicode_directory_path dependency "intellicode_jar_path") ;;
  intellisense_members_path <-
    lift (entry_path intellicode_directory_path dependency
            "intellisense_members_path") ;;
  let required :=
    [intellicode_directory_path; intellicode_jar_path; intellisense_members_path] in
  present <- all_exist required ;;
  (if negb present then
     url <- lift (getitem dependency "url") ;;
     archiveType <- lift (getitem dependency "archiveType") ;;
     download_and_extract_archive url intellicode_directory_path archiveType
   else ret tt) ;;;
  assert_exist required ;;;
  ret (intellicode_jar_path, intellisense_members_path).

(** Lines 149-230: everything after the platform check. *)
Definition provision_artifacts (runtimeDependencies : val) (platformId : string)
  : io RuntimeDependencyPaths :=
  gradle_path <- provision_gradle runtimeDependencies ;;
  java_paths <- provision_vscode_java runtimeDependencies platformId ;;
  let '(jre_home_path, jre_path, lombok_jar_path,
        jdtls_launcher_jar_path, jdtls_readonly_config_path) := java_paths in
  intellicode_paths <- provision_intellicode runtimeDependencies ;;
  let '(intellicode_jar_path, intellisense_members_path) := intellicode_paths in
  ret {| gradle_path := gradle_path;
         lombok_jar_path := lombok_jar_path;
         jre_path := jre_path;
         jre_home_path := jre_home_path;
         jdtls_launcher_jar_path := jdtls_launcher_jar_path;
         jdtls_readonly_config_path := jdtls_readonly_config_path;
         intellicode_jar_path := intellicode_jar_path;
         intellisense_members_path := intellisense_members_path |}.

Definition setupRuntimeDependencies (platformId : string)
  : io RuntimeDependencyPaths :=
  runtimeDependencies <- load_and_check_platform platformId ;;
  provision_artifacts runtimeDependencies platformId.

(** The artifact paths the manifest declares for a platform: the
    directories and files whose existence the function tests, and the
    value it returns when they are all there. *)
Record declared : Type := {
  d_gradle : string;
  d_vscode_java : list string;
  d_intellicode : list string;
  d_paths : RuntimeDependencyPaths
}.

Definition declared_paths (runtimeDependencies : val) (platformId : string)
  : result declared :=
  (let gradle_path := PurePath [module_dir; "static/gradle-7.3.3"] in
   dependency <- vscode_java_entry runtimeDependencies platformId ;;
   vscode_java_path <- extraction_path dependency ;;
   jre_home_path <- entry_path vscode_java_path dependency "jre_home_path" ;;
   jre_path <- entry_path vscode_java_path dependency "jre_path" ;;
   lombok_jar_path <- entry_path vscode_java_path dependency "lombok_jar_path" ;;
   jdtls_launcher_jar_path <-
     entry_path vscode_java_path dependency "jdtls_launcher_jar_path" ;;
   jdtls_readonly_config_path <-
     entry_path vscode_java_path dependency "jdtls_readonly_config_path" ;;
   dependency <- intellicode_entry runtimeDependencies ;;
   intellicode_directory_path <- extraction_path dependency ;;
   intellicode_jar_path <-
     entry_path intellicode_directory_path dependency "intellicode_jar_path" ;;
   intellisense_members_path <-
     entry_path intellicode_directory_path dependency "intellisense_members_path" ;;
   Ok {| d_gradle := gradle_path;
         d_vscode_java :=
           [vscode_java_path; jre_home_path; jre_path; lombok_jar_path;
            jdtls_launcher_jar_path; jdtls_readonly_config_path];
         d_intellicode :=
           [intellicode_directory_path; intellicode_jar_path;
            intellisense_members_path];
         d_paths :=
           {| gradle_path := gradle_path;
              lombok_jar_path := lombok_jar_path;
              jre_path := jre_path;
              jre_home_path := jre_home_path;
              jdtls_launcher_jar_path := jdtls_launcher_jar_path;
              jdtls_readonly_config_path := jdtls_readonly_config_path;
              intellicode_jar_path := intellicode_jar_path;
              intellisense_members_path := intellisense_members_path |} |})%py.

(** Every declared artifact path exists. *)
Definition provisioned (d : declared) (m : fsmap) : Prop :=
  forall p, p ∈ d_gradle d :: d_vscode_java d ++ d_intellicode d ->
            exists_in m p = true.

(** The downloads a log records. *)
Definition is_download (e : event) : bool :=
  match e with EDownload _ _ _ => true | _ => false end.
Definition downloads (l : list event) : list event :=
  List.filter is_download l.


End Setup.

(** *** A sample installation *)

Definition sample_manifest : val :=
  VDict
    [("_description", VStr "Used to download the runtime dependencies");
     ("gradle",
      VDict [("platform-agnostic",
              VDict [("url", VStr "https://example.org/gradle-7.3.3-bin.zip");
                     ("archiveType", VStr "zip")])]);
     ("vscode-java",
      VDict [("linux-x64",
              VDict [("url", VStr "https://example.org/java-linux-x64.vsix");
                     ("archiveType", VStr "zip");
                     ("relative_extraction_path", VStr "vscode-java");
                     ("jre_home_path", VStr "extension/jre");
                     ("jre_path", VStr "extension/jre/bin/java");
                     ("lombok_jar_path", VStr "extension/lombok/lombok.jar");
                     ("jdtls_launcher_jar_path", VStr "extension/server/launcher.jar");
                     ("jdtls_readonly_config_path", VStr "extension/server/config_linux")])]);
     ("intellicode",
      VDict [("platform-agnostic",
              VDict [("url", VStr "https://example.org/intellicode.vsix");
                     ("archiveType", VStr "zip");
                     ("relative_extraction_path", VStr "intellicode");
                     ("intellicode_jar_path", VStr "extension/dist/intellicode.jar");
                     ("intellisense_members_path", VStr "extension/dist/members")])])].

Definition S_IRW_R_R : Z := 420.
Definition S_IRWX_RX_RX : Z := 493.

Definition sample_archive (target : string) : list string :=
  if String.eqb target "/pkg/static" then ["/pkg/static/gradle-7.3.3"]
  else if String.eqb target "/pkg/static/vscode-java" then
    ["/pkg/static/vscode-java/extension/jre";
     "/pkg/static/vscode-java/extension/jre/bin/java";
     "/pkg/static/vscode-java/extension/lombok/lombok.jar";
     "/pkg/static/vscode-java/extension/server/launcher.jar";
     "/pkg/static/vscode-java/extension/server/config_linux"]
  else if String.eqb target "/pkg/static/intellicode" then
    ["/pkg/static/intellicode/extension/dist/intellicode.jar";
     "/pkg/static/intellicode/extension/dist/members"]
  else [].

(** A download that always succeeds and unpacks [sample_archive]. *)
Definition sample_fetch (url : val) (target : string) (archiveType : val)
    (m : fsmap) : result unit * fsmap :=
  (Ok tt, fold_left (fun m p => <[p := S_IRW_R_R]> m) (sample_archive target) m).

Definition empty_world : world := {| fs := ∅; log := [] |}.

(** Everything in place, the Java binary with mode [rwxr-xr-x]. *)
Definition installed_world : world :=
  {| fs :=
       list_to_map
         (map (fun p => (p, S_IRWX_RX_RX))
            ["/pkg/static";
             "/pkg/static/gradle-7.3.3";
             "/pkg/static/vscode-java";
             "/pkg/static/vscode-java/extension/jre";
             "/pkg/static/vscode-java/extension/jre/bin/java";
             "/pkg/static/vscode-java/extension/lombok/lombok.jar";
             "/pkg/static/vscode-java/extension/server/launcher.jar";
             "/pkg/static/vscode-java/extension/server/config_linux";
             "/pkg/static/intellicode";
             "/pkg/static/intellicode/extension/dist/intellicode.jar";
             "/pkg/static/intellicode/extension/dist/members"]);
     log := [] |}.

End Provision.

(** ** [EclipseJDTLS.start_server] *)

Module Handshake.

Local Open Scope stm_scope.

(** The [asyncio.Event] attributes of the instance. *)
Inductive signal : Type :=
| completions_available
| service_ready_event
| intellicode_enable_command_available
| initialize_searcher_command_available.

(** The inbound-message handlers [start_server] registers. *)
Inductive handler : Type :=
| register_capability_handler_id
| lang_status_handler_id
| execute_client_command_handler_id
| window_log_message_id
| do_nothing_id.

#[global] Instance signal_eq_dec : EqDecision signal.
Proof. solve_decision. Defined.
#[global] Instance handler_eq_dec : EqDecision handler.
Proof. solve_decision. Defined.

(** What the session does, in order. *)
Inductive action : Type :=
| ARegisterHandlers
| ABaseEnter
| ABaseExit (exc : option exn)
| ALog (msg : string)
| AServerStart
| ASendInitialize (params : dict)
| ANotifyInitialized
| ANotifyDidChangeConfiguration (params : val)
| ASendExecuteCommand (params : val)
| AExecuteCommandResult (result : val)
| AYield
| AServerShutdown
| AServerStop
| ASignalSet (s : signal) (by_handler : handler).

(** Where the coroutine is suspended. *)
Inductive pc : Type :=
| NotStarted
| AwaitServerStart
| AwaitInitialize
| WaitIntellicodeCommand
| AwaitIntellicodeEnable
| WaitServiceReady
| Ready
| AwaitShutdown
| AwaitStop
| Exited
| Failed (e : exn).

Record state : Type := {
  at_pc : pc;
  is_set : signal -> bool;
  trace : list action
}.

(** What the event loop delivers to the session. *)
Inductive input : Type :=
| Enter
| Completed (r : result val)
| Wake
| RegisterCapability (params : val)
| LanguageStatus (params : val)
| LeaveScope (exc : option exn).

(** What the instance holds when [start_server] is called:
    [self.initialize_params], the members path of
    [self.runtime_dependency_paths] and whether that path exists on disk
    (line 314); and what the base class's [start_server] context manager,
    which is not part of these sources, does with an exception raised
    inside it. *)
Record session : Type := {
  initialize_params : dict;
  intellisense_members_path : string;
  members_path_exists : bool;
  base_suppresses : exn -> bool
}.

Definition initial : state :=
  {| at_pc := NotStarted; is_set := fun _ => false; trace := [] |}.

Definition goto (p : pc) (st : state) : state :=
  {| at_pc := p; is_set := is_set st; trace := trace st |}.

Definition record (a : action) (st : state) : state :=
  {| at_pc := at_pc st; is_set := is_set st; trace := trace st ++ [a] |}.

(** [asyncio.Event.set()]: nothing happens when the event is already
    set. *)
Definition Event_set (s : signal) (by_handler : handler) : stm state unit :=
  fun st =>
    if is_set st s then (Ok tt, st)
    else (Ok tt,
          {| at_pc := at_pc st;
             is_set := fun s' => if bool_decide (s' = s) then true else is_set st s';
             trace := trace st ++ [ASignalSet s by_handler] |}).

Definition completion_trigger_characters : val :=
  VList [VStr "."; VStr "@"; VStr "#"; VStr "*"; VStr " "].

(** The body of the loop of [register_capability_handler]. *)
Definition handle_registration (registration : val) : stm state unit :=
  method <- lift (getitem registration "method") ;;
  (if eq method (VStr "textDocument/completion") then
     resolveProvider <- lift (opts <- getitem registration "registerOptions" ;;
                              getitem opts "resolveProvider")%py ;;
     lift (assert (eq resolveProvider (VBool true)) "") ;;;
     triggerCharacters <- lift (opts <- getitem registration "registerOptions" ;;
                                getitem opts "triggerCharacters")%py ;;
     lift (assert (eq triggerCharacters completion_trigger_characters) "") ;;;
     Event_set completions_available register_capability_handler_id
   else ret tt) ;;;
  method <- lift (getitem registration "method") ;;
  (if eq method (VStr "workspace/executeCommand") then
     listed <- lift (opts <- getitem registration "registerOptions" ;;
                     commands <- getitem opts "commands" ;;
                     contains (VStr "java.intellicode.enable") commands)%py ;;
     if listed
     then Event_set intellicode_enable_command_available register_capability_handler_id
     else ret tt
   else ret tt).

Fixpoint for_each (body : val -> stm state unit) (items : list val)
  : stm state unit :=
  match items with
  | [] => ret tt
  | item :: rest => body item ;;; for_each body rest
  end.

Definition register_capability_handler (params : val) : stm state unit :=
  has <- lift (contains (VStr "registrations") params) ;;
  lift (assert has "") ;;;
  registrations <- lift (regs <- getitem params "registrations" ;; iter regs)%py ;;
  for_each handle_registration registrations.

Definition lang_status_handler (params : val) : stm state unit :=
  type <- lift (getitem params "type") ;;
  if eq type (VStr "ServiceReady") then
    message <- lift (getitem params "message") ;;
    if eq message (VStr "ServiceReady")
    then Event_set service_ready_event lang_status_handler_id
    else ret tt
  else ret tt.

(** Lines 301-303: the three assertions on the [initialize] response. *)
Definition check_init_response (init_response : val) : result unit :=
  (change <- (capabilities <- getitem init_response "capabilities" ;;
              sync <- getitem capabilities "textDocumentSync" ;;
              getitem sync "change") ;;
   assert (eq change (VInt 2)) "" ;;;
   capabilities <- getitem init_response "capabilities" ;;
   has <- contains (VStr "completionProvider") capabilities ;;
   assert (negb has) "" ;;;
   capabilities <- getitem init_response "capabilities" ;;
   has <- contains (VStr "executeCommandProvider") capabilities ;;
   assert (negb has) "")%py.

Section Coroutine.
Variable self : session.

(** An exception raised inside [async with super().start_server():]
    passes through the base class's context manager and then leaves
    the generator, unless the base class swallows it; a generator that
    ends without having yielded makes [contextlib] raise. *)
Definition raise_in_body (yielded : bool) (e : exn) (st : state) : state :=
  let st := record (ABaseExit (Some e)) st in
  if base_suppresses self e then
    if yielded then goto Exited st
    else goto (Failed (RuntimeError "generator didn't yield")) st
  else goto (Failed e) st.

(** Line 326. *)
Definition do_yield (st : state) : state :=
  goto Ready (record AYield st).

(** Line 324. *)
Definition wait_service_ready (st : state) : state :=
  if is_set st service_ready_event then do_yield st
  else goto WaitServiceReady st.

(** Lines 313-320. *)
Definition send_intellicode_enable (st : state) : state :=
  let java_intellisense_members_path := intellisense_members_path self in
  if members_path_exists self then
    goto AwaitIntellicodeEnable
      (record
         (ASendExecuteCommand
            (VDict [("command", VStr "java.intellicode.enable");
                    ("arguments",
                     VList [VBool true; VStr java_intellisense_members_path])]))
         st)
  else raise_in_body false (AssertionError "") st.

(** Line 311. *)
Definition wait_intellicode_command (st : state) : state :=
  if is_set st intellicode_enable_command_available
  then send_intellicode_enable st
  else goto WaitIntellicodeCommand st.

(** Lines 301-311, once the [initialize] response is there. *)
Definition after_initialize (init_response : val) (st : state) : state :=
  match check_init_response init_response with
  | Raise e => raise_in_body false e st
  | Ok _ =>
      let st := record ANotifyInitialized st in
      match (opts <- getitem (VDict (initialize_params self)) "initializationOptions" ;;
             getitem opts "settings")%py with
      | Raise e => raise_in_body false e st
      | Ok settings =>
          let st :=
            record (ANotifyDidChangeConfiguration (VDict [("settings", settings)])) st in
          wait_intellicode_command st
      end
  end.

(** The coroutine resumed with an input while suspended at [at_pc st]. *)
Definition resume (st : state) (i : input) : state :=
  match at_pc st, i with
  | NotStarted, Enter =>
      let st := record ARegisterHandlers st in
      let st := record ABaseEnter st in
      let st := record (ALog "Starting EclipseJDTLS server process") st in
      goto AwaitServerStart (record AServerStart st)
  | AwaitServerStart, Completed (Ok _) =>
      let st :=
        record (ALog "Sending initialize request from LSP client to LSP server and awaiting response") st in
      goto AwaitInitialize (record (ASendInitialize (initialize_params self)) st)
  | AwaitServerStart, Completed (Raise e) => raise_in_body false e st
  | AwaitInitialize, Completed (Ok init_response) => after_initialize init_response st
  | AwaitInitialize, Completed (Raise e) => raise_in_body false e st
  | WaitIntellicodeCommand, Wake => wait_intellicode_command st
  | AwaitIntellicodeEnable, Completed (Ok intellicode_enable_result) =>
      let st := record (AExecuteCommandResult intellicode_enable_result) st in
      if truthy intellicode_enable_result then wait_service_ready st
      else raise_in_body false (AssertionError "") st
  | AwaitIntellicodeEnable, Completed (Raise e) => raise_in_body false e st
  | WaitServiceReady, Wake => wait_service_ready st
  | Ready, LeaveScope None => goto AwaitShutdown (record AServerShutdown st)
  | Ready, LeaveScope (Some e) => raise_in_body true e st
  | AwaitShutdown, Completed (Ok _) => goto AwaitStop (record AServerStop st)
  | AwaitShutdown, Completed (Raise e) => raise_in_body true e st
  | AwaitStop, Completed (Ok _) => goto Exited (record (ABaseExit None) st)
  | AwaitStop, Completed (Raise e) => raise_in_body true e st
  | _, _ => st
  end.

(** One delivery of the event loop: an inbound message runs its
    handler (whatever the handler raises goes back to the transport,
    what it did to the events stays), anything else resumes the
    coroutine. *)
Definition step (st : state) (i : input) : state :=
  match i with
  | RegisterCapability params =>
      match at_pc st with
      | NotStarted => st
      | _ => snd (register_capability_handler params st)
      end
  | LanguageStatus params =>
      match at_pc st with
      | NotStarted => st
      | _ => snd (lang_status_handler params st)
      end
  | _ => resume st i
  end.

Definition run_from (st : state) (inputs : list input) : state :=
  fold_left step inputs st.

Definition run (inputs : list input) : state := run_from initial inputs.

End Coroutine.

(** *** Reading a trace *)

(** Every [Q] action of the trace has a [P] action before it. *)
Definition precedes (P Q : action -> Prop) (t : list action) : Prop :=
  forall t1 b t2, t = (t1 ++ b :: t2)%list -> Q b -> exists a, a ∈ t1 /\ P a.

(** The handler that holds the one [set()] call of each event in
    [start_server]. *)
Definition setter_of (s : signal) : handler :=
  match s with
  | service_ready_event => lang_status_handler_id
  | _ => register_capability_handler_id
  end.

Definition is_signal_set (s : signal) (a : action) : bool :=
  match a with
  | ASignalSet s' _ => bool_decide (s' = s)
  | _ => false
  end.

(** How many times the trace shows an event going from unset to set. *)
Definition times_set (s : signal) (t : list action) : nat :=
  length (List.filter (is_signal_set s) t).

Definition is_set_by_its_handler (s : signal) (a : action) : Prop :=
  a = ASignalSet s (setter_of s).

Definition is_enable_request (a : action) : Prop :=
  exists arguments,
    a = ASendExecuteCommand
          (VDict [("command", VStr "java.intellicode.enable");
                  ("arguments", arguments)]).

Definition is_ack (a : action) : Prop :=
  exists r, a = AExecuteCommandResult r.

Definition is_truthy_ack (a : action) : Prop :=
  exists r, a = AExecuteCommandResult r /\ truthy r = true.

Definition is_yield (a : action) : Prop := a = AYield.

(** What the orchestrator assumes of the [initialize] response:
    incremental synchronisation, and neither a [completionProvider] nor
    an [executeCommandProvider]. *)
Definition capabilities_as_assumed (init_response : val) : Prop :=
  exists capabilities sync change,
    getitem init_response "capabilities" = Ok capabilities
    /\ getitem capabilities "textDocumentSync" = Ok sync
    /\ getitem sync "change" = Ok change
    /\ eq change (VInt 2) = true
    /\ contains (VStr "completionProvider") capabilities = Ok false
    /\ contains (VStr "executeCommandProvider") capabilities = Ok false.

(** *** The invariant of a session *)

Record trace_inv (st : state) : Prop := {
  inv_request :
    precedes (is_set_by_its_handler intellicode_enable_command_available)
      is_enable_request (trace st);
  inv_ack : precedes is_enable_request is_ack (trace st);
  inv_yield_ack : precedes is_truthy_ack is_yield (trace st);
  inv_yield_ready :
    precedes (is_set_by_its_handler service_ready_event) is_yield (trace st);
  inv_setter : forall s h, ASignalSet s h ∈ trace st -> h = setter_of s;
  inv_count :
    forall s, times_set s (trace st) = if is_set st s then 1%nat else 0%nat;
  inv_flag : forall s, is_set st s = true -> ASignalSet s (setter_of s) ∈ trace st
}.

(** What the trace holds already when the coroutine waits at [p]. *)
Definition trace_at (p : pc) (t : list action) : Prop :=
  match p with
  | AwaitIntellicodeEnable => exists a, a ∈ t /\ is_enable_request a
  | WaitServiceReady => exists a, a ∈ t /\ is_truthy_ack a
  | _ => True
  end.

Definition inv (st : state) : Prop :=
  trace_inv st /\ trace_at (at_pc st) (trace st).

(** The actions no ordering constraint bears on. *)
Definition is_plain (a : action) : bool :=
  match a with
  | ASendExecuteCommand _ | AExecuteCommandResult _ | AYield | ASignalSet _ _ => false
  | _ => true
  end.

(** A handler all of whose runs are related by [R] to the state they
    start from. *)
Definition respects (R : state -> state -> Prop) {A} (m : stm state A) : Prop :=
  forall st, R st (snd (m st)).

(** *** A sample session *)

Definition sample_session : session :=
  {| initialize_params :=
       [("processId", VInt 4242);
        ("rootPath", VStr "/srv/project");
        ("initializationOptions",
         VDict [("settings", VDict [("java", VDict [])])])];
     intellisense_members_path := "/pkg/static/intellicode/extension/dist/members";
     members_path_exists := true;
     base_suppresses := fun _ => false |}.

Definition sample_init_response : val :=
  VDict [("capabilities",
          VDict [("textDocumentSync",
                  VDict [("openClose", VBool true); ("change", VInt 2)]);
                 ("hoverProvider", VBool true)])].

(** A response that announces full-document synchronisation. *)
Definition full_sync_response : val :=
  VDict [("capabilities",
          VDict [("textDocumentSync",
                  VDict [("openClose", VBool true); ("change", VInt 1)])])].

Definition sample_registration : val :=
  VDict [("registrations",
          VList [VDict [("id", VStr "1");
                        ("method", VStr "workspace/executeCommand");
                        ("registerOptions",
                         VDict [("commands",
                                 VList [VStr "java.edit.organizeImports";
                                        VStr "java.intellicode.enable"])])]])].

Definition sample_service_ready : val :=
  VDict [("type", VStr "ServiceReady"); ("message", VStr "ServiceReady")].

(** A server that behaves: the handshake up to the yield. *)
Definition handshake_inputs : list input :=
  [Enter;
   Completed (Ok VNone);
   Completed (Ok sample_init_response);
   RegisterCapability sample_registration;
   Wake;
   Completed (Ok (VBool true));
   LanguageStatus sample_service_ready;
   Wake].

Definition caller_error : exn := OtherError "raised by the caller's block".

End Handshake.

(** ** The other configuration classes, and paths into a document *)

Module ConfigMore.
Import Config.

(** [JediServerConfig(MultilspyConfig)]: the inherited fields and
    [environment_path]; [code_language] and [language_server] are
    [init=False] fields. *)
Record JediServerConfig : Type := {
  jedi_base : MultilspyConfig;
  environment_path : option string
}.

Definition JediServerConfig_init
    (a_trace_lsp_communication : option bool)
    (a_custom_init_params_file : option (option string))
    (a_init_params_overrides : option (option dict))
    (a_repository_absolute_path : option (option string))
    (a_environment_path : option (option string))
  : result JediServerConfig :=
  Ok {| jedi_base :=
          {| code_language := PYTHON;
             trace_lsp_communication := default_of a_trace_lsp_communication false;
             language_server := Some JEDI;
             custom_init_params_file := default_of a_custom_init_params_file None;
             init_params_overrides := default_of a_init_params_overrides None;
             repository_absolute_path := default_of a_repository_absolute_path None |};
        environment_path := default_of a_environment_path None |}.

(** [RustAnalyzerConfig(MultilspyConfig)] *)
Definition RustAnalyzerConfig_init
    (a_trace_lsp_communication : option bool)
    (a_custom_init_params_file : option (option string))
    (a_init_params_overrides : option (option dict))
    (a_repository_absolute_path : option (option string))
  : result MultilspyConfig :=
  Ok {| code_language := RUST;
        trace_lsp_communication := default_of a_trace_lsp_communication false;
        language_server := Some RUSTANALYZER;
        custom_init_params_file := default_of a_custom_init_params_file None;
        init_params_overrides := default_of a_init_params_overrides None;
        repository_absolute_path := default_of a_repository_absolute_path None |}.

(** [OmniSharpConfig(MultilspyConfig)] *)
Definition OmniSharpConfig_init
    (a_trace_lsp_communication : option bool)
    (a_custom_init_params_file : option (option string))
    (a_init_params_overrides : option (option dict))
    (a_repository_absolute_path : option (option string))
  : result MultilspyConfig :=
  Ok {| code_language := CSHARP;
        trace_lsp_communication := default_of a_trace_lsp_communication false;
        language_server := Some OMNISHARP;
        custom_init_params_file := default_of a_custom_init_params_file None;
        init_params_overrides := default_of a_init_params_overrides None;
        repository_absolute_path := default_of a_repository_absolute_path None |}.

(** [c[k1][k2]...[kn]] *)
Fixpoint getpath (keys : list string) (c : val) : result val :=
  match keys with
  | [] => Ok c
  | k :: rest => sub <- getitem c k ;; getpath rest sub
  end.

(** One step into a document on the way to an assignment: [c[k]] or
    [c.setdefault(k, {})]. *)
Inductive hop : Type :=
| Item (k : string)
| Setdefault (k : string).

Definition hop_key (h : hop) : string :=
  match h with Item k | Setdefault k => k end.

(** The assignment [c<hops>[k] = v] written with [in_item] and
    [in_setdefault]. *)
Fixpoint assign_at (hops : list hop) (k : string) (v : val) : val -> result val :=
  match hops with
  | [] => setitem k v
  | Item k' :: rest => in_item k' (assign_at rest k v)
  | Setdefault k' :: rest => in_setdefault k' (assign_at rest k v)
  end.

Definition assigned_path (hops : list hop) (k : string) : list string :=
  (map hop_key hops ++ [k])%list.

(** Two paths that part ways at some key. *)
Fixpoint diverges (q p : list string) : Prop :=
  match q, p with
  | a :: q', b :: p' => a <> b \/ (a = b /\ diverges q' p')
  | _, _ => False
  end.

(** The keys [get_initialization_params] writes after the merge. *)
Definition patched_keys : list string :=
  ["rootPath"; "rootUri"; "workspaceFolders"; "processId"].

Definition sample_rdp : RuntimeDependencyPaths :=
  {| gradle_path := "/pkg/static/gradle-7.3.3";
     lombok_jar_path := "/pkg/static/vscode-java/extension/lombok/lombok.jar";
     jre_path := "/pkg/static/vscode-java/extension/jre/bin/java";
     jre_home_path := "/pkg/static/vscode-java/extension/jre";
     jdtls_launcher_jar_path := "/pkg/static/vscode-java/extension/server/launcher.jar";
     jdtls_readonly_config_path := "/pkg/static/vscode-java/extension/server/config_linux";
     intellicode_jar_path := "/pkg/static/intellicode/extension/dist/intellicode.jar";
     intellisense_members_path := "/pkg/static/intellicode/extension/dist/members" |}.

Definition eclipse_with_runtime : EclipseJDTLSConfig :=
  {| base := repo_config; runtime_dependency_paths := Some sample_rdp |}.

Definition relative_repo_config : MultilspyConfig :=
  {| code_language := JAVA;
     trace_lsp_communication := false;
     language_server := None;
     custom_init_params_file := None;
     init_params_overrides := None;
     repository_absolute_path := Some "work/project" |}.

Definition missing_custom_config : MultilspyConfig :=
  {| code_language := JAVA;
     trace_lsp_communication := false;
     language_server := None;
     custom_init_params_file := Some "/home/me/absent.json";
     init_params_overrides := None;
     repository_absolute_path := Some "/srv/project" |}.

End ConfigMore.

(** ** Reading the Gradle entry of the manifest *)

Module ProvisionMore.
Import Provision.

(** [runtimeDependencies["gradle"]["platform-agnostic"][key]] *)
Definition gradle_field (runtimeDependencies : val) (key : string) : result val :=
  gradle <- getitem runtimeDependencies "gradle" ;;
  entry <- getitem gradle "platform-agnostic" ;;
  getitem entry key.

(** A download that cannot reach the network. *)
Definition failing_fetch (url : val) (target : string) (archiveType : val)
    (m : fsmap) : result unit * fsmap :=
  (Raise (OtherError "connection refused"), m).

End ProvisionMore.

(** ** Servers that behave, and the order of the teardown *)

Module HandshakeMore.
Import Handshake.

(** A [client/registerCapability] request whose first registration
    announces the [java.intellicode.enable] command. *)
Definition announces_intellicode (params : val) : Prop :=
  exists registration rest opts commands,
    getitem params "registrations" = Ok (VList (registration :: rest))
    /\ getitem registration "method" = Ok (VStr "workspace/executeCommand")
    /\ getitem registration "registerOptions" = Ok opts
    /\ getitem opts "commands" = Ok commands
    /\ contains (VStr "java.intellicode.enable") commands = Ok true.

(** A [language/status] notification that reports [ServiceReady]. *)
Definition reports_service_ready (params : val) : Prop :=
  getitem params "type" = Ok (VStr "ServiceReady")
  /\ getitem params "message" = Ok (VStr "ServiceReady").

(** [self.initialize_params["initializationOptions"]["settings"]] is
    there. *)
Definition has_settings (self : session) : Prop :=
  exists settings,
    (opts <- getitem (VDict (initialize_params self)) "initializationOptions" ;;
     getitem opts "settings")%py = Ok settings.

(** Both signals arrive before the [initialize] response. *)
Definition signals_first (response registration status result : val) : list input :=
  [Enter;
   Completed (Ok VNone);
   RegisterCapability registration;
   LanguageStatus status;
   Completed (Ok response);
   Completed (Ok result)].

(** Each signal arrives while the coroutine waits for it. *)
Definition signals_awaited (response registration status result : val) : list input :=
  [Enter;
   Completed (Ok VNone);
   Completed (Ok response);
   RegisterCapability registration;
   Wake;
   Completed (Ok result);
   LanguageStatus status;
   Wake].

(** The teardown happens in order, and only after the yield. *)
Record teardown_inv (st : state) : Prop := {
  shutdown_after_yield :
    precedes (fun a => a = AYield) (fun a => a = AServerShutdown) (trace st);
  stop_after_shutdown :
    precedes (fun a => a = AServerShutdown) (fun a => a = AServerStop) (trace st);
  yielded_when_ready : at_pc st = Ready -> AYield ∈ trace st;
  shut_down_when_awaited : at_pc st = AwaitShutdown -> AServerShutdown ∈ trace st
}.

(** An action of the teardown. *)
Definition is_teardown (a : action) : bool :=
  match a with
  | AServerShutdown | AServerStop => true
  | _ => false
  end.

(** A step of the coroutine that does nothing of the teardown and does
    not wait for it. *)
Definition plain_step (st st' : state) : Prop :=
  exists l,
    trace st' = (trace st ++ l)%list
    /\ Forall (fun a => is_teardown a = false) l
    /\ (at_pc st' = Ready -> AYield ∈ l)
    /\ at_pc st' <> AwaitShutdown.

(** A [textDocument/completion] registration that is not the one the
    handler assumes: [resolveProvider] is not [True], or the trigger
    characters are others. *)
Definition deviating_completion (registration : val) : Prop :=
  exists opts resolveProvider,
    getitem registration "method" = Ok (VStr "textDocument/completion")
    /\ getitem registration "registerOptions" = Ok opts
    /\ getitem opts "resolveProvider" = Ok resolveProvider
    /\ (eq resolveProvider (VBool true) = false
        \/ exists triggerCharacters,
             getitem opts "triggerCharacters" = Ok triggerCharacters
             /\ eq triggerCharacters completion_trigger_characters = false).

Definition comma_completion : val :=
  VDict [("id", VStr "0");
         ("method", VStr "textDocument/completion");
         ("registerOptions",
          VDict [("resolveProvider", VBool true);
                 ("triggerCharacters", VList [VStr "."; VStr ","])])].

Definition intellicode_registration : val :=
  VDict [("id", VStr "1");
         ("method", VStr "workspace/executeCommand");
         ("registerOptions",
          VDict [("commands", VList [VStr "java.intellicode.enable"])])].

(** One request that registers completion with other trigger characters
    and then announces the IntelliCode command. *)
Definition mixed_registration : val :=
  VDict [("registrations", VList [comma_completion; intellicode_registration])].

Definition project_status : val :=
  VDict [("type", VStr "ProjectStatus"); ("message", VStr "OK")].

End HandshakeMore.

(** ** [EclipseJDTLS.__init__] *)

Module Launch.
Import Config Provision.
Local Open Scope stm_scope.

(** [ProcessLaunchInfo(cmd, env, cwd)] *)
Record ProcessLaunchInfo : Type := {
  cmd : string;
  env : list (string * string);
  cwd : val
}.

(** What [__init__] leaves on the instance: the configuration (whose
    repository path [get_initialization_params] may have rewritten), the
    initialization document, the provisioned paths and what it hands to
    the base class for the launch. *)
Record instance : Type := {
  i_config : EclipseJDTLSConfig;
  i_initialize_params : dict;
  i_runtime_dependency_paths : RuntimeDependencyPaths;
  i_launch : ProcessLaunchInfo
}.

Fixpoint strip_prefix (pre s : string) : option string :=
  match pre with
  | EmptyString => Some s
  | String a pre' =>
      match s with
      | String b s' => if Ascii.eqb a b then strip_prefix pre' s' else None
      | EmptyString => None
      end
  end.

(** Where [p] lies below the directory [src]: the empty string for [src]
    itself, [/x/y] for [src/x/y]. *)
Definition below (src p : string) : option string :=
  match strip_prefix src p with
  | Some EmptyString => Some EmptyString
  | Some (String c rest) =>
      if Ascii.eqb c "/"%char then Some (String c rest) else None
  | None => None
  end.

Definition copy_entry (src dst : string) (acc : fsmap) (entry : string * Z) : fsmap :=
  match below src (fst entry) with
  | Some suffix => <[dst +:+ suffix := snd entry]> acc
  | None => acc
  end.

(** [shutil.copytree(src, dst)]: the tree is copied with its permission
    bits; [src] must exist and [dst] must not. *)
Definition shutil_copytree (src dst : string) : io unit :=
  fun w =>
    if negb (exists_in (fs w) src) then (Raise (FileNotFoundError src), w)
    else if exists_in (fs w) dst then (Raise (OtherError "FileExistsError"), w)
    else (Ok tt,
          {| fs := fold_left (copy_entry src dst) (map_to_list (fs w)) (fs w);
             log := log w |}).

(** [assert os.path.exists(static_path), static_path] for each path in
    turn. *)
Fixpoint assert_static (paths : list string) : io unit :=
  match paths with
  | [] => ret tt
  | static_path :: rest =>
      here <- os_path_exists static_path ;;
      lift (assert here static_path) ;;;
      assert_static rest
  end.

Section Init.
(** The files and the process the configuration code sees. *)
Variable os : OsEnv.
(** [os.path.abspath(os.path.dirname(__file__))] of [eclipse_jdtls.py],
    the manifest, the downloader and the platform. *)
Variable jdtls_dir : string.
Variable manifest : val.
Variable fetch : val -> string -> val -> fsmap -> result unit * fsmap.
Variable platformId : string.
(** [MultilspySettings.get_language_server_directory()],
    [MultilspySettings.get_global_cache_directory()] and
    [uuid.uuid4().hex].  [MultilspySettings] is not part of these
    sources: only the strings it returns are used here. *)
Variable language_server_directory : string.
Variable global_cache_directory : string.
Variable uuid_hex : string.

(** The configuration code tests paths against the same file system. *)
Definition env_at (w : world) : OsEnv :=
  {| files := files os;
     getpid := getpid os;
     module_dir := module_dir os;
     abspath := abspath os;
     path_exists := exists_in (fs w);
     uri_of_abs := uri_of_abs os |}.

Definition config_get_initialization_params (config : EclipseJDTLSConfig)
  : io (dict * EclipseJDTLSConfig) :=
  fun w => (EclipseJDTLSConfig_get_initialization_params (env_at w) config, w).

Definition launch_command
    (jre_path lombok_jar_path shared_cache_location jdtls_launcher_jar
       jdtls_config_path data_dir : string) : string :=
  String.concat " "
    [jre_path;
     "--add-modules=ALL-SYSTEM";
     "--add-opens";
     "java.base/java.util=ALL-UNNAMED";
     "--add-opens";
     "java.base/java.lang=ALL-UNNAMED";
     "--add-opens";
     "java.base/sun.nio.fs=ALL-UNNAMED";
     "-Declipse.application=org.eclipse.jdt.ls.core.id1";
     "-Dosgi.bundles.defaultStartLevel=4";
     "-Declipse.product=org.eclipse.jdt.ls.core.product";
     "-Djava.import.generatesMetadataFilesAtProjectRoot=false";
     "-Dfile.encoding=utf8";
     "-noverify";
     "-XX:+UseParallelGC";
     "-XX:GCTimeRatio=4";
     "-XX:AdaptiveSizePolicyWeight=90";
     "-Dsun.zip.disableMemoryMapping=true";
     "-Djava.lsp.joinOnCompletion=true";
     "-Xmx3G";
     "-Xms100m";
     "-Xlog:disable";
     "-Dlog.level=ALL";
     "-javaagent:" +:+ lombok_jar_path;
     "-Djdt.core.sharedIndexLocation=" +:+ shared_cache_location;
     "-jar";
     jdtls_launcher_jar;
     "-configuration";
     jdtls_config_path;
     "-data";
     data_dir].

Definition EclipseJDTLS_init (config : EclipseJDTLSConfig) : io instance :=
  got <- config_get_initialization_params config ;;
  let '(initialize_params, config) := got in
  runtime_dependency_paths <-
    setupRuntimeDependencies jdtls_dir manifest fetch platformId ;;
  let ws_dir :=
    PurePath [language_server_directory; "EclipseJDTLS"; "workspaces"; uuid_hex] in
  let shared_cache_location :=
    PurePath [global_cache_directory; "lsp"; "EclipseJDTLS"; "sharedIndex"] in
  let jre_path := jre_path runtime_dependency_paths in
  let lombok_jar_path := lombok_jar_path runtime_dependency_paths in
  let jdtls_launcher_jar := jdtls_launcher_jar_path runtime_dependency_paths in
  os_makedirs ws_dir ;;;
  let data_dir := PurePath [ws_dir; "data_dir"] in
  let jdtls_config_path := PurePath [ws_dir; "config_path"] in
  let jdtls_readonly_config_path :=
    jdtls_readonly_config_path runtime_dependency_paths in
  here <- os_path_exists jdtls_config_path ;;
  (if negb here then shutil_copytree jdtls_readonly_config_path jdtls_config_path
   else ret tt) ;;;
  assert_static [jre_path; lombok_jar_path; jdtls_launcher_jar;
                 jdtls_config_path; jdtls_readonly_config_path] ;;;
  let proc_env := [("syntaxserver", "false")] in
  proc_cwd <- lift (getitem (VDict initialize_params) "rootPath") ;;
  let cmd :=
    launch_command jre_path lombok_jar_path shared_cache_location
      jdtls_launcher_jar jdtls_config_path data_dir in
  ret {| i_config := config;
         i_initialize_params := initialize_params;
         i_runtime_dependency_paths := runtime_dependency_paths;
         i_launch := {| cmd := cmd; env := proc_env; cwd := proc_cwd |} |}.

End Init.

Definition eclipse_repo : EclipseJDTLSConfig :=
  {| base := repo_config; runtime_dependency_paths := None |}.

End Launch.

(** * Properties *)

(** ** Dictionaries *)

Module PyFacts.

Lemma dict_get_set_eq {V} (k : string) (v : V) (d : list (string * V)) :
  dict_get k (dict_set k v d) = Some v.
Proof.
  induction d as [|[k' v'] d IH]; simpl.
  - by rewrite String.eqb_refl.
  - destruct (String.eqb k k') eqn:E; simpl; rewrite E; [done | exact IH].
Qed.

Lemma dict_get_set_ne {V} (k k0 : string) (v : V) (d : list (string * V)) :
  k0 <> k -> dict_get k0 (dict_set k v d) = dict_get k0 d.
Proof.
  intros Hne. induction d as [|[k' v'] d IH]; simpl.
  - destruct (String.eqb k0 k) eqn:E; [|done].
    apply String.eqb_eq in E. contradiction.
  - destruct (String.eqb k k') eqn:E; simpl.
    + apply String.eqb_eq in E. subst k'.
      destruct (String.eqb k0 k) eqn:E0; [|done].
      apply String.eqb_eq in E0. contradiction.
    + by rewrite IH.
Qed.

End PyFacts.

(** ** The configuration *)

Module ConfigFacts.
Import Config PyFacts.

(** [validate_language_server] itself accepts exactly the registered
    pairings and hands the server back unchanged. *)
Lemma validate_language_server_spec (lang : Language) (ls : option LanguageServers) :
  validate_language_server lang ls =
  match ls with
  | Some s =>
      if bool_decide (s ∈ registered_servers lang) then Ok ls
      else Raise (ValueError (invalid_language_server_msg s lang))
  | None => Ok None
  end.
Proof. destruct lang, ls as [[]|]; reflexivity. Qed.

(** The generated constructor returns for every argument list. *)
Lemma MultilspyConfig_init_returns lang t ls c o r :
  is_ok (MultilspyConfig_init lang t ls c o r) = true.
Proof. reflexivity. Qed.

(** C5, at the pairing (python, EclipseJDTLS): the validator, when it is
    called, raises; the server is not registered for the language; yet
    constructing the configuration returns an object holding the
    pairing, since the constructor never calls the validator kept in the
    field's metadata. *)
Theorem invalid_pairing_is_constructed :
  validate_language_server PYTHON (Some ECLIPSEJDTLS)
    = Raise (ValueError "Invalid language server 'EclipseJDTLS' for code language 'python'")
  /\ (ECLIPSEJDTLS ∉ registered_servers PYTHON)
  /\ metadata language_server_field = [("validator", validate_language_server)]
  /\ MultilspyConfig_init PYTHON None (Some (Some ECLIPSEJDTLS)) None None None
     = Ok {| code_language := PYTHON;
             trace_lsp_communication := false;
             language_server := Some ECLIPSEJDTLS;
             custom_init_params_file := None;
             init_params_overrides := None;
             repository_absolute_path := None |}.
Proof.
  split; [reflexivity|]. split; [|split; reflexivity].
  unfold registered_servers. intros H. apply list_elem_of_singleton in H. discriminate.
Qed.

(** With a custom file the default file is never consulted. *)
Lemma custom_file_ignores_default (env : OsEnv) (self : MultilspyConfig) :
  truthy_str (custom_init_params_file self) = true ->
  read_init_params env self = _read_custom_init_params env self.
Proof. intros H. unfold read_init_params. by rewrite H. Qed.

(** C4, at a configuration with a custom file: the default file has the
    keys [capabilities] and [workspaceFolders], the custom file does
    not, and the document that comes out has neither: the default
    document is not the starting point of the chain. *)
Theorem custom_file_drops_default_keys :
  files sample_env (default_language_server_init_params_file sample_env JAVA)
    = Loaded sample_default_params
  /\ getitem sample_default_params "capabilities"
     = Ok (VDict [("workspace", VDict [("applyEdit", VBool true)])])
  /\ getitem sample_custom_params "capabilities" = Raise (KeyError "capabilities")
  /\ get_initialization_params sample_env custom_file_config
     = Ok [("rootPath", VStr "/srv/project");
           ("trace", VStr "off");
           ("processId", VInt 4242)].
Proof. repeat split; reflexivity. Qed.

(** [processId] is written last and wins over every earlier stage. *)
Lemma get_initialization_params_processId env self d :
  get_initialization_params env self = Ok d ->
  dict_get "processId" d = Some (VInt (getpid env)).
Proof.
  unfold get_initialization_params, bind. intros H.
  destruct (read_init_params env self); [|discriminate].
  destruct (apply_repository_path env self _); [|discriminate].
  inversion H. apply dict_get_set_eq.
Qed.

(** With a repository path, [rootPath] is that path whatever the files
    and the overrides say. *)
Lemma get_initialization_params_rootPath env self d :
  truthy_str (repository_absolute_path self) = true ->
  get_initialization_params env self = Ok d ->
  dict_get "rootPath" d
    = Some (VStr (default_of (repository_absolute_path self) "")).
Proof.
  unfold get_initialization_params, apply_repository_path, bind. intros Hr H.
  rewrite Hr in H.
  destruct (read_init_params env self) as [p|]; [|discriminate].
  destruct (Path_as_uri env _) as [uri|]; [|discriminate].
  destruct (dict_contains "workspaceFolders" _); inversion H;
    repeat (rewrite dict_get_set_ne by discriminate);
    apply dict_get_set_eq.
Qed.

Lemma read_error_is_not_rootPath_error env self e :
  read_init_params env self = Raise e -> e <> rootPath_error.
Proof.
  unfold read_init_params, _read_custom_init_params, _read_default_init_params,
    InitializeParams_of, default_read_error, custom_read_error, rootPath_error.
  destruct (truthy_str (custom_init_params_file self)).
  - destruct (files env _) as [| |[]]; intros [= <-]; simpl; discriminate.
  - destruct (files env _) as [| |[]]; intros [= <-]; simpl; discriminate.
Qed.

(** C8: without a repository path, a merged document whose [rootPath]
    is still the placeholder makes [get_initialization_params] raise the
    configuration error; with a repository path that error is not
    raised. *)
Theorem placeholder_rootPath_rejected (env : OsEnv) (self : MultilspyConfig) :
  (forall init_params,
      truthy_str (repository_absolute_path self) = false ->
      read_init_params env self = Ok init_params ->
      dict_get "rootPath" (apply_overrides self init_params)
        = Some (VStr "$rootPath") ->
      get_initialization_params env self = Raise rootPath_error)
  /\ (truthy_str (repository_absolute_path self) = true ->
      get_initialization_params env self <> Raise rootPath_error).
Proof.
  split.
  - intros init_params Hr Hread Hroot.
    unfold get_initialization_params, apply_repository_path, bind.
    rewrite Hread, Hr. simpl. by rewrite Hroot.
  - intros Hr. unfold get_initialization_params, bind.
    destruct (read_init_params env self) as [p|e] eqn:Hread.
    + unfold apply_repository_path, bind. rewrite Hr.
      unfold Path_as_uri.
      destruct (os_path_isabs _); [|discriminate].
      destruct (dict_contains _ _); discriminate.
    + intros [= ->]. by eapply read_error_is_not_rootPath_error.
Qed.

Lemma placeholder_rootPath_rejected_witness :
  get_initialization_params sample_env (plain_config JAVA) = Raise rootPath_error
  /\ get_initialization_params sample_env repo_config <> Raise rootPath_error.
Proof.
  split.
  - eapply (proj1 (placeholder_rootPath_rejected sample_env (plain_config JAVA)));
      reflexivity.
  - apply (proj2 (placeholder_rootPath_rejected sample_env repo_config)).
    reflexivity.
Defined.

(** The claim of C10 as it is worded fails at the default Java document:
    no repository path, the placeholder still in place, and the error
    that comes out is the configuration error of the base class, not a
    type error. *)
Lemma no_repo_placeholder_is_not_a_type_error :
  repository_absolute_path (base eclipse_no_repo) = None
  /\ EclipseJDTLSConfig_get_initialization_params sample_env eclipse_no_repo
     = Raise rootPath_error
  /\ ~ (exists msg,
          EclipseJDTLSConfig_get_initialization_params sample_env eclipse_no_repo
          = Raise (TypeError msg)).
Proof.
  split; [reflexivity|]. split; [reflexivity|].
  intros [msg H]. vm_compute in H. discriminate.
Qed.

(** C10, amended: with [repository_absolute_path] left at [None] the
    Java configuration never returns a document.  When the base class's
    step returns (the file supplies a usable [rootPath]) the failure is
    the type error of [os.path.isabs(None)]; when the base class's step
    raises, that exception comes out first. *)
Theorem no_repo_never_returns (env : OsEnv) (self : EclipseJDTLSConfig) :
  repository_absolute_path (base self) = None ->
  (forall r, EclipseJDTLSConfig_get_initialization_params env self <> Ok r)
  /\ (forall p,
        get_initialization_params env (base self) = Ok p ->
        EclipseJDTLSConfig_get_initialization_params env self
        = Raise isabs_type_error)
  /\ (forall e,
        get_initialization_params env (base self) = Raise e ->
        EclipseJDTLSConfig_get_initialization_params env self = Raise e).
Proof.
  intros Hnone. unfold EclipseJDTLSConfig_get_initialization_params.
  rewrite Hnone. simpl.
  destruct (get_initialization_params env (base self)) as [p|e]; simpl.
  - split; [discriminate|]. split; [reflexivity|]. discriminate.
  - split; [discriminate|]. split; [discriminate|]. by intros e' [= ->].
Qed.

Lemma no_repo_never_returns_witness :
  EclipseJDTLSConfig_get_initialization_params sample_env eclipse_no_repo_custom
  = Raise isabs_type_error.
Proof.
  apply (proj1 (proj2 (no_repo_never_returns sample_env eclipse_no_repo_custom
                         eq_refl))
           [("rootPath", VStr "/srv/project");
            ("trace", VStr "off");
            ("processId", VInt 4242)]).
  reflexivity.
Defined.

End ConfigFacts.

(** ** Provisioning *)

Module ProvisionFacts.
Import Config Provision.
Local Open Scope stm_scope.

(** *** The file system *)

Lemma exists_in_true (m : fsmap) (p : string) :
  exists_in m p = true <-> is_Some (m !! p).
Proof. unfold exists_in. apply bool_decide_eq_true. Qed.

Lemma fs_le_refl (m : fsmap) : fs_le m m.
Proof. by intros p. Qed.

Lemma fs_le_trans (m1 m2 m3 : fsmap) : fs_le m1 m2 -> fs_le m2 m3 -> fs_le m1 m3.
Proof. intros H12 H23 p Hp. by apply H23, H12. Qed.

Lemma fs_le_insert (m : fsmap) (q : string) (v : Z) : fs_le m (<[q := v]> m).
Proof.
  intros p. rewrite !exists_in_true. intros [x Hx].
  destruct (decide (q = p)) as [->|Hne].
  - rewrite lookup_insert_eq. by eexists.
  - rewrite lookup_insert_ne by done. by eexists.
Qed.

Lemma lookup_mkdir_if_missing (m : fsmap) (q p : string) (x : Z) :
  m !! p = Some x -> mkdir_if_missing m q !! p = Some x.
Proof.
  intros Hp. unfold mkdir_if_missing.
  destruct (exists_in m q) eqn:E; [done|].
  rewrite lookup_insert_ne; [done|].
  intros ->. apply not_true_iff_false in E. apply E.
  apply exists_in_true. by eexists.
Qed.

(** [os.makedirs] leaves what exists alone, permission bits included. *)
Lemma lookup_makedirs_fs (q p : string) (m : fsmap) (x : Z) :
  m !! p = Some x -> makedirs_fs q m !! p = Some x.
Proof.
  unfold makedirs_fs. generalize (path_prefixes q "") as l.
  intros l. revert m. induction l as [|a l IH]; intros m Hp; simpl; [done|].
  apply IH. by apply lookup_mkdir_if_missing.
Qed.

Lemma fs_le_makedirs (q : string) (m : fsmap) : fs_le m (makedirs_fs q m).
Proof.
  intros p. rewrite !exists_in_true. intros [x Hx].
  exists x. by apply lookup_makedirs_fs.
Qed.

(** *** Actions that remove no path *)

Lemma monotone_ret {A} (a : A) : monotone (ret a).
Proof. intros w. apply fs_le_refl. Qed.

Lemma monotone_lift {A} (r : result A) : monotone (lift r).
Proof. intros w. apply fs_le_refl. Qed.

Lemma monotone_bind {A B} (m : io A) (k : A -> io B) :
  monotone m -> (forall a, monotone (k a)) -> monotone (sbind m k).
Proof.
  intros Hm Hk w. unfold sbind. specialize (Hm w).
  destruct (m w) as [[a|e] w1]; simpl in *; [|done].
  eapply fs_le_trans; [exact Hm | apply Hk].
Qed.

Lemma monotone_exists (p : string) : monotone (os_path_exists p).
Proof. intros w. apply fs_le_refl. Qed.

Lemma monotone_makedirs (p : string) : monotone (os_makedirs p).
Proof. intros w. apply fs_le_makedirs. Qed.

Lemma monotone_chmod (p : string) (mode : Z) : monotone (os_chmod p mode).
Proof.
  intros w. unfold os_chmod. destruct (exists_in (fs w) p); simpl.
  - apply fs_le_insert.
  - apply fs_le_refl.
Qed.

Lemma monotone_all_exist (l : list string) : monotone (all_exist l).
Proof.
  induction l as [|p l IH]; simpl; [apply monotone_ret|].
  apply monotone_bind; [apply monotone_exists|]. intros here.
  apply monotone_bind; [exact IH|]. intros others. apply monotone_ret.
Qed.

Lemma monotone_assert_exist (l : list string) : monotone (assert_exist l).
Proof.
  induction l as [|p l IH]; simpl; [apply monotone_ret|].
  apply monotone_bind; [apply monotone_exists|]. intros here.
  apply monotone_bind; [apply monotone_lift|]. by intros _.
Qed.

Section WithFetch.
Variable module_dir : string.
Variable fetch : val -> string -> val -> fsmap -> result unit * fsmap.
Hypothesis fetch_keeps : keeps_paths fetch.

Lemma monotone_download url target archiveType :
  monotone (download_and_extract_archive fetch url target archiveType).
Proof.
  intros w. unfold download_and_extract_archive, sbind, emit. simpl.
  specialize (fetch_keeps url target archiveType (fs w)).
  destruct (fetch url target archiveType (fs w)) as [r m]. exact fetch_keeps.
Qed.

Lemma monotone_provision_gradle rd :
  monotone (provision_gradle module_dir fetch rd).
Proof.
  unfold provision_gradle.
  apply monotone_bind; [apply monotone_exists|]. intros here.
  apply monotone_bind.
  - destruct here; simpl; [apply monotone_ret|].
    apply monotone_bind; [apply monotone_lift|]. intros url.
    apply monotone_bind; [apply monotone_lift|]. intros ty.
    apply monotone_download.
  - intros _. apply monotone_bind; [apply monotone_assert_exist|].
    intros _. apply monotone_ret.
Qed.

Lemma monotone_provision_vscode_java rd platformId :
  monotone (provision_vscode_java module_dir fetch rd platformId).
Proof.
  unfold provision_vscode_java.
  apply monotone_bind; [apply monotone_lift|]. intros dep.
  apply monotone_bind; [apply monotone_lift|]. intros vs.
  apply monotone_bind; [apply monotone_makedirs|]. intros _.
  do 5 (apply monotone_bind; [apply monotone_lift|]; intros ?).
  apply monotone_bind; [apply monotone_all_exist|]. intros present.
  apply monotone_bind.
  - destruct present; simpl; [apply monotone_ret|].
    apply monotone_bind; [apply monotone_lift|]. intros url.
    apply monotone_bind; [apply monotone_lift|]. intros ty.
    apply monotone_download.
  - intros _. apply monotone_bind; [apply monotone_chmod|]. intros _.
    apply monotone_bind; [apply monotone_assert_exist|].
    intros _. apply monotone_ret.
Qed.

Lemma monotone_provision_intellicode rd :
  monotone (provision_intellicode module_dir fetch rd).
Proof.
  unfold provision_intellicode.
  apply monotone_bind; [apply monotone_lift|]. intros dep.
  apply monotone_bind; [apply monotone_lift|]. intros idir.
  apply monotone_bind; [apply monotone_makedirs|]. intros _.
  do 2 (apply monotone_bind; [apply monotone_lift|]; intros ?).
  apply monotone_bind; [apply monotone_all_exist|]. intros present.
  apply monotone_bind.
  - destruct present; simpl; [apply monotone_ret|].
    apply monotone_bind; [apply monotone_lift|]. intros url.
    apply monotone_bind; [apply monotone_lift|]. intros ty.
    apply monotone_download.
  - intros _. apply monotone_bind; [apply monotone_assert_exist|].
    intros _. apply monotone_ret.
Qed.

End WithFetch.

(** *** The existence tests *)

Lemma all_exist_spec (l : list string) (w : world) :
  all_exist l w = (Ok (forallb (exists_in (fs w)) l), w).
Proof.
  induction l as [|p l IH]; simpl; [done|].
  unfold sbind at 1. simpl. unfold sbind at 1. by rewrite IH.
Qed.

Lemma assert_exist_ok (l : list string) (w : world) :
  forallb (exists_in (fs w)) l = true -> assert_exist l w = (Ok tt, w).
Proof.
  induction l as [|p l IH]; simpl; [done|].
  intros [Hp Hl]%andb_true_iff. unfold sbind, os_path_exists, lift.
  rewrite Hp. simpl. by apply IH.
Qed.

Lemma assert_exist_inv (l : list string) (w w' : world) (u : unit) :
  assert_exist l w = (Ok u, w') ->
  w' = w /\ forallb (exists_in (fs w)) l = true.
Proof.
  induction l as [|p l IH]; simpl.
  - by intros [= _ <-].
  - unfold sbind, os_path_exists, lift.
    destruct (exists_in (fs w) p); simpl; [|discriminate].
    exact IH.
Qed.

Lemma forallb_exists_in (m : fsmap) (l : list string) :
  forallb (exists_in m) l = true <-> (forall p, p ∈ l -> exists_in m p = true).
Proof.
  rewrite forallb_forall. split; intros H p Hp; apply H; by apply list_elem_of_In.
Qed.

Ltac in_list :=
  repeat match goal with
    | H : _ ∈ _ :: _ |- _ => apply elem_of_cons in H as [->|H]
    | H : _ ∈ [] |- _ => by apply elem_of_nil in H
    end;
  rewrite ?elem_of_cons, ?elem_of_app, ?elem_of_cons; tauto.

Lemma forallb_exists_in_le (m m' : fsmap) (l : list string) :
  fs_le m m' ->
  forallb (exists_in m) l = true -> forallb (exists_in m') l = true.
Proof.
  intros Hle. rewrite !forallb_exists_in. intros H p Hp. by apply Hle, H.
Qed.

(** *** Reading a successful run backwards *)

Lemma sbind_inv {S A B} (m : stm S A) (k : A -> stm S B) (s s' : S) (b : B) :
  sbind m k s = (Ok b, s') ->
  exists a s1, m s = (Ok a, s1) /\ k a s1 = (Ok b, s').
Proof.
  unfold sbind. destruct (m s) as [[a|e] s1]; [eauto | discriminate].
Qed.

Lemma lift_inv {S A} (r : result A) (s s' : S) (a : A) :
  lift r s = (Ok a, s') -> r = Ok a /\ s' = s.
Proof. unfold lift. by intros [= -> ->]. Qed.

Lemma ret_inv {S A} (a b : A) (s s' : S) :
  ret a s = (Ok b, s') -> b = a /\ s' = s.
Proof. unfold ret. by intros [= -> ->]. Qed.

(** *** Running forwards *)

Lemma sbind_lift {S A B} (r : result A) (a : A) (k : A -> stm S B) (s : S) :
  r = Ok a -> sbind (lift r) k s = k a s.
Proof. by intros ->. Qed.

Lemma sbind_ret {S A B} (a : A) (k : A -> stm S B) (s : S) :
  sbind (ret a) k s = k a s.
Proof. done. Qed.

Lemma sbind_makedirs {B} (p : string) (k : unit -> io B) (w : world) :
  sbind (os_makedirs p) k w
  = k tt {| fs := makedirs_fs p (fs w); log := log w ++ [EMakedirs p] |}.
Proof. done. Qed.

Lemma sbind_chmod {B} (p : string) (mode : Z) (k : unit -> io B) (w : world) :
  exists_in (fs w) p = true ->
  sbind (os_chmod p mode) k w
  = k tt {| fs := <[p := mode]> (fs w); log := log w ++ [EChmod p mode] |}.
Proof. intros H. unfold sbind, os_chmod. by rewrite H. Qed.

Lemma sbind_all_exist {B} (l : list string) (k : bool -> io B) (w : world) :
  sbind (all_exist l) k w = k (forallb (exists_in (fs w)) l) w.
Proof. unfold sbind. by rewrite all_exist_spec. Qed.

Lemma sbind_assert_exist {B} (l : list string) (k : unit -> io B) (w : world) :
  forallb (exists_in (fs w)) l = true ->
  sbind (assert_exist l) k w = k tt w.
Proof. intros H. unfold sbind. by rewrite assert_exist_ok. Qed.

Section Blocks.
Variable module_dir : string.
Variable fetch : val -> string -> val -> fsmap -> result unit * fsmap.

Local Abbreviation the_gradle_path :=
  (PurePath [module_dir; "static/gradle-7.3.3"]) (only parsing).

Lemma provision_gradle_present rd w :
  exists_in (fs w) the_gradle_path = true ->
  provision_gradle module_dir fetch rd w = (Ok the_gradle_path, w).
Proof.
  intros H. unfold provision_gradle.
  unfold sbind at 1, os_path_exists. rewrite H. cbn [negb].
  rewrite sbind_ret. rewrite sbind_assert_exist; [done|].
  simpl. by rewrite H.
Qed.

Lemma provision_gradle_inv rd w g w' :
  provision_gradle module_dir fetch rd w = (Ok g, w') ->
  g = the_gradle_path /\ exists_in (fs w') the_gradle_path = true.
Proof.
  unfold provision_gradle. intros H.
  apply sbind_inv in H as (here & w1 & _ & H).
  apply sbind_inv in H as (u & w2 & _ & H).
  apply sbind_inv in H as (u' & w3 & Hex & H).
  apply ret_inv in H as [-> ->].
  apply assert_exist_inv in Hex as [-> Hex]. simpl in Hex.
  split; [done|]. by apply andb_true_iff in Hex as [? _].
Qed.

Lemma provision_vscode_java_present rd platformId w dep vs jh jre lo la co :
  vscode_java_entry rd platformId = Ok dep ->
  extraction_path module_dir dep = Ok vs ->
  entry_path vs dep "jre_home_path" = Ok jh ->
  entry_path vs dep "jre_path" = Ok jre ->
  entry_path vs dep "lombok_jar_path" = Ok lo ->
  entry_path vs dep "jdtls_launcher_jar_path" = Ok la ->
  entry_path vs dep "jdtls_readonly_config_path" = Ok co ->
  forallb (exists_in (fs w)) [vs; jh; jre; lo; la; co] = true ->
  provision_vscode_java module_dir fetch rd platformId w
  = (Ok (jh, jre, lo, la, co),
     {| fs := <[jre := S_IEXEC]> (makedirs_fs vs (fs w));
        log := log w ++ [EMakedirs vs; EChmod jre S_IEXEC] |}).
Proof.
  intros Hdep Hvs Hjh Hjre Hlo Hla Hco Hall.
  assert (Hall1 : forallb (exists_in (makedirs_fs vs (fs w)))
                    [vs; jh; jre; lo; la; co] = true).
  { eapply forallb_exists_in_le; [apply fs_le_makedirs | exact Hall]. }
  assert (Hjre1 : exists_in (makedirs_fs vs (fs w)) jre = true).
  { apply (proj1 (forallb_exists_in _ _) Hall1). in_list. }
  unfold provision_vscode_java.
  rewrite (sbind_lift _ _ _ _ Hdep), (sbind_lift _ _ _ _ Hvs), sbind_makedirs.
  rewrite (sbind_lift _ _ _ _ Hjh), (sbind_lift _ _ _ _ Hjre),
    (sbind_lift _ _ _ _ Hlo), (sbind_lift _ _ _ _ Hla), (sbind_lift _ _ _ _ Hco).
  rewrite sbind_all_exist. cbn [fs]. rewrite Hall1. cbn [negb].
  rewrite sbind_ret, sbind_chmod by exact Hjre1.
  rewrite sbind_assert_exist.
  - unfold ret. cbn [fs log]. by rewrite <- app_assoc.
  - cbn [fs]. eapply forallb_exists_in_le; [apply fs_le_insert | exact Hall1].
Qed.

Lemma provision_vscode_java_inv rd platformId w out w' :
  provision_vscode_java module_dir fetch rd platformId w = (Ok out, w') ->
  exists dep vs jh jre lo la co,
    vscode_java_entry rd platformId = Ok dep
    /\ extraction_path module_dir dep = Ok vs
    /\ entry_path vs dep "jre_home_path" = Ok jh
    /\ entry_path vs dep "jre_path" = Ok jre
    /\ entry_path vs dep "lombok_jar_path" = Ok lo
    /\ entry_path vs dep "jdtls_launcher_jar_path" = Ok la
    /\ entry_path vs dep "jdtls_readonly_config_path" = Ok co
    /\ out = (jh, jre, lo, la, co)
    /\ forallb (exists_in (fs w')) [vs; jh; jre; lo; la; co] = true.
Proof.
  unfold provision_vscode_java. intros H.
  apply sbind_inv in H as (dep & w1 & [Hdep ->]%lift_inv & H).
  apply sbind_inv in H as (vs & w1 & [Hvs ->]%lift_inv & H).
  apply sbind_inv in H as (u & w1 & _ & H).
  apply sbind_inv in H as (jh & w2 & [Hjh ->]%lift_inv & H).
  apply sbind_inv in H as (jre & w2 & [Hjre ->]%lift_inv & H).
  apply sbind_inv in H as (lo & w2 & [Hlo ->]%lift_inv & H).
  apply sbind_inv in H as (la & w2 & [Hla ->]%lift_inv & H).
  apply sbind_inv in H as (co & w2 & [Hco ->]%lift_inv & H).
  apply sbind_inv in H as (present & w3 & _ & H).
  apply sbind_inv in H as (u1 & w4 & _ & H).
  apply sbind_inv in H as (u2 & w5 & _ & H).
  apply sbind_inv in H as (u3 & w6 & Hex & H).
  apply ret_inv in H as [-> ->].
  apply assert_exist_inv in Hex as [-> Hex].
  exists dep, vs, jh, jre, lo, la, co. by repeat split.
Qed.

Lemma provision_intellicode_present rd w dep idir ij im :
  intellicode_entry rd = Ok dep ->
  extraction_path module_dir dep = Ok idir ->
  entry_path idir dep "intellicode_jar_path" = Ok ij ->
  entry_path idir dep "intellisense_members_path" = Ok im ->
  forallb (exists_in (fs w)) [idir; ij; im] = true ->
  provision_intellicode module_dir fetch rd w
  = (Ok (ij, im),
     {| fs := makedirs_fs idir (fs w); log := log w ++ [EMakedirs idir] |}).
Proof.
  intros Hdep Hdir Hij Him Hall.
  assert (Hall1 : forallb (exists_in (makedirs_fs idir (fs w))) [idir; ij; im] = true).
  { eapply forallb_exists_in_le; [apply fs_le_makedirs | exact Hall]. }
  unfold provision_intellicode.
  rewrite (sbind_lift _ _ _ _ Hdep), (sbind_lift _ _ _ _ Hdir), sbind_makedirs.
  rewrite (sbind_lift _ _ _ _ Hij), (sbind_lift _ _ _ _ Him).
  rewrite sbind_all_exist. cbn [fs]. rewrite Hall1. cbn [negb].
  rewrite sbind_ret. by rewrite sbind_assert_exist.
Qed.

Lemma provision_intellicode_inv rd w out w' :
  provision_intellicode module_dir fetch rd w = (Ok out, w') ->
  exists dep idir ij im,
    intellicode_entry rd = Ok dep
    /\ extraction_path module_dir dep = Ok idir
    /\ entry_path idir dep "intellicode_jar_path" = Ok ij
    /\ entry_path idir dep "intellisense_members_path" = Ok im
    /\ out = (ij, im)
    /\ forallb (exists_in (fs w')) [idir; ij; im] = true.
Proof.
  unfold provision_intellicode. intros H.
  apply sbind_inv in H as (dep & w1 & [Hdep ->]%lift_inv & H).
  apply sbind_inv in H as (idir & w1 & [Hdir ->]%lift_inv & H).
  apply sbind_inv in H as (u & w1 & _ & H).
  apply sbind_inv in H as (ij & w2 & [Hij ->]%lift_inv & H).
  apply sbind_inv in H as (im & w2 & [Him ->]%lift_inv & H).
  apply sbind_inv in H as (present & w3 & _ & H).
  apply sbind_inv in H as (u1 & w4 & _ & H).
  apply sbind_inv in H as (u3 & w6 & Hex & H).
  apply ret_inv in H as [-> ->].
  apply assert_exist_inv in Hex as [-> Hex].
  exists dep, idir, ij, im. by repeat split.
Qed.

End Blocks.

Lemma sbind_ok {S A B} (m : stm S A) (k : A -> stm S B) (s s1 : S) (a : A) :
  m s = (Ok a, s1) -> sbind m k s = k a s1.
Proof. intros H. unfold sbind. by rewrite H. Qed.

Section Main.
Variable module_dir : string.
Variable manifest : val.
Variable fetch : val -> string -> val -> fsmap -> result unit * fsmap.

Lemma load_and_check_platform_allowed platformId rd w :
  delitem "_description" manifest = Ok rd ->
  platformId ∈ platform_allow_list ->
  load_and_check_platform module_dir manifest platformId w
  = (Ok rd, world_after_load module_dir w).
Proof.
  intros Hdel Hin. unfold load_and_check_platform.
  rewrite (sbind_lift _ _ _ _ Hdel), sbind_makedirs.
  by rewrite bool_decide_eq_true_2.
Qed.

Lemma load_and_check_platform_refused platformId rd w :
  delitem "_description" manifest = Ok rd ->
  platformId ∉ platform_allow_list ->
  load_and_check_platform module_dir manifest platformId w
  = (Raise platform_error, world_after_load module_dir w).
Proof.
  intros Hdel Hin. unfold load_and_check_platform.
  rewrite (sbind_lift _ _ _ _ Hdel), sbind_makedirs.
  by rewrite bool_decide_eq_false_2.
Qed.

Lemma load_and_check_platform_inv platformId rd w w' :
  load_and_check_platform module_dir manifest platformId w = (Ok rd, w') ->
  delitem "_description" manifest = Ok rd
  /\ platformId ∈ platform_allow_list
  /\ w' = world_after_load module_dir w.
Proof.
  unfold load_and_check_platform. intros H.
  apply sbind_inv in H as (rd' & w1 & [Hdel ->]%lift_inv & H).
  rewrite sbind_makedirs in H.
  apply sbind_inv in H as (u & w2 & [Hplat ->]%lift_inv & H).
  apply ret_inv in H as [-> ->].
  split; [done|]. split; [|done].
  unfold assert in Hplat. case_bool_decide; [done|discriminate].
Qed.

Lemma declared_paths_inv rd platformId d :
  declared_paths module_dir rd platformId = Ok d ->
  exists dep vs jh jre lo la co dep' idir ij im,
    vscode_java_entry rd platformId = Ok dep
    /\ extraction_path module_dir dep = Ok vs
    /\ entry_path vs dep "jre_home_path" = Ok jh
    /\ entry_path vs dep "jre_path" = Ok jre
    /\ entry_path vs dep "lombok_jar_path" = Ok lo
    /\ entry_path vs dep "jdtls_launcher_jar_path" = Ok la
    /\ entry_path vs dep "jdtls_readonly_config_path" = Ok co
    /\ intellicode_entry rd = Ok dep'
    /\ extraction_path module_dir dep' = Ok idir
    /\ entry_path idir dep' "intellicode_jar_path" = Ok ij
    /\ entry_path idir dep' "intellisense_members_path" = Ok im
    /\ d = {| d_gradle := PurePath [module_dir; "static/gradle-7.3.3"];
              d_vscode_java := [vs; jh; jre; lo; la; co];
              d_intellicode := [idir; ij; im];
              d_paths :=
                {| gradle_path := PurePath [module_dir; "static/gradle-7.3.3"];
                   lombok_jar_path := lo;
                   jre_path := jre;
                   jre_home_path := jh;
                   jdtls_launcher_jar_path := la;
                   jdtls_readonly_config_path := co;
                   intellicode_jar_path := ij;
                   intellisense_members_path := im |} |}.
Proof.
  unfold declared_paths. intros H.
  destruct (vscode_java_entry rd platformId) as [dep|] eqn:E1; [|discriminate].
  cbn [bind] in H.
  destruct (extraction_path module_dir dep) as [vs|] eqn:E2; [|discriminate].
  cbn [bind] in H.
  destruct (entry_path vs dep "jre_home_path") as [jh|] eqn:E3; [|discriminate].
  cbn [bind] in H.
  destruct (entry_path vs dep "jre_path") as [jre|] eqn:E4; [|discriminate].
  cbn [bind] in H.
  destruct (entry_path vs dep "lombok_jar_path") as [lo|] eqn:E5; [|discriminate].
  cbn [bind] in H.
  destruct (entry_path vs dep "jdtls_launcher_jar_path") as [la|] eqn:E6; [|discriminate].
  cbn [bind] in H.
  destruct (entry_path vs dep "jdtls_readonly_config_path") as [co|] eqn:E7; [|discriminate].
  cbn [bind] in H.
  destruct (intellicode_entry rd) as [dep'|] eqn:E8; [|discriminate].
  cbn [bind] in H.
  destruct (extraction_path module_dir dep') as [idir|] eqn:E9; [|discriminate].
  cbn [bind] in H.
  destruct (entry_path idir dep' "intellicode_jar_path") as [ij|] eqn:E10; [|discriminate].
  cbn [bind] in H.
  destruct (entry_path idir dep' "intellisense_members_path") as [im|] eqn:E11; [|discriminate].
  cbn [bind] in H. injection H as <-.
  exists dep, vs, jh, jre, lo, la, co, dep', idir, ij, im. by repeat split.
Qed.

(** A run on an installation where every declared path exists: what it
    returns and everything it does. *)
Lemma setup_when_provisioned platformId rd d w :
  platformId ∈ platform_allow_list ->
  delitem "_description" manifest = Ok rd ->
  declared_paths module_dir rd platformId = Ok d ->
  provisioned d (fs w) ->
  exists vs idir,
    head (d_vscode_java d) = Some vs
    /\ head (d_intellicode d) = Some idir
    /\ setupRuntimeDependencies module_dir manifest fetch platformId w
       = (Ok (d_paths d),
          {| fs := makedirs_fs idir
                     (<[jre_path (d_paths d) := S_IEXEC]>
                        (makedirs_fs vs
                           (makedirs_fs (PurePath [module_dir; "static"]) (fs w))));
             log := log w ++ [EMakedirs (PurePath [module_dir; "static"]);
                              EMakedirs vs;
                              EChmod (jre_path (d_paths d)) S_IEXEC;
                              EMakedirs idir] |}).
Proof.
  intros Hplat Hdel Hdecl Hprov.
  apply declared_paths_inv in Hdecl
    as (dep & vs & jh & jre & lo & la & co & dep' & idir & ij & im
        & Hdep & Hvs & Hjh & Hjre & Hlo & Hla & Hco & Hdep' & Hidir & Hij & Him & ->).
  unfold provisioned in Hprov. cbn [d_gradle d_vscode_java d_intellicode] in Hprov.
  exists vs, idir. split; [done|]. split; [done|].
  cbn [d_paths jre_path].
  unfold setupRuntimeDependencies.
  rewrite (sbind_ok _ _ _ _ _ (load_and_check_platform_allowed _ _ w Hdel Hplat)).
  unfold provision_artifacts.
  set (w1 := world_after_load module_dir w).
  assert (Hle1 : fs_le (fs w) (fs w1)) by apply fs_le_makedirs.
  erewrite sbind_ok; cycle 1.
  { apply provision_gradle_present. apply Hle1, Hprov. in_list. }
  erewrite sbind_ok; cycle 1.
  { eapply provision_vscode_java_present; try eassumption.
    apply forallb_exists_in. intros p Hp. apply Hle1, Hprov. in_list. }
  cbv beta iota.
  erewrite sbind_ok; cycle 1.
  { eapply provision_intellicode_present; try eassumption.
    cbn [fs]. apply forallb_exists_in. intros p Hp.
    apply fs_le_insert, fs_le_makedirs, Hle1, Hprov. in_list. }
  cbv beta iota.
  unfold ret, w1, world_after_load. cbn [fs log].
  by rewrite <- !app_assoc.
Qed.

Lemma monotone_run {A} (act : io A) (w w' : world) (r : result A) :
  monotone act -> act w = (r, w') -> fs_le (fs w) (fs w').
Proof. intros Hm Hrun. specialize (Hm w). by rewrite Hrun in Hm. Qed.

(** A run that returns leaves every declared path in place. *)
Lemma setup_success_inv platformId w paths w1 :
  keeps_paths fetch ->
  setupRuntimeDependencies module_dir manifest fetch platformId w = (Ok paths, w1) ->
  exists rd d,
    delitem "_description" manifest = Ok rd
    /\ platformId ∈ platform_allow_list
    /\ declared_paths module_dir rd platformId = Ok d
    /\ d_paths d = paths
    /\ provisioned d (fs w1).
Proof.
  intros Hkeeps H. unfold setupRuntimeDependencies in H.
  apply sbind_inv in H as (rd & wl & Hload & H).
  apply load_and_check_platform_inv in Hload as (Hdel & Hplat & ->).
  unfold provision_artifacts in H.
  apply sbind_inv in H as (g & wg & Hg & H).
  apply sbind_inv in H as (out & wv & Hv & H).
  pose proof (monotone_run _ _ _ _
                (monotone_provision_vscode_java module_dir fetch Hkeeps rd platformId)
                Hv) as Hle_v.
  apply provision_gradle_inv in Hg as [-> Hg].
  apply provision_vscode_java_inv in Hv
    as (dep & vs & jh & jre & lo & la & co
        & Hdep & Hvs & Hjh & Hjre & Hlo & Hla & Hco & -> & Hv).
  cbv beta iota in H.
  apply sbind_inv in H as (out & wi & Hi & H).
  pose proof (monotone_run _ _ _ _
                (monotone_provision_intellicode module_dir fetch Hkeeps rd) Hi)
    as Hle_i.
  apply provision_intellicode_inv in Hi
    as (dep' & idir & ij & im & Hdep' & Hidir & Hij & Him & -> & Hi).
  cbv beta iota in H. apply ret_inv in H as [-> ->].
  exists rd.
  eexists {| d_gradle := _; d_vscode_java := [vs; jh; jre; lo; la; co];
             d_intellicode := [idir; ij; im]; d_paths := _ |}.
  split; [done|]. split; [done|]. split.
  { unfold declared_paths.
    rewrite Hdep; cbn [bind]. rewrite Hvs; cbn [bind].
    rewrite Hjh; cbn [bind]. rewrite Hjre; cbn [bind].
    rewrite Hlo; cbn [bind]. rewrite Hla; cbn [bind]. rewrite Hco; cbn [bind].
    rewrite Hdep'; cbn [bind]. rewrite Hidir; cbn [bind].
    rewrite Hij; cbn [bind]. rewrite Him; cbn [bind]. reflexivity. }
  split; [reflexivity|].
  unfold provisioned. cbn [d_gradle d_vscode_java d_intellicode].
  intros p [->|Hp]%elem_of_cons.
  - by apply Hle_i, Hle_v.
  - apply elem_of_app in Hp as [Hp|Hp].
    + apply Hle_i. by apply (proj1 (forallb_exists_in _ _) Hv).
    + by apply (proj1 (forallb_exists_in _ _) Hi).
Qed.

Lemma downloads_app (l l' : list event) :
  downloads (l ++ l') = (downloads l ++ downloads l')%list.
Proof. apply List.filter_app. Qed.


(** C3: on an installation where every declared artifact path exists
    the function downloads nothing and returns the declared paths; and
    whenever a call returns, the call that follows it returns the same
    [RuntimeDependencyPaths] and downloads nothing, so that of two
    successive calls only the first can touch the network. *)
Theorem setup_is_idempotent platformId :
  keeps_paths fetch ->
  (forall rd d w,
      platformId ∈ platform_allow_list ->
      delitem "_description" manifest = Ok rd ->
      declared_paths module_dir rd platformId = Ok d ->
      provisioned d (fs w) ->
      exists w',
        setupRuntimeDependencies module_dir manifest fetch platformId w
        = (Ok (d_paths d), w')
        /\ downloads (log w') = downloads (log w)
        /\ provisioned d (fs w'))
  /\ (forall w paths w1,
        setupRuntimeDependencies module_dir manifest fetch platformId w
        = (Ok paths, w1) ->
        exists w2,
          setupRuntimeDependencies module_dir manifest fetch platformId w1
          = (Ok paths, w2)
          /\ downloads (log w2) = downloads (log w1)).
Proof.
  intros Hkeeps.
  assert (Hfirst : forall rd d w,
      platformId ∈ platform_allow_list ->
      delitem "_description" manifest = Ok rd ->
      declared_paths module_dir rd platformId = Ok d ->
      provisioned d (fs w) ->
      exists w',
        setupRuntimeDependencies module_dir manifest fetch platformId w
        = (Ok (d_paths d), w')
        /\ downloads (log w') = downloads (log w)
        /\ provisioned d (fs w')).
  { intros rd d w Hplat Hdel Hdecl Hprov.
    destruct (setup_when_provisioned platformId rd d w Hplat Hdel Hdecl Hprov)
      as (vs & idir & _ & _ & Hrun).
    eexists. split; [exact Hrun|]. cbn [log fs]. split.
    - rewrite downloads_app. simpl. by rewrite app_nil_r.
    - intros p Hp.
      by apply fs_le_makedirs, fs_le_insert, fs_le_makedirs, fs_le_makedirs, Hprov. }
  split; [exact Hfirst|].
  intros w paths w1 Hrun.
  destruct (setup_success_inv _ _ _ _ Hkeeps Hrun)
    as (rd & d & Hdel & Hplat & Hdecl & <- & Hprov).
  destruct (Hfirst rd d w1 Hplat Hdel Hdecl Hprov) as (w2 & Hrun2 & Hdl & _).
  by exists w2.
Qed.

(** C7: a platform outside the allow-list makes the function raise
    whatever the manifest holds, with nothing downloaded; once the
    manifest is loaded the outcome is the platform assertion, the only
    effect is the creation of [static], and neither the artifact
    entries nor the downloader have any influence on it.  A platform
    in the allow-list passes the check and the function goes on with
    the artifacts. *)
Theorem platform_checked_before_artifacts platformId w :
  (platformId ∉ platform_allow_list ->
   (exists e,
       fst (setupRuntimeDependencies module_dir manifest fetch platformId w)
       = Raise e)
   /\ downloads
        (log (snd (setupRuntimeDependencies module_dir manifest fetch platformId w)))
      = downloads (log w)
   /\ (forall rd,
         delitem "_description" manifest = Ok rd ->
         setupRuntimeDependencies module_dir manifest fetch platformId w
         = (Raise platform_error, world_after_load module_dir w)))
  /\ (platformId ∈ platform_allow_list ->
      forall rd,
        delitem "_description" manifest = Ok rd ->
        setupRuntimeDependencies module_dir manifest fetch platformId w
        = provision_artifacts module_dir fetch rd platformId
            (world_after_load module_dir w)).
Proof.
  split.
  - intros Hnot.
    assert (Hloaded : forall rd,
               delitem "_description" manifest = Ok rd ->
               setupRuntimeDependencies module_dir manifest fetch platformId w
               = (Raise platform_error, world_after_load module_dir w)).
    { intros rd Hdel. unfold setupRuntimeDependencies, sbind at 1.
      by rewrite (load_and_check_platform_refused _ _ w Hdel Hnot). }
    destruct (delitem "_description" manifest) as [rd|e] eqn:Hdel.
    + rewrite (Hloaded rd eq_refl). cbn [fst snd]. split; [by eexists|].
      split; [|done].
      unfold world_after_load. cbn [log]. rewrite downloads_app. simpl.
      by rewrite app_nil_r.
    + split; [|split; [|discriminate]].
      * exists e. unfold setupRuntimeDependencies, load_and_check_platform,
          sbind, lift. by rewrite Hdel.
      * unfold setupRuntimeDependencies, load_and_check_platform,
          sbind, lift. by rewrite Hdel.
  - intros Hin rd Hdel. unfold setupRuntimeDependencies.
    by rewrite (sbind_ok _ _ _ _ _ (load_and_check_platform_allowed _ _ w Hdel Hin)).
Qed.


End Main.

(** *** The sample installation *)

Lemma sample_fetch_keeps_paths : keeps_paths sample_fetch.
Proof.
  intros url target ty m. unfold sample_fetch. cbn [snd].
  generalize (sample_archive target) as l. intros l. revert m.
  induction l as [|q l IH]; intros m; simpl; [apply fs_le_refl|].
  eapply fs_le_trans; [apply fs_le_insert | apply IH].
Qed.

Lemma linux_x64_allowed : "linux-x64" ∈ platform_allow_list.
Proof. apply list_elem_of_here. Qed.

Lemma osx_arm64_not_allowed : "osx-arm64" ∉ platform_allow_list.
Proof.
  unfold platform_allow_list. intros H.
  apply elem_of_cons in H as [H|H]; [discriminate|].
  apply elem_of_cons in H as [H|H]; [discriminate|].
  by apply elem_of_nil in H.
Qed.

Lemma setup_is_idempotent_witness :
  exists paths w1 w2,
    setupRuntimeDependencies "/pkg" sample_manifest sample_fetch "linux-x64" empty_world
    = (Ok paths, w1)
    /\ length (downloads (log w1)) = 3%nat
    /\ setupRuntimeDependencies "/pkg" sample_manifest sample_fetch "linux-x64" w1
       = (Ok paths, w2)
    /\ downloads (log w2) = downloads (log w1).
Proof.
  pose (r := setupRuntimeDependencies "/pkg" sample_manifest sample_fetch
               "linux-x64" empty_world).
  assert (Hr : exists paths, r = (Ok paths, snd r)).
  { vm_compute. by eexists. }
  destruct Hr as [paths Hr].
  destruct (proj2 (setup_is_idempotent "/pkg" sample_manifest sample_fetch
                     "linux-x64" sample_fetch_keeps_paths)
              _ _ _ Hr) as (w2 & Hrun2 & Hdl).
  exists paths, (snd r), w2. split; [exact Hr|]. split; [by vm_compute|]. by split.
Defined.

Lemma platform_checked_before_artifacts_witness :
  setupRuntimeDependencies "/pkg" sample_manifest sample_fetch "osx-arm64" empty_world
  = (Raise platform_error, world_after_load "/pkg" empty_world)
  /\ setupRuntimeDependencies "/pkg" sample_manifest sample_fetch "linux-x64" empty_world
     = provision_artifacts "/pkg" sample_fetch
         (VDict (dict_remove "_description"
                   match sample_manifest with VDict d => d | _ => [] end))
         "linux-x64" (world_after_load "/pkg" empty_world).
Proof.
  split.
  - eapply (proj2 (proj2 (proj1 (platform_checked_before_artifacts "/pkg"
                                  sample_manifest sample_fetch
                                  "osx-arm64" empty_world)
                               osx_arm64_not_allowed))).
    reflexivity.
  - apply (proj2 (platform_checked_before_artifacts "/pkg" sample_manifest sample_fetch
                    "linux-x64" empty_world) linux_x64_allowed).
    reflexivity.
Defined.



End ProvisionFacts.

(** ** The handshake *)

Module HandshakeFacts.
Import Handshake.
Local Open Scope stm_scope.
Local Open Scope list_scope.

(** *** Traces *)

Lemma snoc_split {A} (t t1 t2 : list A) (a b : A) :
  t ++ [a] = t1 ++ b :: t2 ->
  (t2 = [] /\ t1 = t /\ b = a)
  \/ (exists t2', t2 = t2' ++ [a] /\ t = t1 ++ b :: t2').
Proof.
  destruct t2 as [|x t2 _] using rev_ind.
  - intros H. apply app_inj_tail in H as [-> ->]. by left.
  - intros H. right. exists t2.
    rewrite app_comm_cons, app_assoc in H.
    apply app_inj_tail in H as [-> ->]. by split.
Qed.

Lemma precedes_nil P Q : precedes P Q [].
Proof. intros t1 b t2 H. by destruct t1. Qed.

Lemma precedes_snoc P Q t a :
  precedes P Q t ->
  (Q a -> exists x, x ∈ t /\ P x) ->
  precedes P Q (t ++ [a]).
Proof.
  intros Hp Ha t1 b t2 Heq Hq.
  apply snoc_split in Heq as [(-> & -> & ->)|(t2' & -> & ->)].
  - by apply Ha.
  - by eapply Hp.
Qed.

Lemma times_set_snoc s t a :
  times_set s (t ++ [a]) = (times_set s t + if is_signal_set s a then 1 else 0)%nat.
Proof.
  unfold times_set. rewrite List.filter_app, length_app. simpl.
  by destruct (is_signal_set s a).
Qed.

Lemma is_signal_set_true s a :
  is_signal_set s a = true -> exists h, a = ASignalSet s h.
Proof.
  destruct a; simpl; try discriminate.
  intros H. apply bool_decide_eq_true in H. subst. by eexists.
Qed.

(** *** One more action keeps the invariant *)

Lemma trace_inv_snoc st st' a :
  trace_inv st ->
  trace st' = trace st ++ [a] ->
  (is_enable_request a -> is_set st intellicode_enable_command_available = true) ->
  (is_ack a -> exists x, x ∈ trace st /\ is_enable_request x) ->
  (is_yield a ->
   (exists x, x ∈ trace st /\ is_truthy_ack x)
   /\ is_set st service_ready_event = true) ->
  (forall s h, a = ASignalSet s h -> h = setter_of s /\ is_set st s = false) ->
  (forall s, is_set st' s = is_set st s || is_signal_set s a) ->
  trace_inv st'.
Proof.
  intros [Hreq Hack Hyack Hyready Hsetter Hcount Hflag] Ht Hr Ha Hy Hs Hset.
  split; rewrite Ht.
  - apply precedes_snoc; [done|]. intros Hq. eexists. split; [|done].
    apply Hflag. by apply Hr.
  - apply precedes_snoc; [done|]. intros Hq. by apply Ha.
  - apply precedes_snoc; [done|]. intros Hq. by apply Hy.
  - apply precedes_snoc; [done|]. intros Hq. eexists. split; [|done].
    apply Hflag. by apply Hy.
  - intros s h [Hin|Hin]%elem_of_app; [by apply Hsetter|].
    apply list_elem_of_singleton in Hin. symmetry in Hin. by apply Hs in Hin as [? _].
  - intros s. rewrite times_set_snoc, Hcount, Hset.
    destruct (is_signal_set s a) eqn:E.
    + apply is_signal_set_true in E as [h ->].
      destruct (Hs s h eq_refl) as [_ ->]. done.
    + rewrite orb_false_r. destruct (is_set st s); lia.
  - intros s. rewrite Hset. intros [H|H]%orb_true_iff.
    + apply elem_of_app. left. by apply Hflag.
    + apply is_signal_set_true in H as [h ->].
      destruct (Hs s h eq_refl) as [-> _].
      apply elem_of_app. right. by apply list_elem_of_singleton.
Qed.

Lemma trace_at_extend p t l : trace_at p t -> trace_at p (t ++ l).
Proof.
  destruct p; simpl; try done; intros (a & Ha & Hp); exists a;
    (split; [apply elem_of_app; by left | done]).
Qed.

Lemma trace_inv_goto p st : trace_inv st -> trace_inv (goto p st).
Proof. by intros []. Qed.

Lemma trace_inv_record_plain a st :
  is_plain a = true -> trace_inv st -> trace_inv (record a st).
Proof.
  intros Hplain Hinv. eapply (trace_inv_snoc st _ a); [done|done|..].
  - intros [x ->]. discriminate.
  - intros [x ->]. discriminate.
  - intros ->. discriminate.
  - intros s h ->. discriminate.
  - intros s. simpl. destruct a; try discriminate; by rewrite orb_false_r.
Qed.

Lemma inv_goto p st :
  trace_inv st -> trace_at p (trace st) -> inv (goto p st).
Proof. intros Ht Hp. split; [by apply trace_inv_goto | exact Hp]. Qed.

Section Coroutine.
Variable self : session.

Lemma inv_raise_in_body yielded e st :
  trace_inv st -> inv (raise_in_body self yielded e st).
Proof.
  intros Ht. unfold raise_in_body.
  assert (trace_inv (record (ABaseExit (Some e)) st))
    by by apply trace_inv_record_plain.
  destruct (base_suppresses self e); [destruct yielded|]; by apply inv_goto.
Qed.

Lemma inv_do_yield st :
  trace_inv st ->
  (exists x, x ∈ trace st /\ is_truthy_ack x) ->
  is_set st service_ready_event = true ->
  inv (do_yield st).
Proof.
  intros Ht Hack Hready. unfold do_yield. apply inv_goto; [|done].
  eapply (trace_inv_snoc st _ AYield); [done|done|..].
  - intros [x [=]].
  - intros [x [=]].
  - done.
  - intros s h [=].
  - intros s. simpl. by rewrite orb_false_r.
Qed.

Lemma inv_wait_service_ready st :
  trace_inv st ->
  (exists x, x ∈ trace st /\ is_truthy_ack x) ->
  inv (wait_service_ready st).
Proof.
  intros Ht Hack. unfold wait_service_ready.
  destruct (is_set st service_ready_event) eqn:E.
  - by apply inv_do_yield.
  - by apply inv_goto.
Qed.

Lemma inv_send_intellicode_enable st :
  trace_inv st ->
  is_set st intellicode_enable_command_available = true ->
  inv (send_intellicode_enable self st).
Proof.
  intros Ht Hset. unfold send_intellicode_enable.
  destruct (members_path_exists self); [|by apply inv_raise_in_body].
  apply inv_goto.
  - eapply (trace_inv_snoc st _ (ASendExecuteCommand _)); [done|done|..].
    + done.
    + intros [x [=]].
    + intros [=].
    + intros s h [=].
    + intros s. simpl. by rewrite orb_false_r.
  - simpl. eexists. split; [apply elem_of_app; right; apply list_elem_of_here|].
    by eexists.
Qed.

Lemma inv_wait_intellicode_command st :
  trace_inv st -> inv (wait_intellicode_command self st).
Proof.
  intros Ht. unfold wait_intellicode_command.
  destruct (is_set st intellicode_enable_command_available) eqn:E.
  - by apply inv_send_intellicode_enable.
  - by apply inv_goto.
Qed.

Lemma inv_after_initialize init_response st :
  trace_inv st -> inv (after_initialize self init_response st).
Proof.
  intros Ht. unfold after_initialize.
  destruct (check_init_response init_response); [|by apply inv_raise_in_body].
  assert (trace_inv (record ANotifyInitialized st))
    by by apply trace_inv_record_plain.
  destruct (bind _ _); [|by apply inv_raise_in_body].
  apply inv_wait_intellicode_command. by apply trace_inv_record_plain.
Qed.

Lemma inv_resume st i : inv st -> inv (resume self st i).
Proof.
  intros [Ht Hp]. unfold resume.
  destruct (at_pc st) eqn:Hpc;
    destruct i as [|[r|err]| | | |[err|]]; try (by split; [|rewrite Hpc]).
  - apply inv_goto; [|done]. by repeat apply trace_inv_record_plain.
  - apply inv_goto; [|done]. by repeat apply trace_inv_record_plain.
  - by apply inv_raise_in_body.
  - by apply inv_after_initialize.
  - by apply inv_raise_in_body.
  - by apply inv_wait_intellicode_command.
  - simpl in Hp.
    assert (Ht' : trace_inv (record (AExecuteCommandResult r) st)).
    { eapply (trace_inv_snoc st _ (AExecuteCommandResult r)); [done|done|..].
      - intros [x [=]].
      - done.
      - intros [=].
      - intros s h [=].
      - intros s. simpl. by rewrite orb_false_r. }
    destruct (truthy r) eqn:Htr; [|by apply inv_raise_in_body].
    apply inv_wait_service_ready; [done|].
    eexists. split; [apply elem_of_app; right; apply list_elem_of_here|].
    by eexists.
  - by apply inv_raise_in_body.
  - by apply inv_wait_service_ready.
  - by apply inv_raise_in_body.
  - apply inv_goto; [|done]. by apply trace_inv_record_plain.
  - apply inv_goto; [|done]. by apply trace_inv_record_plain.
  - by apply inv_raise_in_body.
  - apply inv_goto; [|done]. by apply trace_inv_record_plain.
  - by apply inv_raise_in_body.
Qed.

End Coroutine.

(** *** The handlers *)

Section Respects.
Variable R : state -> state -> Prop.
Hypothesis R_refl : forall st, R st st.
Hypothesis R_trans : forall a b c, R a b -> R b c -> R a c.
Hypothesis R_set : forall s st, R st (snd (Event_set s (setter_of s) st)).

Lemma respects_ret {A} (a : A) : respects R (ret a).
Proof. intros st. apply R_refl. Qed.

Lemma respects_lift {A} (r : result A) : respects R (lift r).
Proof. intros st. apply R_refl. Qed.

Lemma respects_bind {A B} (m : stm state A) (k : A -> stm state B) :
  respects R m -> (forall a, respects R (k a)) -> respects R (sbind m k).
Proof.
  intros Hm Hk st. unfold sbind. specialize (Hm st).
  destruct (m st) as [[a|e] st1]; simpl in *; [|done].
  eapply R_trans; [exact Hm | apply Hk].
Qed.

Lemma respects_for_each body items :
  (forall x, respects R (body x)) -> respects R (for_each body items).
Proof.
  intros Hbody. induction items as [|x items IH]; simpl.
  - apply respects_ret.
  - apply respects_bind; [apply Hbody | by intros _].
Qed.

Ltac respects_steps :=
  repeat first
    [ apply respects_ret
    | apply respects_lift
    | exact (fun st => R_set completions_available st)
    | exact (fun st => R_set intellicode_enable_command_available st)
    | exact (fun st => R_set service_ready_event st)
    | apply respects_bind; [|intros ?]
    | match goal with
      | |- respects _ (if ?c then _ else _) => destruct c
      end ].

Lemma respects_handle_registration registration :
  respects R (handle_registration registration).
Proof. unfold handle_registration. respects_steps. Qed.

Lemma respects_register_capability_handler params :
  respects R (register_capability_handler params).
Proof.
  unfold register_capability_handler. respects_steps.
  apply respects_for_each, respects_handle_registration.
Qed.

Lemma respects_lang_status_handler params :
  respects R (lang_status_handler params).
Proof. unfold lang_status_handler. respects_steps. Qed.

Lemma respects_step_handlers self st i :
  (forall st, R st (resume self st i)) -> R st (step self st i).
Proof.
  intros Hres. unfold step. destruct i; try apply Hres.
  - destruct (at_pc st); try apply respects_register_capability_handler.
    apply R_refl.
  - destruct (at_pc st); try apply respects_lang_status_handler.
    apply R_refl.
Qed.

End Respects.

(** A handler leaves the coroutine where it is. *)
Lemma Event_set_keeps_pc s h st : at_pc (snd (Event_set s h st)) = at_pc st.
Proof. unfold Event_set. by destruct (is_set st s). Qed.

(** An event that is set stays set. *)
Lemma Event_set_keeps_set s h st s' :
  is_set st s' = true -> is_set (snd (Event_set s h st)) s' = true.
Proof.
  unfold Event_set. destruct (is_set st s) eqn:E; simpl; [done|].
  intros ->. by case_bool_decide.
Qed.

Lemma inv_Event_set s st :
  inv st -> inv (snd (Event_set s (setter_of s) st)).
Proof.
  intros [Ht Hp]. unfold Event_set. destruct (is_set st s) eqn:E; [done|].
  split; cbn [snd at_pc trace].
  - eapply (trace_inv_snoc st _ (ASignalSet s (setter_of s))); [done|done|..].
    + intros [x [=]].
    + intros [x [=]].
    + intros [=].
    + by intros s' h [= -> ->].
    + intros s'. cbn [is_set is_signal_set].
      destruct (decide (s' = s)) as [->|Hne].
      * rewrite !bool_decide_eq_true_2 by done. by rewrite orb_true_r.
      * rewrite !bool_decide_eq_false_2 by congruence. by rewrite orb_false_r.
  - by apply trace_at_extend.
Qed.

Lemma register_capability_handler_keeps_pc params st :
  at_pc (snd (register_capability_handler params st)) = at_pc st.
Proof.
  exact (respects_register_capability_handler
           (fun st st' => at_pc st' = at_pc st)
           (fun _ => eq_refl)
           (fun a b c Hab Hbc => eq_trans Hbc Hab)
           (fun s st0 => Event_set_keeps_pc s _ st0) params st).
Qed.

Lemma lang_status_handler_keeps_pc params st :
  at_pc (snd (lang_status_handler params st)) = at_pc st.
Proof.
  exact (respects_lang_status_handler
           (fun st st' => at_pc st' = at_pc st)
           (fun _ => eq_refl)
           (fun a b c Hab Hbc => eq_trans Hbc Hab)
           (fun s st0 => Event_set_keeps_pc s _ st0) params st).
Qed.

Section Runs.
Variable self : session.

Lemma inv_step st i : inv st -> inv (step self st i).
Proof.
  exact (respects_step_handlers (fun st st' => inv st -> inv st')
           (fun _ H => H)
           (fun a b c Hab Hbc Ha => Hbc (Hab Ha))
           inv_Event_set self st i
           (fun st0 => inv_resume self st0 i)).
Qed.

Lemma inv_initial : inv initial.
Proof.
  split; [|done]. split; simpl; try apply precedes_nil; try done.
  intros s h H. by apply elem_of_nil in H.
Qed.

Lemma inv_run_from st inputs : inv st -> inv (run_from self st inputs).
Proof.
  revert st. induction inputs as [|i inputs IH]; intros st Hinv; simpl; [done|].
  apply IH. by apply inv_step.
Qed.

Lemma inv_run inputs : inv (run self inputs).
Proof. apply inv_run_from, inv_initial. Qed.

(** Once the generator has failed or finished, nothing resumes it. *)
Lemma step_after_the_end st i :
  (at_pc st = Exited \/ exists e, at_pc st = Failed e) ->
  at_pc (step self st i) = at_pc st.
Proof.
  intros Hend.
  assert (Hres : resume self st i = st).
  { unfold resume. destruct Hend as [->|[e ->]]; by destruct i. }
  unfold step. destruct i; try (by rewrite Hres).
  - pose proof (register_capability_handler_keeps_pc params st) as H.
    destruct (at_pc st) eqn:E; first [done | by rewrite H].
  - pose proof (lang_status_handler_keeps_pc params st) as H.
    destruct (at_pc st) eqn:E; first [done | by rewrite H].
Qed.

Lemma run_after_the_end st inputs :
  (at_pc st = Exited \/ exists e, at_pc st = Failed e) ->
  at_pc (run_from self st inputs) = at_pc st.
Proof.
  revert st. induction inputs as [|i inputs IH]; intros st Hend; simpl; [done|].
  pose proof (step_after_the_end st i Hend) as Hpc.
  rewrite IH; [done|]. by rewrite Hpc.
Qed.

Lemma resume_keeps_events st i s :
  is_set (resume self st i) s = is_set st s.
Proof.
  unfold resume, after_initialize, wait_intellicode_command,
    send_intellicode_enable, wait_service_ready, do_yield, raise_in_body.
  repeat case_match; reflexivity.
Qed.

(** Signals never reset. *)
Lemma events_stay_set st inputs s :
  is_set st s = true -> is_set (run_from self st inputs) s = true.
Proof.
  revert st. induction inputs as [|i inputs IH]; intros st Hset; simpl; [done|].
  apply IH.
  exact (respects_step_handlers
           (fun st st' => is_set st s = true -> is_set st' s = true)
           (fun _ H => H)
           (fun a b c Hab Hbc Ha => Hbc (Hab Ha))
           (fun s0 st0 => Event_set_keeps_set s0 _ st0 s) self st i
           (fun st0 H => eq_trans (resume_keeps_events st0 i s) H) Hset).
Qed.

Lemma times_set_positive s h t :
  ASignalSet s h ∈ t -> (1 <= times_set s t)%nat.
Proof.
  intros (t1 & t2 & ->)%list_elem_of_split.
  unfold times_set. rewrite List.filter_app, length_app. simpl.
  rewrite bool_decide_eq_true_2 by done. simpl. lia.
Qed.

(** C2: in every run of the session, whatever the server sends and in
    whatever order, a yield of the ready client comes after the
    capability-registration handler has set
    [intellicode_enable_command_available], after the
    [java.intellicode.enable] request that follows it, after the
    truthy result of that request, and after the status handler has
    set [service_ready_event]; an event is set by the handler that
    holds its [set()] call and goes from unset to set at most once,
    exactly once for the two readiness signals when the client has
    been yielded. *)
Theorem ready_only_after_signals inputs :
  let st := run self inputs in
  (forall t1 t2,
      trace st = t1 ++ AYield :: t2 ->
      (exists u1 u2 u3 u4 arguments r,
          t1 = u1
               ++ ASignalSet intellicode_enable_command_available
                    register_capability_handler_id
               :: u2
               ++ ASendExecuteCommand
                    (VDict [("command", VStr "java.intellicode.enable");
                            ("arguments", arguments)])
               :: u3
               ++ AExecuteCommandResult r
               :: u4
          /\ truthy r = true)
      /\ ASignalSet service_ready_event lang_status_handler_id ∈ t1)
  /\ (forall s h, ASignalSet s h ∈ trace st -> h = setter_of s)
  /\ (forall s, times_set s (trace st) = if is_set st s then 1%nat else 0%nat)
  /\ (AYield ∈ trace st ->
      times_set intellicode_enable_command_available (trace st) = 1%nat
      /\ times_set service_ready_event (trace st) = 1%nat).
Proof.
  intros st. destruct (inv_run inputs) as [Ht _]. fold st in Ht.
  destruct Ht as [Hreq Hack Hyack Hyready Hsetter Hcount Hflag].
  assert (Hord : forall t1 t2,
      trace st = t1 ++ AYield :: t2 ->
      (exists u1 u2 u3 u4 arguments r,
          t1 = u1
               ++ ASignalSet intellicode_enable_command_available
                    register_capability_handler_id
               :: u2
               ++ ASendExecuteCommand
                    (VDict [("command", VStr "java.intellicode.enable");
                            ("arguments", arguments)])
               :: u3
               ++ AExecuteCommandResult r
               :: u4
          /\ truthy r = true)
      /\ ASignalSet service_ready_event lang_status_handler_id ∈ t1).
  { intros t1 t2 Heq. split.
    - destruct (Hyack t1 AYield t2 Heq eq_refl) as (a & Ha & r & -> & Htr).
      apply list_elem_of_split in Ha as (x & u4 & ->).
      destruct (Hack x (AExecuteCommandResult r) (u4 ++ AYield :: t2))
        as (b & Hb & arguments & ->).
      { by rewrite Heq, <- app_assoc. }
      { by eexists. }
      apply list_elem_of_split in Hb as (y & u3 & ->).
      destruct (Hreq y (ASendExecuteCommand
                        (VDict [("command", VStr "java.intellicode.enable");
                                ("arguments", arguments)]))
                  (u3 ++ AExecuteCommandResult r :: u4 ++ AYield :: t2))
        as (c & Hc & ->).
      { rewrite Heq. by rewrite <- !app_assoc. }
      { by eexists. }
      apply list_elem_of_split in Hc as (u1 & u2 & ->).
      exists u1, u2, u3, u4, arguments, r. split; [|done].
      by rewrite <- !app_assoc.
    - destruct (Hyready t1 AYield t2 Heq eq_refl) as (a & Ha & ->). exact Ha. }
  split; [exact Hord|]. split; [exact Hsetter|]. split; [exact Hcount|].
  intros (t1 & t2 & Heq)%list_elem_of_split.
  destruct (Hord t1 t2 Heq) as [(u1 & u2 & u3 & u4 & arguments & r & Ht1 & _) Hready].
  assert (Hone : forall s h, ASignalSet s h ∈ trace st -> times_set s (trace st) = 1%nat).
  { intros s h Hin. apply times_set_positive in Hin.
    rewrite Hcount in *. by destruct (is_set st s); [|lia]. }
  split.
  - apply (Hone _ register_capability_handler_id).
    rewrite Heq, Ht1. apply elem_of_app. left.
    apply elem_of_app. right. apply list_elem_of_here.
  - apply (Hone _ lang_status_handler_id).
    rewrite Heq. apply elem_of_app. by left.
Qed.

End Runs.

Lemma ready_only_after_signals_witness :
  AYield ∈ trace (run sample_session handshake_inputs)
  /\ times_set intellicode_enable_command_available
       (trace (run sample_session handshake_inputs)) = 1%nat
  /\ times_set service_ready_event
       (trace (run sample_session handshake_inputs)) = 1%nat.
Proof.
  assert (H : AYield ∈ trace (run sample_session handshake_inputs)).
  { vm_compute. do 12 apply list_elem_of_further. apply list_elem_of_here. }
  split; [exact H|].
  exact (proj2 (proj2 (proj2 (ready_only_after_signals sample_session handshake_inputs)))
           H).
Defined.

(** *** The [initialize] response *)

(** The three assertions pass exactly on the responses the orchestrator
    assumes. *)
Lemma check_init_response_spec init_response :
  check_init_response init_response = Ok tt
  <-> capabilities_as_assumed init_response.
Proof.
  unfold check_init_response, capabilities_as_assumed. split.
  - intros H.
    destruct (getitem init_response "capabilities") as [caps|] eqn:E1;
      [|discriminate].
    cbn [bind] in H.
    destruct (getitem caps "textDocumentSync") as [sync|] eqn:E2; [|discriminate].
    cbn [bind] in H.
    destruct (getitem sync "change") as [change|] eqn:E3; [|discriminate].
    cbn [bind] in H.
    destruct (eq change (VInt 2)) eqn:E4; [|discriminate].
    cbn [bind assert] in H.
    destruct (contains (VStr "completionProvider") caps) as [[]|] eqn:E5;
      try discriminate.
    cbn [bind assert negb] in H.
    destruct (contains (VStr "executeCommandProvider") caps) as [[]|] eqn:E6;
      try discriminate.
    by exists caps, sync, change.
  - intros (caps & sync & change & E1 & E2 & E3 & E4 & E5 & E6).
    rewrite E1. cbn [bind]. rewrite E2. cbn [bind]. rewrite E3. cbn [bind].
    rewrite E4. cbn [bind assert]. rewrite E5. cbn [bind assert negb].
    by rewrite E6.
Qed.

(** C6: when the [initialize] response arrives, a response that is not
    as the orchestrator assumes (the synchronisation mode is not 2, or a
    [completionProvider] or an [executeCommandProvider] is declared)
    makes the session fail there: the exception goes through the base
    class's context manager and nothing else is sent, and no later
    delivery resumes the session.  A response as assumed lets the
    handshake go on with the [initialized] notification. *)
Theorem capability_mismatch_is_fatal self st init_response :
  at_pc st = AwaitInitialize ->
  let st' := step self st (Completed (Ok init_response)) in
  (~ capabilities_as_assumed init_response ->
   (exists e,
       check_init_response init_response = Raise e
       /\ trace st' = trace st ++ [ABaseExit (Some e)])
   /\ (exists e, at_pc st' = Failed e)
   /\ (forall inputs, at_pc (run_from self st' inputs) = at_pc st'))
  /\ (capabilities_as_assumed init_response ->
      exists rest, trace st' = trace st ++ ANotifyInitialized :: rest).
Proof.
  intros Hpc st'. subst st'. cbn [step]. unfold resume. rewrite Hpc.
  unfold after_initialize. split.
  - intros Hnot.
    destruct (check_init_response init_response) as [[]|e] eqn:Hcheck.
    { exfalso. by apply Hnot, check_init_response_spec. }
    assert (Hfailed : exists e', at_pc (raise_in_body self false e st) = Failed e').
    { unfold raise_in_body. destruct (base_suppresses self e); by eexists. }
    split; [|split; [exact Hfailed|]].
    + exists e. split; [done|].
      unfold raise_in_body. by destruct (base_suppresses self e).
    + intros inputs. apply run_after_the_end. by right.
  - intros Hok. apply check_init_response_spec in Hok. rewrite Hok.
    destruct (bind _ _) as [settings|e].
    + unfold wait_intellicode_command, send_intellicode_enable, raise_in_body.
      repeat case_match; cbn [trace goto record];
        rewrite <- ?app_assoc; by eexists.
    + unfold raise_in_body.
      repeat case_match; cbn [trace goto record];
        rewrite <- ?app_assoc; by eexists.
Qed.

Lemma capability_mismatch_is_fatal_witness :
  let st := run sample_session [Enter; Completed (Ok VNone)] in
  (exists e, at_pc (step sample_session st (Completed (Ok full_sync_response)))
             = Failed e)
  /\ (exists rest,
        trace (step sample_session st (Completed (Ok sample_init_response)))
        = trace st ++ ANotifyInitialized :: rest).
Proof.
  intros st. split.
  - apply (proj1 (capability_mismatch_is_fatal sample_session st full_sync_response
                    eq_refl)).
    intros H%check_init_response_spec. vm_compute in H. discriminate.
  - apply (proj2 (capability_mismatch_is_fatal sample_session st sample_init_response
                    eq_refl)).
    apply check_init_response_spec. reflexivity.
Defined.

(** *** Leaving the ready scope *)

(** An exception thrown into the generator at the [yield] goes straight
    to the base class's context manager: whatever session, nothing is
    sent to the server, and nothing resumes the generator afterwards. *)
Lemma exception_at_yield st self e :
  at_pc st = Ready ->
  trace (step self st (LeaveScope (Some e))) = trace st ++ [ABaseExit (Some e)]
  /\ (forall inputs,
        at_pc (run_from self (step self st (LeaveScope (Some e))) inputs) <> AwaitShutdown
        /\ at_pc (run_from self (step self st (LeaveScope (Some e))) inputs) <> AwaitStop).
Proof.
  intros Hpc. cbn [step]. unfold resume. rewrite Hpc. unfold raise_in_body.
  split; [by destruct (base_suppresses self e)|].
  intros inputs. rewrite run_after_the_end.
  - by destruct (base_suppresses self e).
  - destruct (base_suppresses self e); [by left | right; by eexists].
Qed.

(** C1, at a caller that raises while the session is ready: the session
    has yielded, the exception leaves [start_server] through the base
    class's context manager, and neither [server.shutdown] nor
    [server.stop] is called; a caller that returns gets both. *)
Theorem caller_exception_skips_shutdown :
  let ready := run sample_session handshake_inputs in
  let raised :=
    run sample_session (handshake_inputs ++ [LeaveScope (Some caller_error)]) in
  let returned :=
    run sample_session
      (handshake_inputs
         ++ [LeaveScope None; Completed (Ok VNone); Completed (Ok VNone)]) in
  at_pc ready = Ready
  /\ at_pc raised = Failed caller_error
  /\ trace raised = trace ready ++ [ABaseExit (Some caller_error)]
  /\ at_pc returned = Exited
  /\ trace returned = trace ready ++ [AServerShutdown; AServerStop; ABaseExit None].
Proof. vm_compute. by repeat split. Qed.

End HandshakeFacts.

(** ** More on the configuration *)

Module ConfigExtra.
Import Config ConfigMore PyFacts.

Lemma dict_get_absent {V} (k : string) (d : list (string * V)) :
  k ∉ map fst d -> dict_get k d = None.
Proof.
  induction d as [|[k' v] d IH]; simpl; [done|].
  intros Hk. apply not_elem_of_cons in Hk as [Hne Hk].
  destruct (String.eqb k k') eqn:E; [|by apply IH].
  apply String.eqb_eq in E. contradiction.
Qed.

(** [{**a, **b}]: a key of [b] has its value from [b], any other key its
    value from [a]. *)
Lemma dict_get_update {V} (k : string) (a b : list (string * V)) :
  NoDup (map fst b) ->
  dict_get k (dict_update a b)
  = match dict_get k b with Some v => Some v | None => dict_get k a end.
Proof.
  unfold dict_update. revert a.
  induction b as [|[k' v'] b IH]; intros a Hnd; simpl; [done|].
  apply NoDup_cons in Hnd as [Hk' Hnd]. rewrite IH by done.
  destruct (String.eqb k k') eqn:E.
  - apply String.eqb_eq in E. subst k'.
    rewrite (dict_get_absent k b Hk'). apply dict_get_set_eq.
  - destruct (dict_get k b); [done|].
    apply dict_get_set_ne. intros ->. by rewrite String.eqb_refl in E.
Qed.

Lemma dict_contains_set_ne {V} (k k0 : string) (v : V) (d : list (string * V)) :
  k0 <> k -> dict_contains k0 (dict_set k v d) = dict_contains k0 d.
Proof. intros H. unfold dict_contains. by rewrite dict_get_set_ne. Qed.

(** What a returned document is made of. *)
Lemma get_initialization_params_inv env self d :
  get_initialization_params env self = Ok d ->
  exists file_params,
    read_init_params env self = Ok file_params
    /\ let merged := apply_overrides self file_params in
       let repo := default_of (repository_absolute_path self) "" in
       (truthy_str (repository_absolute_path self) = true
        /\ os_path_isabs repo = true
        /\ d = dict_set "processId" (VInt (getpid env))
                 (let patched :=
                    dict_set "rootUri" (VStr (uri_of_abs env repo))
                      (dict_set "rootPath" (VStr repo) merged) in
                  if dict_contains "workspaceFolders" patched
                  then dict_set "workspaceFolders"
                         (VList [workspace_folder (uri_of_abs env repo)
                                   (os_path_basename repo)]) patched
                  else patched))
       \/ (truthy_str (repository_absolute_path self) = false
           /\ (exists rootPath,
                  dict_get "rootPath" merged = Some rootPath
                  /\ eq rootPath (VStr "$rootPath") = false)
           /\ d = dict_set "processId" (VInt (getpid env)) merged).
Proof.
  unfold get_initialization_params, apply_repository_path. intros H.
  destruct (read_init_params env self) as [file_params|] eqn:Hread; [|discriminate].
  cbn [bind] in H. exists file_params. split; [done|]. cbv zeta.
  destruct (truthy_str (repository_absolute_path self)) eqn:Hrepo.
  - left. unfold Path_as_uri in H.
    destruct (os_path_isabs _) eqn:Habs; [|discriminate].
    cbn [bind] in H.
    destruct (dict_contains "workspaceFolders" _) eqn:Hwf; cbn [bind] in H;
      injection H as <-; by rewrite ?Hwf.
  - right. unfold getitem in H.
    destruct (dict_get "rootPath" _) as [rootPath|] eqn:Hrp; [|discriminate].
    cbn [bind] in H.
    destruct (eq rootPath (VStr "$rootPath")) eqn:Heq; [discriminate|].
    injection H as <-. split; [done|]. split; [by eexists|done].
Qed.

(** X1: [validate_language_server] accepts no server at all, accepts a
    server registered for the language and hands it back unchanged, and
    raises [ValueError] for every other pairing. *)
Theorem validate_accepts_exactly_registered :
  (forall lang, validate_language_server lang None = Ok None)
  /\ (forall lang ls,
        ls ∈ registered_servers lang ->
        validate_language_server lang (Some ls) = Ok (Some ls))
  /\ (forall lang ls,
        ls ∉ registered_servers lang ->
        validate_language_server lang (Some ls)
        = Raise (ValueError (invalid_language_server_msg ls lang))).
Proof.
  split; [by intros []|]. split.
  - intros lang ls Hin. destruct lang; apply list_elem_of_singleton in Hin; by subst.
  - intros lang ls Hnot.
    destruct lang, ls; try reflexivity; exfalso; apply Hnot; apply list_elem_of_here.
Qed.

Lemma validate_accepts_exactly_registered_witness :
  validate_language_server RUST (Some RUSTANALYZER) = Ok (Some RUSTANALYZER)
  /\ validate_language_server RUST (Some JEDI)
     = Raise (ValueError "Invalid language server 'JediServer' for code language 'rust'").
Proof.
  split.
  - apply (proj1 (proj2 validate_accepts_exactly_registered)). apply list_elem_of_here.
  - apply (proj2 (proj2 validate_accepts_exactly_registered) RUST JEDI).
    intros H. apply list_elem_of_singleton in H. discriminate.
Defined.

(** X2: each backend configuration class ([JediServerConfig],
    [EclipseJDTLSConfig], [RustAnalyzerConfig], [OmniSharpConfig]) builds,
    whatever its arguments, a configuration whose language/server pairing
    [validate_language_server] accepts. *)
Theorem backend_configs_hold_valid_pairings t c o r :
  (forall e, exists cfg,
      JediServerConfig_init t c o r e = Ok cfg
      /\ validate_language_server (code_language (jedi_base cfg))
           (language_server (jedi_base cfg)) = Ok (Some JEDI))
  /\ (forall rdp, exists cfg,
        EclipseJDTLSConfig_init t c o r rdp = Ok cfg
        /\ validate_language_server (code_language (base cfg))
             (language_server (base cfg)) = Ok (Some ECLIPSEJDTLS))
  /\ (exists cfg,
        RustAnalyzerConfig_init t c o r = Ok cfg
        /\ validate_language_server (code_language cfg) (language_server cfg)
           = Ok (Some RUSTANALYZER))
  /\ (exists cfg,
        OmniSharpConfig_init t c o r = Ok cfg
        /\ validate_language_server (code_language cfg) (language_server cfg)
           = Ok (Some OMNISHARP)).
Proof. repeat split; intros; by eexists. Qed.

(** X3: in a returned document [processId] is the calling process's
    identifier whatever the files and the overrides hold; and when a
    repository path is configured that path is absolute, [rootPath] is the
    path, [rootUri] is its file URI, and [workspaceFolders] is there
    exactly when the merged document had it, then holding the one folder
    of the repository. *)
Theorem repository_path_and_pid_are_written_last env self d :
  get_initialization_params env self = Ok d ->
  dict_get "processId" d = Some (VInt (getpid env))
  /\ (truthy_str (repository_absolute_path self) = true ->
      let repo := default_of (repository_absolute_path self) "" in
      os_path_isabs repo = true
      /\ dict_get "rootPath" d = Some (VStr repo)
      /\ dict_get "rootUri" d = Some (VStr (uri_of_abs env repo))
      /\ (forall file_params,
            read_init_params env self = Ok file_params ->
            dict_contains "workspaceFolders" d
            = dict_contains "workspaceFolders" (apply_overrides self file_params))
      /\ (dict_contains "workspaceFolders" d = true ->
          dict_get "workspaceFolders" d
          = Some (VList [workspace_folder (uri_of_abs env repo)
                           (os_path_basename repo)]))).
Proof.
  intros H.
  destruct (get_initialization_params_inv env self d H)
    as (file_params & Hread & Hcases). cbv zeta in Hcases.
  split.
  { destruct Hcases as [(_ & _ & ->)|(_ & _ & ->)]; apply dict_get_set_eq. }
  intros Hrepo. cbv zeta.
  destruct Hcases as [(_ & Habs & ->)|(Hfalse & _)]; [|congruence].
  split; [exact Habs|].
  set (repo := default_of (repository_absolute_path self) "") in *.
  set (merged := apply_overrides self file_params) in *.
  set (patched := dict_set "rootUri" (VStr (uri_of_abs env repo))
                    (dict_set "rootPath" (VStr repo) merged)).
  assert (Hwf : dict_contains "workspaceFolders" patched
                = dict_contains "workspaceFolders" merged).
  { unfold patched. by rewrite !dict_contains_set_ne by discriminate. }
  destruct (dict_contains "workspaceFolders" patched) eqn:Hp.
  - repeat split.
    + unfold patched. rewrite !dict_get_set_ne by discriminate. apply dict_get_set_eq.
    + unfold patched. rewrite !dict_get_set_ne by discriminate. apply dict_get_set_eq.
    + intros fp Hfp. rewrite Hread in Hfp. injection Hfp as <-.
      rewrite dict_contains_set_ne by discriminate. fold merged. rewrite <- Hwf.
      unfold dict_contains. by rewrite dict_get_set_eq.
    + intros _. rewrite dict_get_set_ne by discriminate. apply dict_get_set_eq.
  - repeat split.
    + unfold patched. rewrite !dict_get_set_ne by discriminate. apply dict_get_set_eq.
    + unfold patched. rewrite dict_get_set_ne by discriminate. apply dict_get_set_eq.
    + intros fp Hfp. rewrite Hread in Hfp. injection Hfp as <-.
      rewrite dict_contains_set_ne by discriminate. fold merged. by rewrite <- Hwf.
    + rewrite dict_contains_set_ne by discriminate. rewrite Hp. discriminate.
Qed.

Lemma repository_path_and_pid_are_written_last_witness :
  exists d,
    get_initialization_params sample_env repo_config = Ok d
    /\ dict_get "processId" d = Some (VInt 4242)
    /\ dict_get "rootPath" d = Some (VStr "/srv/project")
    /\ dict_get "rootUri" d = Some (VStr "file:///srv/project").
Proof.
  assert (H : exists d, get_initialization_params sample_env repo_config = Ok d).
  { vm_compute. by eexists. }
  destruct H as [d H]. exists d.
  destruct (repository_path_and_pid_are_written_last sample_env repo_config d H)
    as [Hpid Hrepo].
  destruct (Hrepo eq_refl) as (_ & Hroot & Huri & _).
  by repeat split.
Defined.

(** X4: a key that is not one of [rootPath], [rootUri],
    [workspaceFolders], [processId] has in the returned document the
    value the overrides give it, and the value of the parameter file when
    the overrides do not mention it: the merge is by top-level key. *)
Theorem overrides_win_key_by_key env self d file_params k :
  get_initialization_params env self = Ok d ->
  read_init_params env self = Ok file_params ->
  NoDup (map fst (default_of (init_params_overrides self) [])) ->
  k ∉ patched_keys ->
  dict_get k d
  = match dict_get k (default_of (init_params_overrides self) []) with
    | Some v => Some v
    | None => dict_get k file_params
    end.
Proof.
  intros H Hread Hnd Hk.
  assert (Hne : k <> "rootPath" /\ k <> "rootUri"
                /\ k <> "workspaceFolders" /\ k <> "processId").
  { unfold patched_keys in Hk. rewrite !not_elem_of_cons in Hk. tauto. }
  destruct Hne as (N1 & N2 & N3 & N4).
  destruct (get_initialization_params_inv env self d H)
    as (fp & Hread' & Hcases). cbv zeta in Hcases.
  rewrite Hread in Hread'. injection Hread' as <-.
  assert (Hmerged : dict_get k (apply_overrides self file_params)
                    = match dict_get k (default_of (init_params_overrides self) []) with
                      | Some v => Some v
                      | None => dict_get k file_params
                      end).
  { unfold apply_overrides.
    destruct (init_params_overrides self) as [[|kv o]|];
      cbn [truthy_dict default_of]; try done.
    by rewrite dict_get_update by exact Hnd. }
  rewrite <- Hmerged.
  destruct Hcases as [(_ & _ & ->)|(_ & _ & ->)].
  - destruct (dict_contains "workspaceFolders" _);
      by rewrite !dict_get_set_ne by done.
  - by rewrite dict_get_set_ne by done.
Qed.

Lemma overrides_win_key_by_key_witness :
  exists d,
    get_initialization_params sample_env repo_config = Ok d
    /\ dict_get "trace" d = Some (VStr "messages")
    /\ dict_get "capabilities" d
       = Some (VDict [("workspace", VDict [("applyEdit", VBool true)])]).
Proof.
  assert (H : exists d, get_initialization_params sample_env repo_config = Ok d).
  { vm_compute. by eexists. }
  destruct H as [d H]. exists d. split; [exact H|].
  assert (Hread : read_init_params sample_env repo_config
                  = Ok match sample_default_params with VDict p => p | _ => [] end)
    by reflexivity.
  assert (Hnd : NoDup (map fst (default_of (init_params_overrides repo_config) []))).
  { simpl. apply NoDup_singleton. }
  split.
  - rewrite (overrides_win_key_by_key sample_env repo_config d _ "trace" H Hread Hnd);
      [reflexivity|].
    unfold patched_keys. rewrite !not_elem_of_cons. repeat split; try discriminate.
    apply not_elem_of_nil.
  - rewrite (overrides_win_key_by_key sample_env repo_config d _ "capabilities"
               H Hread Hnd); [reflexivity|].
    unfold patched_keys. rewrite !not_elem_of_cons. repeat split; try discriminate.
    apply not_elem_of_nil.
Defined.

(** X5: a returned document always has a [rootPath], and it is never the
    placeholder. *)
Theorem returned_document_has_a_resolved_rootPath env self d :
  get_initialization_params env self = Ok d ->
  exists rootPath,
    dict_get "rootPath" d = Some rootPath
    /\ eq rootPath (VStr "$rootPath") = false.
Proof.
  intros H.
  destruct (get_initialization_params_inv env self d H)
    as (fp & _ & Hcases). cbv zeta in Hcases.
  destruct Hcases as [(_ & Habs & ->)|(_ & (rp & Hrp & Hne) & ->)].
  - exists (VStr (default_of (repository_absolute_path self) "")). split.
    + destruct (dict_contains "workspaceFolders" _);
        rewrite !dict_get_set_ne by discriminate; apply dict_get_set_eq.
    + simpl. destruct (String.eqb _ "$rootPath") eqn:E; [|done].
      apply String.eqb_eq in E. rewrite E in Habs. discriminate.
  - exists rp. split; [|done]. by rewrite dict_get_set_ne by discriminate.
Qed.

Lemma returned_document_has_a_resolved_rootPath_witness :
  exists rootPath,
    dict_get "rootPath"
      [("rootPath", VStr "/srv/project"); ("trace", VStr "off"); ("processId", VInt 4242)]
    = Some rootPath
    /\ eq rootPath (VStr "$rootPath") = false.
Proof.
  apply (returned_document_has_a_resolved_rootPath sample_env custom_file_config).
  reflexivity.
Defined.

(** X6: how a parameter file that cannot be used surfaces.  A missing or
    malformed default file and a malformed custom file are wrapped in
    [MultilspyException]; a missing custom file escapes as the raw
    [FileNotFoundError]; a file whose JSON is not an object is a
    [TypeError] in both cases. *)
Theorem unusable_parameter_files env self :
  let default_file :=
    default_language_server_init_params_file env (code_language self) in
  let custom_file := default_of (custom_init_params_file self) "" in
  (truthy_str (custom_init_params_file self) = false ->
   (files env default_file = NoSuchFile ->
    get_initialization_params env self
    = Raise (default_read_error (no_such_file_detail default_file)))
   /\ (forall detail,
         files env default_file = BadJSON detail ->
         get_initialization_params env self = Raise (default_read_error detail))
   /\ (forall v,
         files env default_file = Loaded v ->
         (forall p, v <> VDict p) ->
         exists msg, get_initialization_params env self = Raise (TypeError msg)))
  /\ (truthy_str (custom_init_params_file self) = true ->
      (files env custom_file = NoSuchFile ->
       get_initialization_params env self = Raise (FileNotFoundError custom_file))
      /\ (forall detail,
            files env custom_file = BadJSON detail ->
            get_initialization_params env self = Raise (custom_read_error detail))
      /\ (forall v,
            files env custom_file = Loaded v ->
            (forall p, v <> VDict p) ->
            exists msg, get_initialization_params env self = Raise (TypeError msg))).
Proof.
  cbv zeta.
  unfold get_initialization_params, read_init_params, _read_custom_init_params,
    _read_default_init_params.
  split; intros Ht; rewrite Ht; (split; [|split]).
  - by intros ->.
  - by intros detail ->.
  - intros v -> Hv. destruct v; try (by eexists). by destruct (Hv d).
  - by intros ->.
  - by intros detail ->.
  - intros v -> Hv. destruct v; try (by eexists). by destruct (Hv d).
Qed.

Lemma unusable_parameter_files_witness :
  get_initialization_params sample_env missing_custom_config
  = Raise (FileNotFoundError "/home/me/absent.json")
  /\ get_initialization_params sample_env (plain_config CSHARP)
     = Raise (default_read_error
                (no_such_file_detail
                   "/pkg/multilspy/language_servers/omnisharp/initialize_params.json")).
Proof.
  split.
  - apply (proj1 (proj2 (unusable_parameter_files sample_env missing_custom_config)
                    eq_refl)).
    reflexivity.
  - apply (proj1 (proj1 (unusable_parameter_files sample_env (plain_config CSHARP))
                    eq_refl)).
    reflexivity.
Defined.

(** X7: a repository path that is not absolute is never accepted: once
    the parameter file is read, [get_initialization_params] raises the
    [ValueError] of [Path.as_uri()]; so the Java configuration, which
    calls it first, never gets to turn a relative path into an absolute
    one. *)
Theorem relative_repository_path_is_rejected env self :
  truthy_str (repository_absolute_path self) = true ->
  os_path_isabs (default_of (repository_absolute_path self) "") = false ->
  (forall file_params,
      read_init_params env self = Ok file_params ->
      get_initialization_params env self
      = Raise (ValueError "relative path can't be expressed as a file URI"))
  /\ (forall d, get_initialization_params env self <> Ok d)
  /\ (forall rdp r,
        EclipseJDTLSConfig_get_initialization_params env
          {| base := self; runtime_dependency_paths := rdp |} <> Ok r).
Proof.
  intros Hrepo Hrel.
  assert (Hnot : forall d, get_initialization_params env self <> Ok d).
  { intros d H.
    destruct (get_initialization_params_inv env self d H) as (fp & _ & Hcases).
    cbv zeta in Hcases. destruct Hcases as [(_ & Habs & _)|(Hf & _)]; congruence. }
  split; [|split; [exact Hnot|]].
  - intros fp Hread.
    unfold get_initialization_params, apply_repository_path, Path_as_uri.
    by rewrite Hread, Hrepo, Hrel.
  - intros rdp r. unfold EclipseJDTLSConfig_get_initialization_params. cbn [base].
    destruct (get_initialization_params env self) as [d|e] eqn:H; [|discriminate].
    by destruct (Hnot d).
Qed.

Lemma relative_repository_path_is_rejected_witness :
  get_initialization_params sample_env relative_repo_config
  = Raise (ValueError "relative path can't be expressed as a file URI").
Proof.
  eapply (proj1 (relative_repository_path_is_rejected sample_env relative_repo_config
                   eq_refl eq_refl)).
  reflexivity.
Defined.

(** *** Assignments inside a document *)

Lemma setitem_inv k v c c' :
  setitem k v c = Ok c' -> exists d, c = VDict d /\ c' = VDict (dict_set k v d).
Proof. destruct c; simpl; try discriminate. intros [= <-]. by eexists. Qed.

Lemma in_item_inv k f c c' :
  in_item k f c = Ok c' ->
  exists d sub sub',
    c = VDict d /\ dict_get k d = Some sub /\ f sub = Ok sub'
    /\ c' = VDict (dict_set k sub' d).
Proof.
  unfold in_item. destruct c; simpl; try discriminate.
  destruct (dict_get k d) as [sub|] eqn:E; [|discriminate]. cbn [bind].
  destruct (f sub) as [sub'|] eqn:Ef; [|discriminate]. cbn [bind].
  intros [= <-]. by exists d, sub, sub'.
Qed.

Lemma in_setdefault_inv k f c c' :
  in_setdefault k f c = Ok c' ->
  exists d sub',
    c = VDict d /\ f (default_of (dict_get k d) (VDict [])) = Ok sub'
    /\ c' = VDict (dict_set k sub' d).
Proof.
  unfold in_setdefault. destruct c; try discriminate.
  destruct (f _) as [sub'|] eqn:Ef; [|discriminate]. cbn [bind].
  intros [= <-]. by exists d, sub'.
Qed.

Lemma getitem_dict_set_eq k v d : getitem (VDict (dict_set k v d)) k = Ok v.
Proof. simpl. by rewrite dict_get_set_eq. Qed.

Lemma getitem_dict_set_ne k k0 v d :
  k0 <> k -> getitem (VDict (dict_set k v d)) k0 = getitem (VDict d) k0.
Proof. intros H. simpl. by rewrite dict_get_set_ne. Qed.

(** After [c<hops>[k] = v], reading the same path gives [v]. *)
Lemma getpath_assign hops k v c c' :
  assign_at hops k v c = Ok c' ->
  getpath (assigned_path hops k) c' = Ok v.
Proof.
  unfold assigned_path. revert c c'.
  induction hops as [|[k'|k'] hops IH]; intros c c' H; cbn [assign_at] in H.
  - apply setitem_inv in H as (d & -> & ->). cbn [map app getpath].
    by rewrite getitem_dict_set_eq.
  - apply in_item_inv in H as (d & sub & sub' & -> & _ & Hf & ->).
    cbn [map app getpath hop_key]. rewrite getitem_dict_set_eq. cbn [bind].
    by eapply IH.
  - apply in_setdefault_inv in H as (d & sub' & -> & Hf & ->).
    cbn [map app getpath hop_key]. rewrite getitem_dict_set_eq. cbn [bind].
    by eapply IH.
Qed.

(** ... and a path that parts ways with it still leads to what it led
    to. *)
Lemma getpath_assign_other hops k v c c' q x :
  assign_at hops k v c = Ok c' ->
  diverges q (assigned_path hops k) ->
  getpath q c = Ok x ->
  getpath q c' = Ok x.
Proof.
  unfold assigned_path. revert c c' q.
  induction hops as [|[k'|k'] hops IH]; intros c c' q H Hdiv Hq;
    cbn [assign_at] in H; cbn [map app hop_key] in Hdiv;
    destruct q as [|a q]; try done; cbn [diverges] in Hdiv; cbn [getpath] in *.
  - apply setitem_inv in H as (d & -> & ->).
    destruct Hdiv as [Hne|[_ Hd]]; [by rewrite getitem_dict_set_ne | by destruct q].
  - apply in_item_inv in H as (d & sub & sub' & -> & Hsub & Hf & ->).
    destruct Hdiv as [Hne|[-> Hdiv]]; [by rewrite getitem_dict_set_ne|].
    rewrite getitem_dict_set_eq. cbn [bind].
    simpl in Hq. rewrite Hsub in Hq. cbn [bind] in Hq. by eapply IH.
  - apply in_setdefault_inv in H as (d & sub' & -> & Hf & ->).
    destruct Hdiv as [Hne|[-> Hdiv]]; [by rewrite getitem_dict_set_ne|].
    rewrite getitem_dict_set_eq. cbn [bind].
    simpl in Hq. destruct (dict_get k' d) as [sub|] eqn:Hsub; [|discriminate].
    cbn [bind default_of] in *. by eapply IH.
Qed.

(** *** The Java configuration *)

Lemma apply_runtime_dependency_paths_inv env rdp ip ip' :
  apply_runtime_dependency_paths env rdp ip = Ok ip' ->
  exists ip1 ip2 ip3,
    assign_at [Item "initializationOptions"] "bundles"
      (VList [VStr (intellicode_jar_path rdp)]) ip = Ok ip1
    /\ assign_at [Item "initializationOptions"; Setdefault "settings";
                  Setdefault "java"; Setdefault "configuration"] "runtimes"
         (VList [VDict [("name", VStr "JavaSE-17");
                        ("path", VStr (jre_home_path rdp));
                        ("default", VBool true)]]) ip1 = Ok ip2
    /\ path_exists env (jre_home_path rdp) = true
    /\ assign_at [Item "initializationOptions"; Setdefault "settings";
                  Setdefault "java"; Setdefault "import"; Setdefault "gradle"] "home"
         (VStr (gradle_path rdp)) ip2 = Ok ip3
    /\ assign_at [Item "initializationOptions"; Item "settings"; Item "java";
                  Item "import"; Item "gradle"; Setdefault "java"] "home"
         (VStr (jre_path rdp)) ip3 = Ok ip'.
Proof.
  unfold apply_runtime_dependency_paths. intros H.
  destruct (in_item "initializationOptions" (setitem "bundles" _) ip)
    as [ip1|] eqn:E1; [|discriminate].
  cbn [bind] in H.
  destruct (in_item "initializationOptions" _ ip1) as [ip2|] eqn:E2; [|discriminate].
  cbn [bind] in H.
  pose proof (getpath_assign
                [Item "initializationOptions"; Setdefault "settings";
                 Setdefault "java"; Setdefault "configuration"] "runtimes" _ _ _ E2)
    as Hg.
  cbn [assigned_path map app hop_key getpath] in Hg.
  destruct (getitem ip2 "initializationOptions") as [x1|]; [|discriminate].
  cbn [bind] in H, Hg.
  destruct (getitem x1 "settings") as [x2|]; [|discriminate].
  cbn [bind] in H, Hg.
  destruct (getitem x2 "java") as [x3|]; [|discriminate].
  cbn [bind] in H, Hg.
  destruct (getitem x3 "configuration") as [x4|]; [|discriminate].
  cbn [bind] in H, Hg.
  destruct (getitem x4 "runtimes") as [x5|]; [|discriminate].
  cbn [bind] in H, Hg. injection Hg as ->.
  cbn [iter bind check_runtimes] in H. simpl in H.
  destruct (path_exists env (jre_home_path rdp)) eqn:Hexists; [|discriminate].
  simpl in H.
  destruct (in_item "initializationOptions" _ ip2) as [ip3|] eqn:E3; [|discriminate].
  cbn [bind] in H.
  exists ip1, ip2, ip3. by repeat split.
Qed.

(** X8: when the Java configuration returns a document, the repository
    path it leaves in the configuration is absolute, the document's
    [workspaceFolders] is the one folder of that path and
    [initializationOptions.workspaceFolders] is its URI, whether or not the
    parameter file had these keys and whether or not runtime paths are
    configured. *)
Theorem eclipse_document_names_the_workspace env self d self' :
  EclipseJDTLSConfig_get_initialization_params env self = Ok (d, self') ->
  exists repo,
    repository_absolute_path (base self') = Some repo
    /\ os_path_isabs repo = true
    /\ runtime_dependency_paths self' = runtime_dependency_paths self
    /\ getpath ["workspaceFolders"] (VDict d)
       = Ok (VList [workspace_folder (uri_of_abs env repo) (os_path_basename repo)])
    /\ getpath ["initializationOptions"; "workspaceFolders"] (VDict d)
       = Ok (VList [VStr (uri_of_abs env repo)]).
Proof.
  unfold EclipseJDTLSConfig_get_initialization_params. intros H.
  destruct (get_initialization_params env (base self)) as [ip0|]; [|discriminate].
  cbn [bind] in H.
  destruct (repository_absolute_path (base self)) as [repo0|] eqn:Hrepo0;
    [|discriminate].
  cbn [os_path_isabs_opt bind default_of] in H.
  set (selfN := if negb (os_path_isabs repo0)
                then set_repository_absolute_path self (abspath env repo0)
                else self) in *.
  set (repo := default_of (repository_absolute_path (base selfN)) "") in *.
  assert (HrepoN : repository_absolute_path (base selfN) = Some repo).
  { unfold repo, selfN. destruct (negb (os_path_isabs repo0)); simpl; [done|].
    by rewrite Hrepo0. }
  assert (HrdpN : runtime_dependency_paths selfN = runtime_dependency_paths self).
  { unfold selfN. by destruct (negb (os_path_isabs repo0)). }
  unfold Path_as_uri in H.
  destruct (os_path_isabs repo) eqn:Habs; [|discriminate].
  cbn [bind] in H.
  match type of H with
  | context [in_item "initializationOptions" ?f ?c] =>
      destruct (in_item "initializationOptions" f c) as [ip1|] eqn:E1; [|discriminate]
  end.
  cbn [bind] in H.
  destruct (setitem "workspaceFolders" _ ip1) as [ip2|] eqn:E2; [|discriminate].
  cbn [bind] in H.
  assert (Hopts1 : getpath ["initializationOptions"; "workspaceFolders"] ip1
                   = Ok (VList [VStr (uri_of_abs env repo)])).
  { exact (getpath_assign [Item "initializationOptions"] "workspaceFolders" _ _ _ E1). }
  assert (Hopts2 : getpath ["initializationOptions"; "workspaceFolders"] ip2
                   = Ok (VList [VStr (uri_of_abs env repo)])).
  { apply (getpath_assign_other [] "workspaceFolders" _ _ _ _ _ E2); [|exact Hopts1].
    left. discriminate. }
  assert (Hwf2 : getpath ["workspaceFolders"] ip2
                 = Ok (VList [workspace_folder (uri_of_abs env repo)
                                (os_path_basename repo)])).
  { exact (getpath_assign [] "workspaceFolders" _ _ _ E2). }
  assert (Hfinal : exists ip3,
             (InitializeParams_of ip3 = Ok d)
             /\ getpath ["workspaceFolders"] ip3
                = Ok (VList [workspace_folder (uri_of_abs env repo)
                               (os_path_basename repo)])
             /\ getpath ["initializationOptions"; "workspaceFolders"] ip3
                = Ok (VList [VStr (uri_of_abs env repo)])
             /\ self' = selfN).
  { destruct (runtime_dependency_paths selfN) as [rdp|].
    - destruct (apply_runtime_dependency_paths env rdp ip2) as [ip3|] eqn:E3;
        [|discriminate].
      cbn [bind] in H.
      destruct (InitializeParams_of ip3) as [d'|] eqn:Hd; [|discriminate].
      cbn [bind] in H. injection H as <- <-.
      exists ip3. split; [done|].
      apply apply_runtime_dependency_paths_inv in E3
        as (j1 & j2 & j3 & A1 & A2 & _ & A3 & A4).
      split; [|split; [|done]].
      + eapply (getpath_assign_other _ _ _ _ _ _ _ A4); [left; discriminate|].
        eapply (getpath_assign_other _ _ _ _ _ _ _ A3); [left; discriminate|].
        eapply (getpath_assign_other _ _ _ _ _ _ _ A2); [left; discriminate|].
        eapply (getpath_assign_other _ _ _ _ _ _ _ A1); [left; discriminate|].
        exact Hwf2.
      + eapply (getpath_assign_other _ _ _ _ _ _ _ A4);
          [right; split; [done|left; discriminate]|].
        eapply (getpath_assign_other _ _ _ _ _ _ _ A3);
          [right; split; [done|left; discriminate]|].
        eapply (getpath_assign_other _ _ _ _ _ _ _ A2);
          [right; split; [done|left; discriminate]|].
        eapply (getpath_assign_other _ _ _ _ _ _ _ A1);
          [right; split; [done|left; discriminate]|].
        exact Hopts2.
    - cbn [bind] in H.
      destruct (InitializeParams_of ip2) as [d'|] eqn:Hd; [|discriminate].
      cbn [bind] in H. injection H as <- <-. by exists ip2. }
  destruct Hfinal as (ip3 & Hd & Hwf & Hopts & ->).
  assert (ip3 = VDict d) as ->.
  { destruct ip3; try discriminate. by injection Hd as ->. }
  exists repo. by repeat split.
Qed.

Lemma eclipse_document_names_the_workspace_witness :
  exists d,
    getpath ["workspaceFolders"] (VDict d)
    = Ok (VList [workspace_folder "file:///srv/project" "project"])
    /\ getpath ["initializationOptions"; "workspaceFolders"] (VDict d)
       = Ok (VList [VStr "file:///srv/project"]).
Proof.
  assert (H : exists r,
             EclipseJDTLSConfig_get_initialization_params sample_env eclipse_with_runtime
             = Ok r).
  { vm_compute. by eexists. }
  destruct H as [[d self'] H]. exists d.
  destruct (eclipse_document_names_the_workspace sample_env eclipse_with_runtime
              d self' H) as (repo & Hrepo & _ & _ & Hwf & Hopts).
  assert (repo = "/srv/project") as ->.
  { vm_compute in H. injection H as _ <-. simpl in Hrepo. by injection Hrepo as <-. }
  by split.
Defined.

(** X9: with runtime paths configured, the Java configuration returns a
    document only if the JRE home exists on disk, and the document then
    carries the IntelliCode jar as the one bundle, the JRE home as the
    default [JavaSE-17] runtime, the Gradle home, and the Java binary for
    Gradle. *)
Theorem eclipse_document_carries_runtime_paths env self d self' rdp :
  runtime_dependency_paths self = Some rdp ->
  EclipseJDTLSConfig_get_initialization_params env self = Ok (d, self') ->
  path_exists env (jre_home_path rdp) = true
  /\ getpath ["initializationOptions"; "bundles"] (VDict d)
     = Ok (VList [VStr (intellicode_jar_path rdp)])
  /\ getpath ["initializationOptions"; "settings"; "java"; "configuration"; "runtimes"]
       (VDict d)
     = Ok (VList [VDict [("name", VStr "JavaSE-17");
                         ("path", VStr (jre_home_path rdp));
                         ("default", VBool true)]])
  /\ getpath ["initializationOptions"; "settings"; "java"; "import"; "gradle"; "home"]
       (VDict d)
     = Ok (VStr (gradle_path rdp))
  /\ getpath ["initializationOptions"; "settings"; "java"; "import"; "gradle";
              "java"; "home"] (VDict d)
     = Ok (VStr (jre_path rdp)).
Proof.
  unfold EclipseJDTLSConfig_get_initialization_params. intros Hrdp H.
  destruct (get_initialization_params env (base self)) as [ip0|]; [|discriminate].
  cbn [bind] in H.
  destruct (os_path_isabs_opt _) as [isabs|]; [|discriminate].
  cbn [bind] in H.
  destruct (Path_as_uri env _) as [uri|]; [|discriminate].
  cbn [bind] in H.
  match type of H with
  | context [in_item "initializationOptions" ?f ?c] =>
      destruct (in_item "initializationOptions" f c) as [ip1|]; [|discriminate]
  end.
  cbn [bind] in H.
  destruct (setitem "workspaceFolders" _ ip1) as [ip2|]; [|discriminate].
  cbn [bind] in H.
  assert (Hsame : runtime_dependency_paths
                    (if negb isabs
                     then set_repository_absolute_path self
                            (abspath env (default_of (repository_absolute_path (base self)) ""))
                     else self) = Some rdp).
  { by destruct (negb isabs). }
  rewrite Hsame in H.
  destruct (apply_runtime_dependency_paths env rdp ip2) as [ip3|] eqn:E3;
    [|discriminate].
  cbn [bind] in H.
  destruct (InitializeParams_of ip3) as [d'|] eqn:Hd; [|discriminate].
  cbn [bind] in H. injection H as <- _.
  assert (ip3 = VDict d') as ->.
  { destruct ip3; try discriminate. by injection Hd as ->. }
  apply apply_runtime_dependency_paths_inv in E3
    as (j1 & j2 & j3 & A1 & A2 & Hexists & A3 & A4).
  split; [exact Hexists|]. split; [|split; [|split]].
  - eapply (getpath_assign_other _ _ _ _ _ _ _ A4);
      [right; split; [done|left; discriminate]|].
    eapply (getpath_assign_other _ _ _ _ _ _ _ A3);
      [right; split; [done|left; discriminate]|].
    eapply (getpath_assign_other _ _ _ _ _ _ _ A2);
      [right; split; [done|left; discriminate]|].
    exact (getpath_assign _ _ _ _ _ A1).
  - eapply (getpath_assign_other _ _ _ _ _ _ _ A4);
      [do 3 (right; split; [done|]); left; discriminate|].
    eapply (getpath_assign_other _ _ _ _ _ _ _ A3);
      [do 3 (right; split; [done|]); left; discriminate|].
    exact (getpath_assign _ _ _ _ _ A2).
  - eapply (getpath_assign_other _ _ _ _ _ _ _ A4);
      [do 5 (right; split; [done|]); left; discriminate|].
    exact (getpath_assign _ _ _ _ _ A3).
  - exact (getpath_assign _ _ _ _ _ A4).
Qed.

Lemma eclipse_document_carries_runtime_paths_witness :
  exists d,
    getpath ["initializationOptions"; "settings"; "java"; "import"; "gradle"; "home"]
      (VDict d)
    = Ok (VStr "/pkg/static/gradle-7.3.3").
Proof.
  assert (H : exists r,
             EclipseJDTLSConfig_get_initialization_params sample_env eclipse_with_runtime
             = Ok r).
  { vm_compute. by eexists. }
  destruct H as [[d self'] H]. exists d.
  exact (proj1 (proj2 (proj2 (proj2
           (eclipse_document_carries_runtime_paths sample_env eclipse_with_runtime
              d self' sample_rdp eq_refl H))))).
Defined.

(** The Java configuration writes at [workspaceFolders] and below
    [initializationOptions] only: every other top-level key holds what
    the base class left there. *)
Lemma eclipse_frame env self d self' k v :
  k <> "initializationOptions" -> k <> "workspaceFolders" ->
  EclipseJDTLSConfig_get_initialization_params env self = Ok (d, self') ->
  exists d0,
    get_initialization_params env (base self) = Ok d0
    /\ (dict_get k d0 = Some v -> dict_get k d = Some v).
Proof.
  intros Hk1 Hk2. unfold EclipseJDTLSConfig_get_initialization_params. intros H.
  destruct (get_initialization_params env (base self)) as [ip0|]; [|discriminate].
  cbn [bind] in H. exists ip0. split; [done|]. intros Hv.
  destruct (repository_absolute_path (base self)) as [repo0|]; [|discriminate].
  cbn [os_path_isabs_opt bind default_of] in H.
  set (selfN := if negb (os_path_isabs repo0)
                then set_repository_absolute_path self (abspath env repo0)
                else self) in *.
  set (repo := default_of (repository_absolute_path (base selfN)) "") in *.
  unfold Path_as_uri in H.
  destruct (os_path_isabs repo); [|discriminate].
  cbn [bind] in H.
  match type of H with
  | context [in_item "initializationOptions" ?f (VDict ?c)] =>
      assert (H0 : getpath [k] (VDict c) = Ok v);
      [|destruct (in_item "initializationOptions" f (VDict c)) as [ip1|] eqn:E1;
        [|discriminate]]
  end.
  { cbn [getpath]. destruct (negb (dict_contains "initializationOptions" ip0)).
    - rewrite getitem_dict_set_ne by done. simpl. by rewrite Hv.
    - simpl. by rewrite Hv. }
  cbn [bind] in H.
  destruct (setitem "workspaceFolders" _ ip1) as [ip2|] eqn:E2; [|discriminate].
  cbn [bind] in H.
  assert (H1 : getpath [k] ip1 = Ok v).
  { eapply (getpath_assign_other [Item "initializationOptions"] _ _ _ _ _ _ E1);
      [by left|exact H0]. }
  assert (H2 : getpath [k] ip2 = Ok v).
  { eapply (getpath_assign_other [] _ _ _ _ _ _ E2); [by left|exact H1]. }
  assert (H3 : getpath [k] (VDict d) = Ok v).
  { destruct (runtime_dependency_paths selfN) as [rdp|].
    - destruct (apply_runtime_dependency_paths env rdp ip2) as [ip3|] eqn:E3;
        [|discriminate].
      cbn [bind] in H.
      destruct ip3 as [| | | | |d3]; try discriminate.
      cbn [InitializeParams_of bind] in H. injection H as <- _.
      apply apply_runtime_dependency_paths_inv in E3
        as (j1 & j2 & j3 & A1 & A2 & _ & A3 & A4).
      eapply (getpath_assign_other _ _ _ _ _ _ _ A4); [by left|].
      eapply (getpath_assign_other _ _ _ _ _ _ _ A3); [by left|].
      eapply (getpath_assign_other _ _ _ _ _ _ _ A2); [by left|].
      eapply (getpath_assign_other _ _ _ _ _ _ _ A1); [by left|].
      exact H2.
    - cbn [bind] in H.
      destruct ip2 as [| | | | |d2]; try discriminate.
      cbn [InitializeParams_of bind] in H. injection H as <- _. exact H2. }
  cbn [getpath] in H3. simpl in H3.
  destruct (dict_get k d) as [x|]; [|discriminate].
  cbn [bind] in H3. by injection H3 as ->.
Qed.

(** With a repository path configured, the Java document's [rootPath]
    is that path. *)
Lemma eclipse_document_root env self d self' :
  EclipseJDTLSConfig_get_initialization_params env self = Ok (d, self') ->
  truthy_str (repository_absolute_path (base self)) = true ->
  dict_get "rootPath" d
  = Some (VStr (default_of (repository_absolute_path (base self)) "")).
Proof.
  intros H Hrepo.
  set (repo := default_of (repository_absolute_path (base self)) "").
  destruct (eclipse_frame env self d self' "rootPath" (VStr repo)
              ltac:(done) ltac:(done) H) as (d0 & Hd0 & Hkeep).
  destruct (get_initialization_params_inv env (base self) d0 Hd0)
    as (fp & _ & Hcases). cbv zeta in Hcases.
  destruct Hcases as [(_ & _ & Hd)|(Hfalse & _)]; [|congruence].
  apply Hkeep. rewrite Hd.
  rewrite dict_get_set_ne by done.
  destruct (dict_contains "workspaceFolders" _);
    rewrite ?(dict_get_set_ne "workspaceFolders") by done;
    rewrite dict_get_set_ne by done; apply dict_get_set_eq.
Qed.

(** X18: the Java configuration leaves the base class's work in place: a
    document it returns still has the calling process's identifier as
    [processId], and its [rootPath] and [rootUri] are those of the
    configured repository path. *)
Theorem eclipse_document_keeps_root_and_pid env self d self' :
  EclipseJDTLSConfig_get_initialization_params env self = Ok (d, self') ->
  dict_get "processId" d = Some (VInt (getpid env))
  /\ (truthy_str (repository_absolute_path (base self)) = true ->
      let repo := default_of (repository_absolute_path (base self)) "" in
      repository_absolute_path (base self') = Some repo
      /\ dict_get "rootPath" d = Some (VStr repo)
      /\ dict_get "rootUri" d = Some (VStr (uri_of_abs env repo))).
Proof.
  intros H.
  destruct (eclipse_frame env self d self' "processId" (VInt (getpid env))
              ltac:(done) ltac:(done) H) as (d0 & Hd0 & Hpid).
  destruct (get_initialization_params_inv env (base self) d0 Hd0)
    as (fp & _ & Hcases). cbv zeta in Hcases.
  split.
  { apply Hpid. destruct Hcases as [(_ & _ & ->)|(_ & _ & ->)]; apply dict_get_set_eq. }
  intros Hrepo. cbv zeta.
  destruct Hcases as [(_ & Habs & Hd)|(Hfalse & _)]; [|congruence].
  set (repo := default_of (repository_absolute_path (base self)) "") in *.
  split.
  { revert H. unfold EclipseJDTLSConfig_get_initialization_params.
    rewrite Hd0. cbn [bind].
    destruct (repository_absolute_path (base self)) as [repo0|] eqn:Hrepo0;
      [|discriminate].
    cbn [default_of] in repo. subst repo.
    cbn [os_path_isabs_opt bind default_of]. rewrite Habs. cbn [negb].
    rewrite Hrepo0. cbn [default_of]. intros H.
    repeat match type of H with
      | bind ?m _ = Ok _ => destruct m; [cbn [bind] in H|discriminate]
      end.
    injection H as _ <-. exact Hrepo0. }
  split.
  - destruct (eclipse_frame env self d self' "rootPath" (VStr repo)
                ltac:(done) ltac:(done) H) as (d0' & Hd0' & Hkeep).
    rewrite Hd0 in Hd0'. injection Hd0' as <-. apply Hkeep. rewrite Hd.
    rewrite dict_get_set_ne by done.
    destruct (dict_contains "workspaceFolders" _);
      rewrite ?(dict_get_set_ne "workspaceFolders") by done;
      rewrite dict_get_set_ne by done; apply dict_get_set_eq.
  - destruct (eclipse_frame env self d self' "rootUri"
                (VStr (uri_of_abs env repo)) ltac:(done) ltac:(done) H)
      as (d0' & Hd0' & Hkeep).
    rewrite Hd0 in Hd0'. injection Hd0' as <-. apply Hkeep. rewrite Hd.
    rewrite dict_get_set_ne by done.
    destruct (dict_contains "workspaceFolders" _);
      rewrite ?(dict_get_set_ne "workspaceFolders") by done;
      apply dict_get_set_eq.
Qed.

Lemma eclipse_document_keeps_root_and_pid_witness :
  exists d,
    dict_get "processId" d = Some (VInt (getpid sample_env))
    /\ dict_get "rootPath" d = Some (VStr "/srv/project").
Proof.
  assert (H : exists r,
             EclipseJDTLSConfig_get_initialization_params sample_env eclipse_with_runtime
             = Ok r).
  { vm_compute. by eexists. }
  destruct H as [[d self'] H]. exists d.
  destruct (eclipse_document_keeps_root_and_pid sample_env eclipse_with_runtime
              d self' H) as (Hpid & Hroot).
  split; [exact Hpid|]. exact (proj1 (proj2 (Hroot eq_refl))).
Defined.

End ConfigExtra.

(** ** More on provisioning *)

Module ProvisionExtra.
Import Config Provision ProvisionMore ProvisionFacts.
Local Open Scope stm_scope.

Section Setup.
Variable module_dir : string.
Variable manifest : val.
Variable fetch : val -> string -> val -> fsmap -> result unit * fsmap.

Lemma monotone_load_and_check_platform platformId :
  monotone (load_and_check_platform module_dir manifest platformId).
Proof.
  unfold load_and_check_platform.
  apply monotone_bind; [apply monotone_lift|]. intros rd.
  apply monotone_bind; [apply monotone_makedirs|]. intros _.
  apply monotone_bind; [apply monotone_lift|]. intros _. apply monotone_ret.
Qed.

(** X10: provisioning removes nothing: whether it returns or raises,
    every path that existed before the call exists after it, provided
    unpacking an archive removes no path. *)
Theorem setup_removes_no_path platformId w :
  keeps_paths fetch ->
  fs_le (fs w)
    (fs (snd (setupRuntimeDependencies module_dir manifest fetch platformId w))).
Proof.
  intros Hkeeps. revert w.
  change (monotone (setupRuntimeDependencies module_dir manifest fetch platformId)).
  unfold setupRuntimeDependencies, provision_artifacts.
  apply monotone_bind; [apply monotone_load_and_check_platform|]. intros rd.
  apply monotone_bind; [by apply monotone_provision_gradle|]. intros g.
  apply monotone_bind; [by apply monotone_provision_vscode_java|].
  intros [[[[jh jre] lo] la] co].
  apply monotone_bind; [by apply monotone_provision_intellicode|].
  intros [ij im]. apply monotone_ret.
Qed.

(** X11: a [RuntimeDependencyPaths] that is returned names only paths
    that exist when the call returns: all eight of them. *)
Theorem setup_returns_existing_paths platformId w paths w1 :
  keeps_paths fetch ->
  setupRuntimeDependencies module_dir manifest fetch platformId w = (Ok paths, w1) ->
  Forall (fun p => exists_in (fs w1) p = true)
    [gradle_path paths; lombok_jar_path paths; jre_path paths; jre_home_path paths;
     jdtls_launcher_jar_path paths; jdtls_readonly_config_path paths;
     intellicode_jar_path paths; intellisense_members_path paths].
Proof.
  intros Hkeeps Hrun.
  destruct (setup_success_inv module_dir manifest fetch platformId w paths w1
              Hkeeps Hrun) as (rd & d & _ & _ & Hdecl & <- & Hprov).
  apply declared_paths_inv in Hdecl
    as (dep & vs & jh & jre & lo & la & co & dep' & idir & ij & im
        & _ & _ & _ & _ & _ & _ & _ & _ & _ & _ & _ & ->).
  unfold provisioned in Hprov. cbn [d_gradle d_vscode_java d_intellicode app] in Hprov.
  cbn [d_paths gradle_path lombok_jar_path jre_path jre_home_path
         jdtls_launcher_jar_path jdtls_readonly_config_path
         intellicode_jar_path intellisense_members_path].
  repeat (apply Forall_cons_2;
          [apply Hprov;
           repeat first [apply list_elem_of_here | apply list_elem_of_further]|]).
  apply Forall_nil_2.
Qed.

Lemma sbind_raise {S A B} (m : stm S A) (k : A -> stm S B) (s s1 : S) (e : exn) :
  m s = (Raise e, s1) -> sbind m k s = (Raise e, s1).
Proof. intros H. unfold sbind. by rewrite H. Qed.

(** X12: the Gradle step has no retry and no partial success.  When
    Gradle is missing and the download raises, that exception leaves the
    function; when the download returns without having put Gradle in
    place, the function raises the assertion.  In both cases the one
    Gradle download is the only thing fetched: the other artifacts are
    not attempted. *)
Theorem gradle_download_failure_aborts platformId rd url archiveType w :
  let gradle := PurePath [module_dir; "static/gradle-7.3.3"] in
  let w0 := world_after_load module_dir w in
  let attempt := EDownload url (PurePath_parent gradle) archiveType in
  platformId ∈ platform_allow_list ->
  delitem "_description" manifest = Ok rd ->
  gradle_field rd "url" = Ok url ->
  gradle_field rd "archiveType" = Ok archiveType ->
  exists_in (fs w0) gradle = false ->
  (forall e m,
      fetch url (PurePath_parent gradle) archiveType (fs w0) = (Raise e, m) ->
      setupRuntimeDependencies module_dir manifest fetch platformId w
      = (Raise e, {| fs := m; log := log w0 ++ [attempt] |}))
  /\ (forall m,
        fetch url (PurePath_parent gradle) archiveType (fs w0) = (Ok tt, m) ->
        exists_in m gradle = false ->
        setupRuntimeDependencies module_dir manifest fetch platformId w
        = (Raise (AssertionError ""), {| fs := m; log := log w0 ++ [attempt] |})).
Proof.
  intros gradle w0 attempt Hplat Hdel Hurl Hty Hmissing.
  unfold gradle_field in Hurl, Hty.
  assert (Hdl : forall r m,
             fetch url (PurePath_parent gradle) archiveType (fs w0) = (r, m) ->
             download_and_extract_archive fetch url (PurePath_parent gradle)
               archiveType w0
             = (r, {| fs := m; log := log w0 ++ [attempt] |})).
  { intros r m Hfetch. unfold download_and_extract_archive, emit, sbind.
    cbn [fs log]. by rewrite Hfetch. }
  assert (Hgradle : forall r w1,
             (forall k : unit -> io string,
                 sbind (download_and_extract_archive fetch url (PurePath_parent gradle)
                          archiveType) k w0 = (r, w1)) ->
             provision_gradle module_dir fetch rd w0 = (r, w1)).
  { intros r w1 Hk. unfold provision_gradle. fold gradle.
    unfold sbind at 1. unfold os_path_exists at 1. rewrite Hmissing. cbn [negb].
    rewrite <- (Hk (fun _ => sbind (assert_exist [gradle]) (fun _ => ret gradle))).
    unfold sbind at 1. unfold sbind at 1. unfold lift at 1. rewrite Hurl.
    unfold sbind at 1. unfold lift at 1. rewrite Hty. reflexivity. }
  assert (Hsetup : forall e w1,
             provision_gradle module_dir fetch rd w0 = (Raise e, w1) ->
             setupRuntimeDependencies module_dir manifest fetch platformId w
             = (Raise e, w1)).
  { intros e w1 Hg. unfold setupRuntimeDependencies.
    rewrite (sbind_ok _ _ _ _ _
               (load_and_check_platform_allowed module_dir manifest platformId rd w
                  Hdel Hplat)).
    unfold provision_artifacts. by apply sbind_raise. }
  split.
  - intros e m Hfetch. apply Hsetup, Hgradle. intros k.
    apply sbind_raise. by apply Hdl.
  - intros m Hfetch Hstill. apply Hsetup.
    unfold provision_gradle. fold gradle.
    unfold sbind at 1. unfold os_path_exists at 1. rewrite Hmissing. cbn [negb].
    erewrite sbind_ok; cycle 1.
    { unfold sbind at 1. unfold lift at 1. rewrite Hurl.
      unfold sbind at 1. unfold lift at 1. rewrite Hty. by apply Hdl. }
    unfold assert_exist, os_path_exists, sbind, lift. cbn [fs]. by rewrite Hstill.
Qed.

End Setup.

Lemma setup_removes_no_path_witness :
  fs_le (fs installed_world)
    (fs (snd (setupRuntimeDependencies "/pkg" sample_manifest sample_fetch "linux-x64"
                installed_world))).
Proof.
  exact (setup_removes_no_path "/pkg" sample_manifest sample_fetch "linux-x64"
           installed_world sample_fetch_keeps_paths).
Defined.

Lemma setup_returns_existing_paths_witness :
  exists paths w1,
    setupRuntimeDependencies "/pkg" sample_manifest sample_fetch "linux-x64" empty_world
    = (Ok paths, w1)
    /\ exists_in (fs w1) (jre_path paths) = true
    /\ exists_in (fs w1) (intellisense_members_path paths) = true.
Proof.
  pose (r := setupRuntimeDependencies "/pkg" sample_manifest sample_fetch
               "linux-x64" empty_world).
  assert (Hr : exists paths, r = (Ok paths, snd r)).
  { vm_compute. by eexists. }
  destruct Hr as [paths Hr]. exists paths, (snd r). split; [exact Hr|].
  pose proof (setup_returns_existing_paths "/pkg" sample_manifest sample_fetch
                "linux-x64" empty_world paths (snd r) sample_fetch_keeps_paths Hr) as H.
  rewrite !Forall_cons in H. tauto.
Defined.

Lemma gradle_download_failure_aborts_witness :
  fst (setupRuntimeDependencies "/pkg" sample_manifest failing_fetch "linux-x64"
         empty_world)
  = Raise (OtherError "connection refused")
  /\ length (downloads
               (log (snd (setupRuntimeDependencies "/pkg" sample_manifest failing_fetch
                            "linux-x64" empty_world)))) = 1%nat.
Proof.
  pose proof (proj1 (gradle_download_failure_aborts "/pkg" sample_manifest failing_fetch
                       "linux-x64" _ _ _ empty_world
                       linux_x64_allowed eq_refl eq_refl eq_refl eq_refl)
                (OtherError "connection refused") _ eq_refl) as H.
  rewrite H. split; [reflexivity|]. by vm_compute.
Defined.

End ProvisionExtra.

(** ** More on the handshake *)

Module HandshakeExtra.
Import Handshake HandshakeMore HandshakeFacts.
Local Open Scope stm_scope.
Local Open Scope list_scope.

Lemma run_from_app self st inputs more :
  run_from self st (inputs ++ more) = run_from self (run_from self st inputs) more.
Proof. unfold run_from. apply fold_left_app. Qed.

(** X13: signals never reset: an event that is set at some point of a
    run is set at every later point, whatever is delivered in between. *)
Theorem signals_never_reset self inputs more s :
  is_set (run self inputs) s = true ->
  is_set (run self (inputs ++ more)) s = true.
Proof.
  intros H. unfold run. rewrite run_from_app. by apply events_stay_set.
Qed.

Lemma signals_never_reset_witness :
  is_set (run sample_session (handshake_inputs ++ [LeaveScope (Some caller_error)]))
    service_ready_event = true.
Proof.
  apply (signals_never_reset sample_session handshake_inputs
           [LeaveScope (Some caller_error)] service_ready_event).
  reflexivity.
Defined.



(** *** What the handlers set *)

Lemma is_set_Event_set s h st : is_set (snd (Event_set s h st)) s = true.
Proof.
  unfold Event_set. destruct (is_set st s) eqn:E; [done|]. simpl.
  by rewrite bool_decide_eq_true_2.
Qed.

Lemma is_set_Event_set_ne s h st s' :
  s' <> s -> is_set (snd (Event_set s h st)) s' = is_set st s'.
Proof.
  intros Hne. unfold Event_set. destruct (is_set st s); [done|]. simpl.
  by rewrite bool_decide_eq_false_2.
Qed.

Lemma getitem_contains c k v : getitem c k = Ok v -> contains (VStr k) c = Ok true.
Proof.
  destruct c; simpl; try discriminate.
  unfold dict_contains. by destruct (dict_get k d).
Qed.

Lemma handlers_keep_events_set_for_each items st s :
  is_set st s = true ->
  is_set (snd (for_each handle_registration items st)) s = true.
Proof.
  exact (respects_for_each
           (fun st st' => is_set st s = true -> is_set st' s = true)
           (fun _ H => H)
           (fun a b c Hab Hbc Ha => Hbc (Hab Ha))
           handle_registration items
           (respects_handle_registration
              (fun st st' => is_set st s = true -> is_set st' s = true)
              (fun _ H => H)
              (fun a b c Hab Hbc Ha => Hbc (Hab Ha))
              (fun s0 st0 => Event_set_keeps_set s0 _ st0 s)) st).
Qed.

Lemma lang_status_handler_keeps_set params st s :
  is_set st s = true -> is_set (snd (lang_status_handler params st)) s = true.
Proof.
  exact (respects_lang_status_handler
           (fun st st' => is_set st s = true -> is_set st' s = true)
           (fun _ H => H)
           (fun a b c Hab Hbc Ha => Hbc (Hab Ha))
           (fun s0 st0 => Event_set_keeps_set s0 _ st0 s) params st).
Qed.

Lemma register_capability_handler_keeps_set params st s :
  is_set st s = true -> is_set (snd (register_capability_handler params st)) s = true.
Proof.
  exact (respects_register_capability_handler
           (fun st st' => is_set st s = true -> is_set st' s = true)
           (fun _ H => H)
           (fun a b c Hab Hbc Ha => Hbc (Hab Ha))
           (fun s0 st0 => Event_set_keeps_set s0 _ st0 s) params st).
Qed.

Lemma register_sets_intellicode params st :
  announces_intellicode params ->
  is_set (snd (register_capability_handler params st))
    intellicode_enable_command_available = true.
Proof.
  intros (r & rest & opts & commands & H1 & H2 & H3 & H4 & H5).
  unfold register_capability_handler.
  rewrite (ProvisionFacts.sbind_lift _ _ _ _ (getitem_contains _ _ _ H1)).
  cbn [assert]. rewrite (ProvisionFacts.sbind_lift _ tt) by done.
  assert (Hregs : (regs <- getitem params "registrations" ;; iter regs)%py
                  = Ok (r :: rest)) by by rewrite H1.
  rewrite (ProvisionFacts.sbind_lift _ _ _ _ Hregs).
  cbn [for_each].
  assert (Hone : handle_registration r st
                 = Event_set intellicode_enable_command_available
                     register_capability_handler_id st).
  { unfold handle_registration.
    rewrite (ProvisionFacts.sbind_lift _ _ _ _ H2).
    change (eq (VStr "workspace/executeCommand") (VStr "textDocument/completion"))
      with false.
    unfold sbind at 1. cbn [ret].
    rewrite (ProvisionFacts.sbind_lift _ _ _ _ H2).
    change (eq (VStr "workspace/executeCommand") (VStr "workspace/executeCommand"))
      with true.
    assert (Hl : (opts <- getitem r "registerOptions" ;;
                  commands <- getitem opts "commands" ;;
                  contains (VStr "java.intellicode.enable") commands)%py = Ok true).
    { rewrite H3. cbn [bind]. by rewrite H4. }
    cbv iota. by rewrite (ProvisionFacts.sbind_lift _ _ _ _ Hl). }
  unfold sbind. rewrite Hone.
  pose proof (is_set_Event_set intellicode_enable_command_available
                register_capability_handler_id st) as Hset.
  destruct (Event_set intellicode_enable_command_available
              register_capability_handler_id st) as [[[]|e] st1]; cbn [snd] in *.
  - by apply handlers_keep_events_set_for_each.
  - exact Hset.
Qed.

Lemma status_sets_service_ready params st :
  reports_service_ready params ->
  is_set (snd (lang_status_handler params st)) service_ready_event = true.
Proof.
  intros [H1 H2]. unfold lang_status_handler.
  rewrite (ProvisionFacts.sbind_lift _ _ _ _ H1).
  change (eq (VStr "ServiceReady") (VStr "ServiceReady")) with true. cbv iota.
  rewrite (ProvisionFacts.sbind_lift _ _ _ _ H2).
  change (eq (VStr "ServiceReady") (VStr "ServiceReady")) with true. cbv iota.
  apply is_set_Event_set.
Qed.

(** *** A server that behaves *)

Section Progress.
Variable self : session.
Hypothesis members_there : members_path_exists self = true.
Hypothesis settings_there : has_settings self.

Lemma resume_initialized st response :
  at_pc st = AwaitInitialize ->
  capabilities_as_assumed response ->
  at_pc (resume self st (Completed (Ok response)))
  = if is_set st intellicode_enable_command_available
    then AwaitIntellicodeEnable else WaitIntellicodeCommand.
Proof.
  intros Hpc Hcap. unfold resume. rewrite Hpc. unfold after_initialize.
  apply check_init_response_spec in Hcap. rewrite Hcap.
  destruct settings_there as [settings ->].
  unfold wait_intellicode_command, send_intellicode_enable.
  cbn [is_set record]. rewrite members_there.
  by destruct (is_set st intellicode_enable_command_available).
Qed.

Lemma resume_woken_for_intellicode st :
  at_pc st = WaitIntellicodeCommand ->
  is_set st intellicode_enable_command_available = true ->
  at_pc (resume self st Wake) = AwaitIntellicodeEnable.
Proof.
  intros Hpc Hset. unfold resume. rewrite Hpc.
  unfold wait_intellicode_command, send_intellicode_enable.
  by rewrite Hset, members_there.
Qed.

Lemma resume_enabled st result :
  at_pc st = AwaitIntellicodeEnable ->
  truthy result = true ->
  at_pc (resume self st (Completed (Ok result)))
  = if is_set st service_ready_event then Ready else WaitServiceReady.
Proof.
  intros Hpc Htr. unfold resume. rewrite Hpc, Htr.
  unfold wait_service_ready, do_yield. cbn [is_set record].
  by destruct (is_set st service_ready_event).
Qed.

Lemma resume_woken_for_service_ready st :
  at_pc st = WaitServiceReady ->
  is_set st service_ready_event = true ->
  at_pc (resume self st Wake) = Ready.
Proof.
  intros Hpc Hset. unfold resume. rewrite Hpc.
  unfold wait_service_ready, do_yield. by rewrite Hset.
Qed.

(** X15: no signal is lost.  With the members file on disk and the
    settings in the initialization document, a server that answers
    [initialize] as assumed, announces the [java.intellicode.enable]
    command, acknowledges it with a truthy result and reports
    [ServiceReady] brings the session to the yield, both when the two
    signals arrive before the coroutine waits for them (no wake-up is
    needed then) and when each arrives while the coroutine waits. *)
Theorem behaving_server_reaches_ready response registration status result :
  capabilities_as_assumed response ->
  announces_intellicode registration ->
  reports_service_ready status ->
  truthy result = true ->
  at_pc (run self (signals_first response registration status result)) = Ready
  /\ at_pc (run self (signals_awaited response registration status result)) = Ready.
Proof.
  intros Hcap Hreg Hstatus Htr.
  set (s1 := step self initial Enter).
  set (s2 := step self s1 (Completed (Ok VNone))).
  assert (Hpc2 : at_pc s2 = AwaitInitialize) by reflexivity.
  split.
  - unfold run, run_from, signals_first. cbn [fold_left]. fold s1. fold s2.
    set (s3 := step self s2 (RegisterCapability registration)).
    assert (Hs3 : s3 = snd (register_capability_handler registration s2)) by reflexivity.
    assert (Hpc3 : at_pc s3 = AwaitInitialize).
    { rewrite Hs3. by rewrite register_capability_handler_keeps_pc. }
    assert (Hint3 : is_set s3 intellicode_enable_command_available = true).
    { rewrite Hs3. by apply register_sets_intellicode. }
    set (s4 := step self s3 (LanguageStatus status)).
    assert (Hs4 : s4 = snd (lang_status_handler status s3)).
    { unfold s4, step. by rewrite Hpc3. }
    assert (Hpc4 : at_pc s4 = AwaitInitialize).
    { rewrite Hs4. by rewrite lang_status_handler_keeps_pc. }
    assert (Hint4 : is_set s4 intellicode_enable_command_available = true).
    { rewrite Hs4. by apply lang_status_handler_keeps_set. }
    assert (Hsvc4 : is_set s4 service_ready_event = true).
    { rewrite Hs4. by apply status_sets_service_ready. }
    set (s5 := step self s4 (Completed (Ok response))).
    assert (Hpc5 : at_pc s5 = AwaitIntellicodeEnable).
    { unfold s5. cbn [step]. rewrite (resume_initialized s4 response Hpc4 Hcap).
      by rewrite Hint4. }
    assert (Hsvc5 : is_set s5 service_ready_event = true).
    { unfold s5. cbn [step]. by rewrite resume_keeps_events. }
    cbn [step]. fold s5. rewrite (resume_enabled s5 result Hpc5 Htr).
    by rewrite Hsvc5.
  - unfold run, run_from, signals_awaited. cbn [fold_left]. fold s1. fold s2.
    set (s3 := step self s2 (Completed (Ok response))).
    assert (Hpc3 : at_pc s3 = WaitIntellicodeCommand).
    { unfold s3. cbn [step]. by rewrite (resume_initialized s2 response Hpc2 Hcap). }
    set (s4 := step self s3 (RegisterCapability registration)).
    assert (Hs4 : s4 = snd (register_capability_handler registration s3)).
    { unfold s4, step. by rewrite Hpc3. }
    assert (Hpc4 : at_pc s4 = WaitIntellicodeCommand).
    { rewrite Hs4. by rewrite register_capability_handler_keeps_pc. }
    assert (Hint4 : is_set s4 intellicode_enable_command_available = true).
    { rewrite Hs4. by apply register_sets_intellicode. }
    set (s5 := step self s4 Wake).
    assert (Hpc5 : at_pc s5 = AwaitIntellicodeEnable).
    { unfold s5. cbn [step]. by apply resume_woken_for_intellicode. }
    set (s6 := step self s5 (Completed (Ok result))).
    assert (Hpc6 : at_pc s6
                   = if is_set s5 service_ready_event then Ready else WaitServiceReady).
    { unfold s6. cbn [step]. by apply resume_enabled. }
    set (s7 := step self s6 (LanguageStatus status)).
    assert (Hs7 : s7 = snd (lang_status_handler status s6)).
    { unfold s7, step. by destruct (at_pc s6); [destruct (is_set s5 _)|..]. }
    assert (Hpc7 : at_pc s7 = at_pc s6).
    { rewrite Hs7. by rewrite lang_status_handler_keeps_pc. }
    assert (Hsvc7 : is_set s7 service_ready_event = true).
    { rewrite Hs7. by apply status_sets_service_ready. }
    change (at_pc (resume self s7 Wake) = Ready).
    destruct (is_set s5 service_ready_event).
    + unfold resume. rewrite Hpc7, Hpc6. cbv iota. by rewrite Hpc7.
    + apply resume_woken_for_service_ready; [|done]. by rewrite Hpc7.
Qed.

End Progress.

Lemma behaving_server_reaches_ready_witness :
  at_pc (run sample_session
           (signals_first sample_init_response sample_registration
              sample_service_ready (VBool true))) = Ready
  /\ at_pc (run sample_session
              (signals_awaited sample_init_response sample_registration
                 sample_service_ready (VBool true))) = Ready.
Proof.
  apply (behaving_server_reaches_ready sample_session eq_refl).
  - by eexists.
  - apply check_init_response_spec. reflexivity.
  - by do 4 eexists.
  - by split.
  - reflexivity.
Defined.

(** *** The event nobody sets *)

Lemma handlers_leave_searcher_alone :
  let R := fun st st' : state =>
             is_set st' initialize_searcher_command_available
             = is_set st initialize_searcher_command_available in
  (forall params, respects R (register_capability_handler params))
  /\ (forall params, respects R (lang_status_handler params)).
Proof.
  intros R.
  assert (Rrefl : forall st, R st st) by done.
  assert (Rtrans : forall a b c, R a b -> R b c -> R a c).
  { unfold R. intros a b c Hab Hbc. by rewrite Hbc. }
  assert (Rset : forall s h, s <> initialize_searcher_command_available ->
                             respects R (Event_set s h)).
  { intros s h Hne st. apply is_set_Event_set_ne. by intros <-. }
  assert (Hone : forall registration, respects R (handle_registration registration)).
  { intros registration. unfold handle_registration.
    repeat first
      [ apply (respects_ret R Rrefl)
      | apply (respects_lift R Rrefl)
      | apply Rset; discriminate
      | apply (respects_bind R Rtrans); [|intros ?]
      | match goal with
        | |- respects _ (if ?c then _ else _) => destruct c
        end ]. }
  split; intros params.
  - unfold register_capability_handler.
    repeat first
      [ apply (respects_lift R Rrefl)
      | apply (respects_bind R Rtrans); [|intros ?] ].
    by apply (respects_for_each R Rrefl Rtrans).
  - unfold lang_status_handler.
    repeat first
      [ apply (respects_ret R Rrefl)
      | apply (respects_lift R Rrefl)
      | apply Rset; discriminate
      | apply (respects_bind R Rtrans); [|intros ?]
      | match goal with
        | |- respects _ (if ?c then _ else _) => destruct c
        end ].
Qed.

(** X16: [initialize_searcher_command_available] is created by
    [__init__] and then never set: in no run of the session, whatever the
    server sends, does any handler or the coroutine set it. *)
Theorem searcher_event_is_never_set self inputs :
  is_set (run self inputs) initialize_searcher_command_available = false.
Proof.
  unfold run.
  assert (H : forall st,
             is_set st initialize_searcher_command_available = false ->
             is_set (run_from self st inputs) initialize_searcher_command_available
             = false).
  { induction inputs as [|i inputs IH]; intros st Hst; simpl; [done|].
    apply IH. rewrite <- Hst.
    destruct handlers_leave_searcher_alone as [Hreg Hstatus].
    unfold step. destruct i; try apply resume_keeps_events.
    - destruct (at_pc st); try apply Hreg; done.
    - destruct (at_pc st); try apply Hstatus; done. }
  by apply H.
Qed.

(** *** The order of the teardown *)

Lemma precedes_app_plain P Q t l :
  precedes P Q t -> Forall (fun a => ~ Q a) l -> precedes P Q (t ++ l).
Proof.
  intros Hp. induction l as [|a l IH] using rev_ind; intros Hl.
  - by rewrite app_nil_r.
  - apply Forall_app in Hl as [Hl Ha]. rewrite Forall_singleton in Ha.
    rewrite app_assoc. apply precedes_snoc; [by apply IH|].
    intros Hq. by destruct Ha.
Qed.

Lemma teardown_plain st st' :
  teardown_inv st -> plain_step st st' -> teardown_inv st'.
Proof.
  intros [H1 H2 H3 H4] (l & Ht & Hl & Hready & Hpc).
  split; rewrite ?Ht.
  - apply precedes_app_plain; [done|].
    eapply Forall_impl; [exact Hl|]. by intros a Ha ->.
  - apply precedes_app_plain; [done|].
    eapply Forall_impl; [exact Hl|]. by intros a Ha ->.
  - intros Hr. apply elem_of_app. right. by apply Hready.
  - done.
Qed.

Lemma teardown_Event_set s h st :
  teardown_inv st -> teardown_inv (snd (Event_set s h st)).
Proof.
  intros [H1 H2 H3 H4]. unfold Event_set. destruct (is_set st s); [done|].
  split; cbn [snd trace at_pc].
  - apply precedes_snoc; [done|]. intros [=].
  - apply precedes_snoc; [done|]. intros [=].
  - intros Hr. apply elem_of_app. left. by apply H3.
  - intros Hr. apply elem_of_app. left. by apply H4.
Qed.

Ltac plain_step_auto :=
  unfold after_initialize, wait_intellicode_command, send_intellicode_enable,
    wait_service_ready, do_yield, raise_in_body;
  repeat case_match;
  eexists; cbn [trace at_pc goto record]; rewrite <- ?app_assoc;
  (split; [first [reflexivity | symmetry; apply app_nil_r]|]);
  (split; [simpl; repeat constructor|]);
  (split; [|discriminate]);
  first [ by intros [=]
        | intros _; simpl;
          repeat first [apply list_elem_of_here | apply list_elem_of_further] ].

Lemma teardown_resume self st i :
  teardown_inv st -> teardown_inv (resume self st i).
Proof.
  intros Hinv. unfold resume.
  destruct (at_pc st) eqn:Hpc;
    destruct i as [|[r|err]| | | |[err|]]; try exact Hinv;
    try (apply (teardown_plain st); [exact Hinv | plain_step_auto]).
  - destruct Hinv as [H1 H2 H3 H4]. split; cbn [trace at_pc goto record].
    + apply precedes_snoc; [done|]. intros _. exists AYield. split; [by apply H3|done].
    + apply precedes_snoc; [done|]. intros [=].
    + intros [=].
    + intros _. apply elem_of_app. right. apply list_elem_of_here.
  - destruct Hinv as [H1 H2 H3 H4]. split; cbn [trace at_pc goto record].
    + apply precedes_snoc; [done|]. intros [=].
    + apply precedes_snoc; [done|]. intros _.
      exists AServerShutdown. split; [by apply H4|done].
    + intros [=].
    + intros [=].
Qed.

Lemma teardown_run self inputs : teardown_inv (run self inputs).
Proof.
  unfold run.
  assert (H : forall st, teardown_inv st -> teardown_inv (run_from self st inputs)).
  { induction inputs as [|i inputs IH]; intros st Hst; simpl; [done|].
    apply IH.
    exact (respects_step_handlers (fun st st' => teardown_inv st -> teardown_inv st')
             (fun _ H => H)
             (fun a b c Hab Hbc Ha => Hbc (Hab Ha))
             (fun s st0 => teardown_Event_set s _ st0) self st i
             (fun st0 => teardown_resume self st0 i) Hst). }
  apply H. split; simpl; try apply precedes_nil; discriminate.
Qed.

(** X17: the teardown is ordered and belongs to the yield.  In every
    run, [server.shutdown()] is called only after the session has
    yielded, and [server.stop()] only after [server.shutdown()]; so a
    session that has not yielded (a handshake that failed or is still
    waiting) never shuts the server down and never stops its process. *)
Theorem teardown_only_after_yield self inputs :
  let t := trace (run self inputs) in
  precedes (fun a => a = AYield) (fun a => a = AServerShutdown) t
  /\ precedes (fun a => a = AServerShutdown) (fun a => a = AServerStop) t
  /\ (AYield ∉ t -> (AServerShutdown ∉ t) /\ (AServerStop ∉ t)).
Proof.
  intros t. destruct (teardown_run self inputs) as [H1 H2 _ _]. fold t in H1, H2.
  split; [exact H1|]. split; [exact H2|].
  intros Hno.
  assert (Hshut : AServerShutdown ∉ t).
  { intros (t1 & t2 & Heq)%list_elem_of_split.
    destruct (H1 t1 AServerShutdown t2 Heq eq_refl) as (a & Ha & ->).
    apply Hno. rewrite Heq. apply elem_of_app. by left. }
  split; [exact Hshut|].
  intros (t1 & t2 & Heq)%list_elem_of_split.
  destruct (H2 t1 AServerStop t2 Heq eq_refl) as (a & Ha & ->).
  apply Hshut. rewrite Heq. apply elem_of_app. by left.
Qed.

Lemma teardown_only_after_yield_witness :
  let t := trace (run sample_session
                    [Enter; Completed (Ok VNone); Completed (Ok full_sync_response);
                     RegisterCapability sample_registration]) in
  (AServerShutdown ∉ t) /\ (AServerStop ∉ t).
Proof.
  intros t.
  apply (proj2 (proj2 (teardown_only_after_yield sample_session
                         [Enter; Completed (Ok VNone);
                          Completed (Ok full_sync_response);
                          RegisterCapability sample_registration]))).
  fold t. intros H. vm_compute in H.
  repeat (apply elem_of_cons in H as [H|H]; [discriminate|]).
  by apply elem_of_nil in H.
Defined.

(** *** What the handlers react to *)

Lemma eq_VStr_true x s : eq x (VStr s) = true -> x = VStr s.
Proof.
  destruct x; simpl; try discriminate. by intros ->%String.eqb_eq.
Qed.

Lemma for_each_app body xs ys st st1 :
  for_each body xs st = (Ok tt, st1) ->
  for_each body (xs ++ ys) st = for_each body ys st1.
Proof.
  revert st. induction xs as [|x xs IH]; intros st; simpl.
  - by intros [= <-].
  - unfold sbind at 1 2. destruct (body x st) as [[[]|e] st0]; [|discriminate].
    apply IH.
Qed.

Lemma handle_deviating_completion r st :
  deviating_completion r ->
  handle_registration r st = (Raise (AssertionError ""), st).
Proof.
  intros (opts & rp & Hm & Ho & Hrp & Hdev). unfold handle_registration.
  rewrite (ProvisionFacts.sbind_lift _ _ _ _ Hm).
  change (eq (VStr "textDocument/completion") (VStr "textDocument/completion"))
    with true.
  cbv iota. rewrite Ho. cbn [bind]. rewrite Hrp.
  unfold sbind at 1 2 3. cbn [lift].
  destruct (eq rp (VBool true)) eqn:E; cbn [assert]; [|done].
  destruct Hdev as [?|(tc & Htc & Hne)]; [done|].
  unfold sbind at 1 2. cbn [lift]. rewrite Htc. by rewrite Hne.
Qed.

(** X21: a completion registration that deviates from the assumed options
    aborts the whole request.  The handler raises [AssertionError]; what
    the registrations before it set stays set, and the registrations
    after it are not looked at, so a [java.intellicode.enable]
    announcement later in the same request is lost. *)
Theorem deviating_completion_aborts_request params before r rest st st1 :
  getitem params "registrations" = Ok (VList (before ++ r :: rest)) ->
  for_each handle_registration before st = (Ok tt, st1) ->
  deviating_completion r ->
  register_capability_handler params st = (Raise (AssertionError ""), st1).
Proof.
  intros Hregs Hbefore Hdev. unfold register_capability_handler.
  rewrite (ProvisionFacts.sbind_lift _ _ _ _ (getitem_contains _ _ _ Hregs)).
  cbn [assert]. rewrite (ProvisionFacts.sbind_lift _ tt) by done.
  assert (Hiter : (regs <- getitem params "registrations" ;; iter regs)%py
                  = Ok (before ++ r :: rest)%list) by by rewrite Hregs.
  rewrite (ProvisionFacts.sbind_lift _ _ _ _ Hiter).
  rewrite (for_each_app _ _ _ _ _ Hbefore). cbn [for_each].
  unfold sbind at 1. by rewrite handle_deviating_completion.
Qed.

Lemma deviating_completion_aborts_request_witness :
  register_capability_handler mixed_registration initial
  = (Raise (AssertionError ""), initial)
  /\ is_set (snd (register_capability_handler mixed_registration initial))
       intellicode_enable_command_available = false.
Proof.
  assert (H : register_capability_handler mixed_registration initial
              = (Raise (AssertionError ""), initial)).
  { apply (deviating_completion_aborts_request mixed_registration []
             comma_completion [intellicode_registration] initial initial).
    - reflexivity.
    - reflexivity.
    - exists (VDict [("resolveProvider", VBool true);
                     ("triggerCharacters", VList [VStr "."; VStr ","])]),
        (VBool true).
      repeat split; try reflexivity.
      right. by exists (VList [VStr "."; VStr ","]). }
  split; [exact H|]. by rewrite H.
Defined.

(** X22: [service_ready_event] is set by a [language/status] notification
    exactly when both its [type] and its [message] are [ServiceReady];
    and the notification touches no other event. *)
Theorem service_ready_needs_both_fields params st :
  is_set st service_ready_event = false ->
  (is_set (snd (lang_status_handler params st)) service_ready_event = true
   <-> reports_service_ready params)
  /\ (forall s,
        s <> service_ready_event ->
        is_set (snd (lang_status_handler params st)) s = is_set st s).
Proof.
  intros Hunset. split.
  - split; [|apply status_sets_service_ready].
    unfold lang_status_handler, reports_service_ready, sbind at 1, lift.
    destruct (getitem params "type") as [type|] eqn:Ht; cbn [snd]; [|congruence].
    destruct (eq type (VStr "ServiceReady")) eqn:Et; [|cbn; congruence].
    apply eq_VStr_true in Et as ->.
    unfold sbind at 1.
    destruct (getitem params "message") as [message|] eqn:Hm; cbn [snd];
      [|congruence].
    destruct (eq message (VStr "ServiceReady")) eqn:Em; [|cbn; congruence].
    by apply eq_VStr_true in Em as ->.
  - intros s Hs. unfold lang_status_handler, sbind at 1, lift.
    destruct (getitem params "type") as [type|]; cbn [snd]; [|done].
    destruct (eq type (VStr "ServiceReady")); [|done].
    unfold sbind at 1.
    destruct (getitem params "message") as [message|]; cbn [snd]; [|done].
    destruct (eq message (VStr "ServiceReady")); [|done].
    by apply is_set_Event_set_ne.
Qed.

Lemma service_ready_needs_both_fields_witness :
  is_set (snd (lang_status_handler project_status initial)) service_ready_event
  <> true.
Proof.
  intros H.
  apply (proj1 (service_ready_needs_both_fields project_status initial eq_refl))
    in H.
  destruct H as [H _]. discriminate H.
Defined.

End HandshakeExtra.

(** ** Construction of the Java server object *)

Module LaunchExtra.
Import Config Provision Launch ProvisionFacts ConfigExtra.
Local Open Scope stm_scope.

Lemma assert_static_inv (l : list string) (w w' : world) (u : unit) :
  assert_static l w = (Ok u, w') ->
  w' = w /\ Forall (fun p => exists_in (fs w) p = true) l.
Proof.
  induction l as [|p l IH]; simpl.
  - intros [= _ <-]. by split.
  - unfold sbind at 1 2, os_path_exists, lift.
    destruct (exists_in (fs w) p) eqn:Hp; simpl; [|discriminate].
    intros H. destruct (IH H) as [-> Hl]. split; [done|]. by apply Forall_cons_2.
Qed.

Section Init.
Variable os : OsEnv.
Variable jdtls_dir : string.
Variable manifest : val.
Variable fetch : val -> string -> val -> fsmap -> result unit * fsmap.
Variable platformId : string.
Variable language_server_directory : string.
Variable global_cache_directory : string.
Variable uuid_hex : string.

Local Abbreviation init :=
  (EclipseJDTLS_init os jdtls_dir manifest fetch platformId
     language_server_directory global_cache_directory uuid_hex).

(** X19: the configuration is consulted before anything is provisioned.
    When [get_initialization_params] raises, constructing the server
    object raises the same exception and the file system is as it was:
    no directory made, nothing downloaded.  In particular a Java
    configuration without a repository path never yields a server
    object. *)
Theorem construction_fails_before_provisioning config w :
  (forall e,
      EclipseJDTLSConfig_get_initialization_params (env_at os w) config = Raise e ->
      init config w = (Raise e, w))
  /\ (repository_absolute_path (base config) = None ->
      exists e, init config w = (Raise e, w)).
Proof.
  assert (Hfirst : forall e,
             EclipseJDTLSConfig_get_initialization_params (env_at os w) config
             = Raise e ->
             init config w = (Raise e, w)).
  { intros e He. unfold EclipseJDTLS_init, sbind at 1, config_get_initialization_params.
    by rewrite He. }
  split; [exact Hfirst|]. intros Hnone.
  destruct (EclipseJDTLSConfig_get_initialization_params (env_at os w) config)
    as [r|e] eqn:E; [|by exists e; apply Hfirst].
  exfalso. revert E. unfold EclipseJDTLSConfig_get_initialization_params.
  rewrite Hnone.
  by destruct (get_initialization_params (env_at os w) (base config)).
Qed.

(** X20: what a constructed server object is launched with.  The
    document and the configuration are those [get_initialization_params]
    gave on the file system as it was before provisioning; the process
    environment is [syntaxserver=false]; the working directory is the
    document's [rootPath], which is the repository path when one is
    configured; and the Java binary, the Lombok jar, the launcher jar,
    the session's copy of the server configuration and the read-only
    original all exist when the constructor returns. *)
Theorem constructed_instance_is_launchable config w inst w' :
  init config w = (Ok inst, w') ->
  let rdp := i_runtime_dependency_paths inst in
  let ws_dir :=
    PurePath [language_server_directory; "EclipseJDTLS"; "workspaces"; uuid_hex] in
  EclipseJDTLSConfig_get_initialization_params (env_at os w) config
  = Ok (i_initialize_params inst, i_config inst)
  /\ env (i_launch inst) = [("syntaxserver", "false")]
  /\ dict_get "rootPath" (i_initialize_params inst) = Some (cwd (i_launch inst))
  /\ (truthy_str (repository_absolute_path (base config)) = true ->
      cwd (i_launch inst)
      = VStr (default_of (repository_absolute_path (base config)) ""))
  /\ Forall (fun p => exists_in (fs w') p = true)
       [jre_path rdp; lombok_jar_path rdp; jdtls_launcher_jar_path rdp;
        PurePath [ws_dir; "config_path"]; jdtls_readonly_config_path rdp].
Proof.
  intros H rdp ws_dir. unfold EclipseJDTLS_init in H.
  apply sbind_inv in H as ([d c] & w0 & Hget & H).
  unfold config_get_initialization_params in Hget. injection Hget as Hget <-.
  apply sbind_inv in H as (paths & w1 & _ & H).
  apply sbind_inv in H as ([] & w2 & _ & H).
  apply sbind_inv in H as (here & w3 & _ & H).
  apply sbind_inv in H as ([] & w4 & _ & H).
  apply sbind_inv in H as ([] & w5 & Hstatic & H).
  apply sbind_inv in H as (proc_cwd & w6 & Hcwd & H).
  apply assert_static_inv in Hstatic as [-> Hstatic].
  apply lift_inv in Hcwd as [Hcwd ->].
  apply ret_inv in H as [-> ->].
  subst rdp. cbn [i_initialize_params i_config i_launch i_runtime_dependency_paths
                   env cwd].
  assert (Hroot : dict_get "rootPath" d = Some proc_cwd).
  { simpl in Hcwd. destruct (dict_get "rootPath" d); [|discriminate].
    by injection Hcwd as ->. }
  split; [exact Hget|]. split; [done|]. split; [exact Hroot|].
  split; [|exact Hstatic].
  intros Hrepo.
  pose proof (eclipse_document_root _ _ _ _ Hget Hrepo) as Hd.
  rewrite Hd in Hroot. by injection Hroot as <-.
Qed.

End Init.

Lemma construction_fails_before_provisioning_witness :
  exists e,
    EclipseJDTLS_init sample_env "/pkg" sample_manifest sample_fetch "linux-x64"
      "/home/me/.multilspy/lsp" "/home/me/.multilspy/cache" "0123abcd"
      eclipse_no_repo empty_world
    = (Raise e, empty_world).
Proof.
  apply (proj2 (construction_fails_before_provisioning sample_env "/pkg"
                  sample_manifest sample_fetch "linux-x64"
                  "/home/me/.multilspy/lsp" "/home/me/.multilspy/cache" "0123abcd"
                  eclipse_no_repo empty_world)).
  reflexivity.
Defined.

Lemma constructed_instance_is_launchable_witness :
  exists inst,
    cwd (i_launch inst) = VStr "/srv/project"
    /\ exists_in
         (fs (snd (EclipseJDTLS_init sample_env "/pkg" sample_manifest sample_fetch
                     "linux-x64" "/home/me/.multilspy/lsp"
                     "/home/me/.multilspy/cache" "0123abcd"
                     eclipse_repo empty_world)))
         (jre_path (i_runtime_dependency_paths inst)) = true.
Proof.
  destruct (EclipseJDTLS_init sample_env "/pkg" sample_manifest sample_fetch
              "linux-x64" "/home/me/.multilspy/lsp" "/home/me/.multilspy/cache"
              "0123abcd" eclipse_repo empty_world) as [[inst|e] w'] eqn:E;
    [|by vm_compute in E].
  exists inst.
  destruct (constructed_instance_is_launchable sample_env "/pkg" sample_manifest
              sample_fetch "linux-x64" "/home/me/.multilspy/lsp"
              "/home/me/.multilspy/cache" "0123abcd" eclipse_repo empty_world
              inst w' E) as (_ & _ & _ & Hcwd & Hpaths).
  split; [exact (Hcwd eq_refl)|]. cbn [snd].
  by apply Forall_cons_1 in Hpaths as [Hjre _].
Defined.

End LaunchExtra.
